(** * Mealio: households, recipe access grants, ingredient parsing and
      shopping-list aggregation

    A shallow embedding of the service layer in
    [backend/app/services.py] and [backend/app/ingredient_parser_service.py]
    over the tables declared in [backend/app/models.py].

    - A table is the list of its rows, in insertion order.  Columns that the
      modelled operations neither read nor write are left out of the rows.
    - A UUID is a number; [uuid.uuid4] and [secrets.choice] draw from a
      finite prefix of the process's random stream, carried in the state.
      A computation that needs more draws than the prefix holds stops with
      [OutOfEntropy].
    - The SQLAlchemy session is a pair of databases: what is committed and
      what the open transaction sees.  [commit] copies the second onto the
      first, [rollback] the first onto the second.
    - [db.add(row)] is the [INSERT] that the next flush (explicit, by a
      query, or by commit) performs; no service function catches its failure
      in between, so the row is inserted where it is added.  An [INSERT]
      checks the primary key, the unique constraints and the foreign keys
      that [models.py] declares, and raises [IntegrityError] when one is
      violated.  Where a service writes a text or a number that its caller
      chose freely (a role, a household or list name, a quantity), the
      width of the column is checked first, and a value that does not fit
      raises [DBAPIError].
    - A relationship attribute that the query loaded
      ([meal_plan.planned_meals] and [planned_meal.recipe] after
      [get_meal_plan]) is the query over the table it stands for.  One that
      the query did not load cannot be fetched on attribute access under
      [AsyncSession]: reading it raises [MissingGreenlet].
    - The external [ingredient_parser] library is a parameter of the parsing
      service.  Confidences are binary64 floats.
    - An [ORDER BY] on a column that the rows here do not keep is a
      parameter of the listing that uses it.
    - A handler of [routers/*.py] returns a value or raises; FastAPI's
      [HTTPException] is an exception like those of the services.  The
      current user is a parameter of the handler. *)

From Stdlib Require Import List ZArith NArith String Ascii Bool Lia Floats Permutation.
Import ListNotations.

(** ** Python and SQL values *)

Definition UUID := N.
Bind Scope N_scope with UUID.

(** A Python [Decimal] with two decimal places, counted in hundredths.  A
    [DECIMAL(10, 2)] column stores it when it has at most eight digits
    before the point. *)
Definition Decimal := Z.
Bind Scope Z_scope with Decimal.

Definition decimal_10_2 (q : option Decimal) : bool :=
  match q with
  | Some v => (Z.abs v <? 10 ^ 10)%Z
  | None => true
  end.

(** A [String(n)] column stores a text of at most [n] characters. *)
Definition fits (n : nat) (text : option string) : bool :=
  match text with
  | Some t => Nat.leb (String.length t) n
  | None => true
  end.

Definition uuid_eqb : UUID -> UUID -> bool := N.eqb.

(** SQL [column = value] on a nullable column: [NULL] matches nothing. *)
Definition sql_eq {A : Type} (eqb : A -> A -> bool) (column : option A) (value : A) : bool :=
  match column with
  | Some c => eqb c value
  | None => false
  end.

(** Python [a == b] between two optional values. *)
Definition py_eq {A : Type} (eqb : A -> A -> bool) (a b : option A) : bool :=
  match a, b with
  | Some x, Some y => eqb x y
  | None, None => true
  | _, _ => false
  end.

(** ** models.py *)

Module User.
Record t := mk { id : UUID; current_household_id : option UUID }.
End User.

Module Household.
Record t := mk
  { id : UUID; name : string; created_by : option UUID; invite_code : option string }.
End Household.

Module HouseholdMembership.
Record t := mk { id : UUID; household_id : UUID; user_id : UUID; role : string }.
End HouseholdMembership.

Module Ingredient.
Record t := mk { id : UUID; name : string; category : option string }.
End Ingredient.

Module Recipe.
Record t := mk { id : UUID; user_id : UUID; shared_with_household : option bool }.
End Recipe.

(** [ingredient_id] is declared [nullable=False] on recipe lines and on
    shopping-list items, so a row always carries one. *)
Module RecipeIngredient.
Record t := mk
  { id : UUID; recipe_id : UUID; ingredient_id : UUID;
    quantity : option Decimal; unit : option string }.
End RecipeIngredient.

Module MealPlan.
Record t := mk
  { id : UUID; user_id : UUID; household_id : UUID; name : option string }.
End MealPlan.

Module PlannedMeal.
Record t := mk
  { id : UUID; meal_plan_id : UUID; recipe_id : UUID; completed : option bool }.
End PlannedMeal.

Module ShoppingList.
Record t := mk
  { id : UUID; meal_plan_id : option UUID; user_id : UUID; household_id : UUID;
    name : option string }.
End ShoppingList.

Module ShoppingListItem.
Record t := mk
  { id : UUID; shopping_list_id : UUID; ingredient_id : UUID;
    quantity : option Decimal; unit : option string; category : option string }.
End ShoppingListItem.

Module RecipeHouseholdAccess.
Record t := mk
  { id : UUID; recipe_id : UUID; household_id : UUID; granted_by : option UUID }.
End RecipeHouseholdAccess.

(** ** The database *)

Record DB := mkDB
  { users : list User.t;
    households : list Household.t;
    household_memberships : list HouseholdMembership.t;
    ingredients : list Ingredient.t;
    recipes : list Recipe.t;
    recipe_ingredients : list RecipeIngredient.t;
    meal_plans : list MealPlan.t;
    planned_meals : list PlannedMeal.t;
    shopping_lists : list ShoppingList.t;
    shopping_list_items : list ShoppingListItem.t;
    recipe_household_access : list RecipeHouseholdAccess.t }.

Definition empty_db : DB := mkDB [] [] [] [] [] [] [] [] [] [] [].

Definition set_users (v : list User.t) (d : DB) : DB :=
  mkDB v (households d) (household_memberships d) (ingredients d) (recipes d)
       (recipe_ingredients d) (meal_plans d) (planned_meals d) (shopping_lists d)
       (shopping_list_items d) (recipe_household_access d).

Definition set_households (v : list Household.t) (d : DB) : DB :=
  mkDB (users d) v (household_memberships d) (ingredients d) (recipes d)
       (recipe_ingredients d) (meal_plans d) (planned_meals d) (shopping_lists d)
       (shopping_list_items d) (recipe_household_access d).

Definition set_household_memberships (v : list HouseholdMembership.t) (d : DB) : DB :=
  mkDB (users d) (households d) v (ingredients d) (recipes d)
       (recipe_ingredients d) (meal_plans d) (planned_meals d) (shopping_lists d)
       (shopping_list_items d) (recipe_household_access d).

Definition set_ingredients (v : list Ingredient.t) (d : DB) : DB :=
  mkDB (users d) (households d) (household_memberships d) v (recipes d)
       (recipe_ingredients d) (meal_plans d) (planned_meals d) (shopping_lists d)
       (shopping_list_items d) (recipe_household_access d).

Definition set_shopping_lists (v : list ShoppingList.t) (d : DB) : DB :=
  mkDB (users d) (households d) (household_memberships d) (ingredients d) (recipes d)
       (recipe_ingredients d) (meal_plans d) (planned_meals d) v
       (shopping_list_items d) (recipe_household_access d).

Definition set_shopping_list_items (v : list ShoppingListItem.t) (d : DB) : DB :=
  mkDB (users d) (households d) (household_memberships d) (ingredients d) (recipes d)
       (recipe_ingredients d) (meal_plans d) (planned_meals d) (shopping_lists d)
       v (recipe_household_access d).

Definition set_recipe_household_access (v : list RecipeHouseholdAccess.t) (d : DB) : DB :=
  mkDB (users d) (households d) (household_memberships d) (ingredients d) (recipes d)
       (recipe_ingredients d) (meal_plans d) (planned_meals d) (shopping_lists d)
       (shopping_list_items d) v.

(** *** Declared constraints *)

(** No two rows of [rows] have the same key. *)
Fixpoint unique_by {A K : Type} (eqb : K -> K -> bool) (key : A -> K) (rows : list A) : bool :=
  match rows with
  | [] => true
  | r :: rest => negb (existsb (fun r' => eqb (key r') (key r)) rest) && unique_by eqb key rest
  end.

(** A unique constraint on a nullable column: nulls never collide. *)
Definition unique_nullable {A K : Type} (eqb : K -> K -> bool) (key : A -> option K)
    (rows : list A) : bool :=
  unique_by (fun a b => match a with Some x => sql_eq eqb b x | None => false end) key rows.

Definition has_id {A : Type} (id : A -> UUID) (rows : list A) (k : UUID) : bool :=
  existsb (fun r => uuid_eqb (id r) k) rows.

Definition has_id_opt {A : Type} (id : A -> UUID) (rows : list A) (k : option UUID) : bool :=
  match k with
  | Some k' => has_id id rows k'
  | None => true
  end.

Definition pair_eqb (a b : UUID * UUID) : bool :=
  uuid_eqb (fst a) (fst b) && uuid_eqb (snd a) (snd b).

Definition access_key (a : RecipeHouseholdAccess.t) : UUID * UUID :=
  (RecipeHouseholdAccess.recipe_id a, RecipeHouseholdAccess.household_id a).

Definition user_ok (d : DB) (u : User.t) : bool :=
  has_id_opt Household.id (households d) (User.current_household_id u).

Definition household_ok (d : DB) (h : Household.t) : bool :=
  has_id_opt User.id (users d) (Household.created_by h).

Definition membership_ok (d : DB) (m : HouseholdMembership.t) : bool :=
  has_id Household.id (households d) (HouseholdMembership.household_id m)
  && has_id User.id (users d) (HouseholdMembership.user_id m).

Definition access_ok (d : DB) (a : RecipeHouseholdAccess.t) : bool :=
  has_id Recipe.id (recipes d) (RecipeHouseholdAccess.recipe_id a)
  && has_id Household.id (households d) (RecipeHouseholdAccess.household_id a)
  && has_id_opt User.id (users d) (RecipeHouseholdAccess.granted_by a).

Definition recipe_ok (d : DB) (r : Recipe.t) : bool :=
  has_id User.id (users d) (Recipe.user_id r).

Definition recipe_ingredient_ok (d : DB) (ri : RecipeIngredient.t) : bool :=
  has_id Recipe.id (recipes d) (RecipeIngredient.recipe_id ri)
  && has_id Ingredient.id (ingredients d) (RecipeIngredient.ingredient_id ri).

Definition meal_plan_ok (d : DB) (p : MealPlan.t) : bool :=
  has_id User.id (users d) (MealPlan.user_id p)
  && has_id Household.id (households d) (MealPlan.household_id p).

Definition planned_meal_ok (d : DB) (pm : PlannedMeal.t) : bool :=
  has_id MealPlan.id (meal_plans d) (PlannedMeal.meal_plan_id pm)
  && has_id Recipe.id (recipes d) (PlannedMeal.recipe_id pm).

Definition shopping_list_ok (d : DB) (s : ShoppingList.t) : bool :=
  has_id_opt MealPlan.id (meal_plans d) (ShoppingList.meal_plan_id s)
  && has_id User.id (users d) (ShoppingList.user_id s)
  && has_id Household.id (households d) (ShoppingList.household_id s).

Definition shopping_list_item_ok (d : DB) (i : ShoppingListItem.t) : bool :=
  has_id ShoppingList.id (shopping_lists d) (ShoppingListItem.shopping_list_id i)
  && has_id Ingredient.id (ingredients d) (ShoppingListItem.ingredient_id i).

(** The state satisfies every primary key, unique constraint and foreign key
    that the operations below rely on. *)
Definition db_ok (d : DB) : bool :=
  unique_by uuid_eqb User.id (users d)
  && forallb (user_ok d) (users d)
  && unique_by uuid_eqb Household.id (households d)
  && unique_nullable String.eqb Household.invite_code (households d)
  && forallb (household_ok d) (households d)
  && unique_by uuid_eqb HouseholdMembership.id (household_memberships d)
  && unique_by uuid_eqb HouseholdMembership.user_id (household_memberships d)
  && forallb (membership_ok d) (household_memberships d)
  && unique_by uuid_eqb Ingredient.id (ingredients d)
  && unique_by String.eqb Ingredient.name (ingredients d)
  && unique_by uuid_eqb Recipe.id (recipes d)
  && forallb (recipe_ok d) (recipes d)
  && forallb (recipe_ingredient_ok d) (recipe_ingredients d)
  && unique_by uuid_eqb MealPlan.id (meal_plans d)
  && forallb (meal_plan_ok d) (meal_plans d)
  && forallb (planned_meal_ok d) (planned_meals d)
  && unique_by uuid_eqb ShoppingList.id (shopping_lists d)
  && forallb (shopping_list_ok d) (shopping_lists d)
  && unique_by uuid_eqb ShoppingListItem.id (shopping_list_items d)
  && forallb (shopping_list_item_ok d) (shopping_list_items d)
  && unique_by uuid_eqb RecipeHouseholdAccess.id (recipe_household_access d)
  && unique_by pair_eqb access_key (recipe_household_access d)
  && forallb (access_ok d) (recipe_household_access d).

(** ** The session *)

Record World := mkWorld
  { committed : DB;       (* what other sessions and a rollback see *)
    pending : DB;         (* what this session's transaction sees *)
    entropy : list N }.   (* the random draws still to come *)

Definition session (d : DB) (rnd : list N) : World := mkWorld d d rnd.

Inductive Exn :=
| ValueError (msg : string)
| IntegrityError (constraint : string)
| DBAPIError (reason : string)
| MissingGreenlet
| MultipleResultsFound
| OutOfEntropy.

Inductive Outcome (A : Type) :=
| Return (a : A) (w : World)
| Raise (e : Exn) (w : World).
Arguments Return {A} a w.
Arguments Raise {A} e w.

Definition M (A : Type) := World -> Outcome A.

Definition ret {A : Type} (a : A) : M A := fun w => Return a w.

Definition bind {A B : Type} (m : M A) (k : A -> M B) : M B := fun w =>
  match m w with
  | Return a w' => k a w'
  | Raise e w' => Raise e w'
  end.

Definition raise {A : Type} (e : Exn) : M A := fun w => Raise e w.

Declare Scope session_scope.
Delimit Scope session_scope with session.
Notation "x <- m ;; k" := (bind m (fun x => k))
  (at level 100, m at next level, right associativity) : session_scope.
Notation "m ;;; k" := (bind m (fun _ => k))
  (at level 100, right associativity) : session_scope.
Open Scope session_scope.

(** [try: body except Exception: handler]. *)
Definition try_except {A : Type} (body : M A) (handler : Exn -> M A) : M A := fun w =>
  match body w with
  | Return a w' => Return a w'
  | Raise e w' => handler e w'
  end.

Definition read {A : Type} (f : DB -> A) : M A := fun w => Return (f (pending w)) w.

Definition write (f : DB -> DB) : M unit := fun w =>
  Return tt (mkWorld (committed w) (f (pending w)) (entropy w)).

Definition commit : M unit := fun w =>
  Return tt (mkWorld (pending w) (pending w) (entropy w)).

Definition rollback : M unit := fun w =>
  Return tt (mkWorld (committed w) (committed w) (entropy w)).

(** One draw from the random stream. *)
Definition draw : M N := fun w =>
  match entropy w with
  | [] => Raise OutOfEntropy w
  | n :: rest => Return n (mkWorld (committed w) (pending w) rest)
  end.

Definition uuid4 : M UUID := draw.

(** [select(...).where(...)] *)
Definition select {A : Type} (table : DB -> list A) (where_ : A -> bool) : M (list A) :=
  read (fun d => filter where_ (table d)).

(** [Result.scalar_one_or_none()] *)
Definition scalar_one_or_none {A : Type} (rows : list A) : M (option A) :=
  match rows with
  | [] => ret None
  | [r] => ret (Some r)
  | _ => raise MultipleResultsFound
  end.

(** [Result.scalars().first()] *)
Definition scalars_first {A : Type} (rows : list A) : option A := hd_error rows.

Definition check (ok : bool) (constraint : string) : M unit :=
  if ok then ret tt else raise (IntegrityError constraint).

(** *** INSERT, UPDATE, DELETE *)

Definition insert_household (h : Household.t) : M unit :=
  d <- read (fun d => d) ;;
  check (negb (has_id Household.id (households d) (Household.id h))) "households_pkey" ;;;
  check (negb (existsb (fun h' => match Household.invite_code h with
                                  | Some c => sql_eq String.eqb (Household.invite_code h') c
                                  | None => false
                                  end) (households d)))
        "households_invite_code_key" ;;;
  check (household_ok d h) "households_created_by_fkey" ;;;
  write (fun d => set_households (households d ++ [h]) d).

Definition insert_membership (m : HouseholdMembership.t) : M unit :=
  d <- read (fun d => d) ;;
  check (negb (has_id HouseholdMembership.id (household_memberships d)
                 (HouseholdMembership.id m)))
        "household_memberships_pkey" ;;;
  check (negb (existsb (fun m' => uuid_eqb (HouseholdMembership.user_id m')
                                    (HouseholdMembership.user_id m))
                 (household_memberships d)))
        "unique_user_household" ;;;
  check (membership_ok d m) "household_memberships_fkey" ;;;
  write (fun d => set_household_memberships (household_memberships d ++ [m]) d).

Definition delete_membership (m : HouseholdMembership.t) : M unit :=
  write (fun d => set_household_memberships
                    (filter (fun m' => negb (uuid_eqb (HouseholdMembership.id m')
                                               (HouseholdMembership.id m)))
                       (household_memberships d)) d).

Definition insert_access (a : RecipeHouseholdAccess.t) : M unit :=
  d <- read (fun d => d) ;;
  check (negb (has_id RecipeHouseholdAccess.id (recipe_household_access d)
                 (RecipeHouseholdAccess.id a)))
        "recipe_household_access_pkey" ;;;
  check (negb (existsb (fun a' => pair_eqb (access_key a') (access_key a))
                 (recipe_household_access d)))
        "unique_recipe_household_access" ;;;
  check (access_ok d a) "recipe_household_access_fkey" ;;;
  write (fun d => set_recipe_household_access (recipe_household_access d ++ [a]) d).

(** [user.current_household_id = value] on the row loaded with [user_id]. *)
Definition set_current_household (user_id : UUID) (value : option UUID) : M unit :=
  write (fun d => set_users
                    (map (fun u => if uuid_eqb (User.id u) user_id
                                   then User.mk (User.id u) value else u)
                       (users d)) d).

Fixpoint for_each {A : Type} (l : list A) (body : A -> M unit) : M unit :=
  match l with
  | [] => ret tt
  | x :: rest => body x ;;; for_each rest body
  end.

(** ** services.py: UserService *)

Definition get_user (user_id : UUID) : M (option User.t) :=
  rows <- select users (fun u => uuid_eqb (User.id u) user_id) ;;
  scalar_one_or_none rows.

(** ** services.py: RecipeService (access grants) *)

Definition grant_household_access (recipe_id household_id granted_by : UUID)
  : M (option RecipeHouseholdAccess.t) :=
  rows <- select recipe_household_access
            (fun a => uuid_eqb (RecipeHouseholdAccess.recipe_id a) recipe_id
                      && uuid_eqb (RecipeHouseholdAccess.household_id a) household_id) ;;
  existing_access <- scalar_one_or_none rows ;;
  match existing_access with
  | Some _ => ret None
  | None =>
      id <- uuid4 ;;
      let access_grant :=
        RecipeHouseholdAccess.mk id recipe_id household_id (Some granted_by) in
      insert_access access_grant ;;;
      commit ;;;
      ret (Some access_grant)
  end.

Definition can_user_edit_recipe (recipe_id user_id : UUID) : M bool :=
  rows <- select recipes (fun r => uuid_eqb (Recipe.id r) recipe_id) ;;
  recipe_owner <- scalar_one_or_none (map Recipe.user_id rows) ;;
  ret (py_eq uuid_eqb recipe_owner (Some user_id)).

(** ** services.py: HouseholdService *)

Definition characters : list ascii :=
  list_ascii_of_string "ABCDEFGHIJKLMNOPQRSTUVWXYZ0123456789".

(** [secrets.choice(seq)] *)
Definition secrets_choice (seq : list ascii) : M ascii :=
  n <- draw ;;
  ret (nth (N.to_nat (N.modulo n (N.of_nat (List.length seq)))) seq "000"%char).

Fixpoint generate_chars (length : nat) : M (list ascii) :=
  match length with
  | O => ret []
  | S k => c <- secrets_choice characters ;; cs <- generate_chars k ;; ret (c :: cs)
  end.

Definition generate_invite_code (length : nat) : M string :=
  cs <- generate_chars length ;;
  ret (string_of_list_ascii cs).

Definition get_household_by_invite_code (invite_code : string) : M (option Household.t) :=
  rows <- select households
            (fun h => sql_eq String.eqb (Household.invite_code h) invite_code) ;;
  scalar_one_or_none rows.

(** [select(Household).join(HouseholdMembership).where(user_id == ...)] *)
Definition get_user_household (user_id : UUID) : M (option Household.t) :=
  rows <- read (fun d =>
            flat_map (fun m => filter (fun h => uuid_eqb (Household.id h)
                                                  (HouseholdMembership.household_id m))
                                 (households d))
              (filter (fun m => uuid_eqb (HouseholdMembership.user_id m) user_id)
                 (household_memberships d))) ;;
  scalar_one_or_none rows.

Definition _grant_user_recipes_to_household (user_id household_id : UUID) : M unit :=
  user_shared_recipes <-
    select recipes (fun r => uuid_eqb (Recipe.user_id r) user_id
                             && sql_eq Bool.eqb (Recipe.shared_with_household r) true) ;;
  for_each (map Recipe.id user_shared_recipes)
    (fun recipe_id => grant_household_access recipe_id household_id user_id ;;; ret tt).

(** The [while] loop of [create_household]; every turn uses up random draws,
    so the number of draws left bounds the number of turns. *)
Fixpoint retry_invite_code (fuel : nat) (invite_code : string) : M string :=
  existing <- get_household_by_invite_code invite_code ;;
  match existing with
  | None => ret invite_code
  | Some _ =>
      match fuel with
      | O => raise OutOfEntropy
      | S fuel' =>
          invite_code' <- generate_invite_code 8 ;;
          retry_invite_code fuel' invite_code'
      end
  end.

Definition create_household (user_id : UUID) (name : string) : M Household.t :=
  invite_code <- generate_invite_code 8 ;;
  invite_code <- (fun w => retry_invite_code (List.length (entropy w)) invite_code w) ;;
  id <- uuid4 ;;
  let household := Household.mk id name (Some user_id) (Some invite_code) in
  insert_household household ;;;
  membership_id <- uuid4 ;;
  insert_membership (HouseholdMembership.mk membership_id id user_id "admin") ;;;
  user <- get_user user_id ;;
  match user with
  | Some _ => set_current_household user_id (Some id)
  | None => ret tt
  end ;;;
  _grant_user_recipes_to_household user_id id ;;;
  commit ;;;
  ret household.

Definition join_household (user_id : UUID) (invite_code : string)
  : M (option HouseholdMembership.t) :=
  household <- get_household_by_invite_code invite_code ;;
  match household with
  | None => ret None
  | Some household =>
      rows <- select household_memberships
                (fun m => uuid_eqb (HouseholdMembership.user_id m) user_id) ;;
      existing_membership <- scalar_one_or_none rows ;;
      match existing_membership with
      | Some _ => raise (ValueError "User is already in a household")
      | None =>
          id <- uuid4 ;;
          let membership :=
            HouseholdMembership.mk id (Household.id household) user_id "member" in
          insert_membership membership ;;;
          user <- get_user user_id ;;
          match user with
          | Some _ => set_current_household user_id (Some (Household.id household))
          | None => ret tt
          end ;;;
          _grant_user_recipes_to_household user_id (Household.id household) ;;;
          commit ;;;
          ret (Some membership)
      end
  end.

Definition leave_household (user_id : UUID) : M bool :=
  rows <- select household_memberships
            (fun m => uuid_eqb (HouseholdMembership.user_id m) user_id) ;;
  membership <- scalar_one_or_none rows ;;
  match membership with
  | None => ret false
  | Some membership =>
      user <- get_user user_id ;;
      match user with
      | Some _ => set_current_household user_id None
      | None => ret tt
      end ;;;
      delete_membership membership ;;;
      commit ;;;
      ret true
  end.

(** ** services.py: RecipeService (access checks) *)

Definition can_user_access_recipe (recipe_id user_id : UUID) : M bool :=
  rows <- select recipes (fun r => uuid_eqb (Recipe.id r) recipe_id) ;;
  recipe_owner <- scalar_one_or_none (map Recipe.user_id rows) ;;
  if py_eq uuid_eqb recipe_owner (Some user_id) then ret true
  else
    user_household <- get_user_household user_id ;;
    match user_household with
    | None => ret false
    | Some user_household =>
        rows <- select recipe_household_access
                  (fun a => uuid_eqb (RecipeHouseholdAccess.recipe_id a) recipe_id
                            && uuid_eqb (RecipeHouseholdAccess.household_id a)
                                 (Household.id user_household)) ;;
        access_check <- scalar_one_or_none rows ;;
        ret (match access_check with Some _ => true | None => false end)
    end.

(** ** services.py: MealPlanService and ShoppingListService *)

(** A value that does not fit its column makes the statement fail before
    any constraint is looked at. *)
Definition store (fits_column : bool) (reason : string) : M unit :=
  if fits_column then ret tt else raise (DBAPIError reason).

Definition insert_shopping_list (s : ShoppingList.t) : M unit :=
  d <- read (fun d => d) ;;
  store (fits 255 (ShoppingList.name s)) "value too long for type character varying(255)" ;;;
  check (negb (has_id ShoppingList.id (shopping_lists d) (ShoppingList.id s)))
        "shopping_lists_pkey" ;;;
  check (shopping_list_ok d s) "shopping_lists_fkey" ;;;
  write (fun d => set_shopping_lists (shopping_lists d ++ [s]) d).

Definition insert_shopping_list_item (i : ShoppingListItem.t) : M unit :=
  d <- read (fun d => d) ;;
  store (decimal_10_2 (ShoppingListItem.quantity i)) "numeric field overflow" ;;;
  store (fits 50 (ShoppingListItem.unit i)) "value too long for type character varying(50)" ;;;
  store (fits 100 (ShoppingListItem.category i))
        "value too long for type character varying(100)" ;;;
  check (negb (has_id ShoppingListItem.id (shopping_list_items d) (ShoppingListItem.id i)))
        "shopping_list_items_pkey" ;;;
  check (shopping_list_item_ok d i) "shopping_list_items_fkey" ;;;
  write (fun d => set_shopping_list_items (shopping_list_items d ++ [i]) d).

(** [get_meal_plan] loads the plan with [selectinload(MealPlan.planned_meals)
    .selectinload(PlannedMeal.recipe)]. *)
Definition get_meal_plan (meal_plan_id : UUID) : M (option MealPlan.t) :=
  rows <- select meal_plans (fun p => uuid_eqb (MealPlan.id p) meal_plan_id) ;;
  scalar_one_or_none rows.

(** The relationships the aggregation walks. *)
Definition planned_meals_of (d : DB) (meal_plan : MealPlan.t) : list PlannedMeal.t :=
  filter (fun pm => uuid_eqb (PlannedMeal.meal_plan_id pm) (MealPlan.id meal_plan))
    (planned_meals d).

Definition recipe_of (d : DB) (planned_meal : PlannedMeal.t) : option Recipe.t :=
  find (fun r => uuid_eqb (Recipe.id r) (PlannedMeal.recipe_id planned_meal)) (recipes d).

Definition recipe_ingredients_of (d : DB) (recipe : Recipe.t) : list RecipeIngredient.t :=
  filter (fun ri => uuid_eqb (RecipeIngredient.recipe_id ri) (Recipe.id recipe))
    (recipe_ingredients d).

Definition ingredient_of (d : DB) (ri : RecipeIngredient.t) : option Ingredient.t :=
  find (fun g => uuid_eqb (Ingredient.id g) (RecipeIngredient.ingredient_id ri))
    (ingredients d).

(** A relationship attribute that the query did not load, read on an object
    of the request's session.  The ORM would run [query] at this point; under
    [AsyncSession] the attribute access is not awaited, and the load raises
    [MissingGreenlet] instead. *)
Definition lazy_load {A : Type} (query : DB -> A) : M A := raise MissingGreenlet.

(** One value of the [ingredient_quantities] dict. *)
Record Accumulated := mkAccumulated
  { acc_quantity : Decimal;
    acc_unit : option string;
    acc_ingredient : option Ingredient.t }.

(** The dict itself, in insertion order. *)
Definition IngredientQuantities := list (UUID * Accumulated).

Definition dict_contains (k : UUID) (dict : IngredientQuantities) : bool :=
  existsb (fun e => uuid_eqb (fst e) k) dict.

(** [dict[k]['quantity'] += q] *)
Definition dict_add_quantity (k : UUID) (q : Decimal) (dict : IngredientQuantities)
  : IngredientQuantities :=
  map (fun e => if uuid_eqb (fst e) k
                then (fst e, mkAccumulated (acc_quantity (snd e) + q)%Z
                               (acc_unit (snd e)) (acc_ingredient (snd e)))
                else e) dict.

(** [quantity or 0] *)
Definition quantity_or_0 (q : option Decimal) : Decimal :=
  match q with
  | Some v => v
  | None => 0%Z
  end.

(** Truth value of an optional number. *)
Definition quantity_truthy (q : option Decimal) : bool :=
  match q with
  | Some v => negb (Z.eqb v 0)
  | None => false
  end.

(** A [for] loop that carries a value along. *)
Fixpoint for_each_with {A B : Type} (l : list B) (a : A) (body : A -> B -> M A) : M A :=
  match l with
  | [] => ret a
  | x :: rest => a' <- body a x ;; for_each_with rest a' body
  end.

(** The body of the inner loop; [recipe_ingredient.ingredient] is a
    relationship that nothing has loaded. *)
Definition add_line (dict : IngredientQuantities) (recipe_ingredient : RecipeIngredient.t)
  : M IngredientQuantities :=
  let ingredient_id := RecipeIngredient.ingredient_id recipe_ingredient in
  if negb (dict_contains ingredient_id dict) then
    ingredient <- lazy_load (fun d => ingredient_of d recipe_ingredient) ;;
    ret (dict ++ [(ingredient_id,
                   mkAccumulated (quantity_or_0 (RecipeIngredient.quantity recipe_ingredient))
                     (RecipeIngredient.unit recipe_ingredient)
                     ingredient)])
  else if quantity_truthy (RecipeIngredient.quantity recipe_ingredient) then
    ret (dict_add_quantity ingredient_id
           (quantity_or_0 (RecipeIngredient.quantity recipe_ingredient)) dict)
  else ret dict.

(** The body of the outer loop.  [planned_meal.recipe] came with the plan;
    [recipe.recipe_ingredients] did not, and the test of the [if] is the
    first to read it. *)
Definition add_planned_meal (dict : IngredientQuantities) (planned_meal : PlannedMeal.t)
  : M IngredientQuantities :=
  recipe <- read (fun d => recipe_of d planned_meal) ;;
  match recipe with
  | Some recipe =>
      recipe_ingredients <- lazy_load (fun d => recipe_ingredients_of d recipe) ;;
      match recipe_ingredients with
      | [] => ret dict
      | lines => for_each_with lines dict add_line
      end
  | None => ret dict
  end.

Definition aggregate_ingredients (meal_plan : MealPlan.t) : M IngredientQuantities :=
  planned_meals <- read (fun d => planned_meals_of d meal_plan) ;;
  for_each_with planned_meals [] add_planned_meal.

Definition shopping_list_name (meal_plan : MealPlan.t) : string :=
  String.append "Shopping List for "
    (match MealPlan.name meal_plan with
     | Some n => if String.eqb n "" then "Meal Plan" else n
     | None => "Meal Plan"
     end).

Definition item_of (shopping_list_id id : UUID) (entry : UUID * Accumulated)
  : ShoppingListItem.t :=
  ShoppingListItem.mk id shopping_list_id (fst entry)
    (Some (acc_quantity (snd entry)))
    (acc_unit (snd entry))
    (match acc_ingredient (snd entry) with
     | Some g => Ingredient.category g
     | None => None
     end).

Definition generate_shopping_list_from_meal_plan (user_id meal_plan_id : UUID)
  : M ShoppingList.t :=
  meal_plan <- get_meal_plan meal_plan_id ;;
  match meal_plan with
  | None => raise (ValueError "Meal plan not found")
  | Some meal_plan =>
      id <- uuid4 ;;
      let shopping_list :=
        ShoppingList.mk id (Some meal_plan_id) user_id (MealPlan.household_id meal_plan)
          (Some (shopping_list_name meal_plan)) in
      insert_shopping_list shopping_list ;;;
      ingredient_quantities <- aggregate_ingredients meal_plan ;;
      for_each ingredient_quantities
        (fun entry =>
           item_id <- uuid4 ;;
           insert_shopping_list_item (item_of id item_id entry)) ;;;
      commit ;;;
      ret shopping_list
  end.

(** ** ingredient_parser_service.py *)

(** [str.strip()] and [str.lower()], on ASCII text. *)
Definition is_space (c : ascii) : bool :=
  let n := nat_of_ascii c in
  ((9 <=? n) && (n <=? 13) || (28 <=? n) && (n <=? 32))%nat.

Fixpoint lstrip (cs : list ascii) : list ascii :=
  match cs with
  | c :: rest => if is_space c then lstrip rest else cs
  | [] => []
  end.

(** [str.strip] and [str.lower] on texts of ASCII characters. *)
Definition py_strip (s : string) : string :=
  string_of_list_ascii (rev (lstrip (rev (lstrip (list_ascii_of_string s))))).

Definition lower_char (c : ascii) : ascii :=
  let n := nat_of_ascii c in
  if ((65 <=? n) && (n <=? 90))%nat then ascii_of_nat (n + 32) else c.

Definition py_lower (s : string) : string :=
  string_of_list_ascii (map lower_char (list_ascii_of_string s)).

Module ingredient_parser.

(** A value of the [ingredient_parser] library as the service uses it:
    its truth value, what [float(...)] gives ([None] when it raises) and
    what [str(...)] gives. *)
Record PyValue := mkPyValue
  { py_bool : bool; py_float : option float; py_str : string }.

Record IngredientAmount := mkAmount
  { quantity : PyValue; unit : PyValue; confidence : float }.

Record IngredientText := mkText { text : string; text_confidence : float }.

(** [parsed.comment] and [parsed.preparation]: absent, an object with a
    [text] attribute, or a bare string. *)
Inductive Note :=
| NoNote
| TextNote (t : IngredientText)
| StrNote (s : string).

Record ParsedIngredient := mkParsed
  { name : list IngredientText;
    amount : list IngredientAmount;
    comment : Note;
    preparation : Note }.

End ingredient_parser.

Module Parsed.
(** The dict that [parse_ingredient_string] returns. *)
Record t := mk
  { quantity : option float;
    unit : option string;
    ingredient_name : option string;
    notes : option string;
    raw_text : string;
    parsing_confidence : float;
    parsed_successfully : bool }.
End Parsed.

Definition str_truthy (s : string) : bool := negb (String.eqb s "").

Definition note_truthy (n : ingredient_parser.Note) : bool :=
  match n with
  | ingredient_parser.NoNote => false
  | ingredient_parser.TextNote _ => true
  | ingredient_parser.StrNote s => str_truthy s
  end.

(** [n.text if hasattr(n, 'text') else str(n)] *)
Definition note_text (n : ingredient_parser.Note) : string :=
  match n with
  | ingredient_parser.NoNote => "None"
  | ingredient_parser.TextNote t => ingredient_parser.text t
  | ingredient_parser.StrNote s => s
  end.

#[warnings="-inexact-float"]
Definition default_confidence : float := 0.8%float.

#[warnings="-inexact-float"]
Definition fallback_confidence : float := 0.1%float.

(** The [except] branch. *)
Definition fallback (ingredient_text : string) : Parsed.t :=
  Parsed.mk None None (Some (py_lower (py_strip ingredient_text))) None
    ingredient_text fallback_confidence false.

Section IngredientParsingService.

(** The library's [parse_ingredient]; [None] when it raises. *)
Variable parse_ingredient : string -> option ingredient_parser.ParsedIngredient.

(** The [try] block; [None] when an exception escapes it. *)
Definition parse_ingredient_try (ingredient_text : string) : option Parsed.t :=
  match parse_ingredient ingredient_text with
  | None => None
  | Some parsed =>
      let from_amount :=
        match ingredient_parser.amount parsed with
        | amount :: _ =>
            match
              (if ingredient_parser.py_bool (ingredient_parser.quantity amount)
               then match ingredient_parser.py_float (ingredient_parser.quantity amount) with
                    | Some f => Some (Some f)
                    | None => None
                    end
               else Some None)
            with
            | None => None
            | Some quantity =>
                Some (quantity,
                      if ingredient_parser.py_bool (ingredient_parser.unit amount)
                      then Some (ingredient_parser.py_str (ingredient_parser.unit amount))
                      else None,
                      ingredient_parser.confidence amount)
            end
        | [] => Some (None, None, default_confidence)
        end in
      match from_amount with
      | None => None
      | Some (quantity, unit, amount_confidence) =>
          let '(ingredient_name, name_confidence) :=
            match ingredient_parser.name parsed with
            | name :: _ =>
                (if str_truthy (ingredient_parser.text name)
                 then Some (ingredient_parser.text name) else None,
                 ingredient_parser.text_confidence name)
            | [] => (None, default_confidence)
            end in
          let notes :=
            if note_truthy (ingredient_parser.comment parsed)
            then Some (note_text (ingredient_parser.comment parsed))
            else if note_truthy (ingredient_parser.preparation parsed)
            then Some (note_text (ingredient_parser.preparation parsed))
            else None in
          let overall_confidence := ((amount_confidence + name_confidence) / 2)%float in
          Some (Parsed.mk quantity unit
                  (match ingredient_name with
                   | Some n => Some (py_lower (py_strip n))
                   | None => None
                   end)
                  notes ingredient_text overall_confidence true)
      end
  end.

Definition parse_ingredient_string (ingredient_text : string) : Parsed.t :=
  match parse_ingredient_try ingredient_text with
  | Some result => result
  | None => fallback ingredient_text
  end.

End IngredientParsingService.

Definition insert_ingredient (g : Ingredient.t) : M unit :=
  d <- read (fun d => d) ;;
  check (negb (has_id Ingredient.id (ingredients d) (Ingredient.id g))) "ingredients_pkey" ;;;
  check (negb (existsb (fun g' => String.eqb (Ingredient.name g') (Ingredient.name g))
                 (ingredients d)))
        "ingredients_name_key" ;;;
  write (fun d => set_ingredients (ingredients d ++ [g]) d).

(** Catalog rows that other sessions commit while this one is between its
    [SELECT] and its [INSERT]. *)
Definition concurrent_commit (others : list Ingredient.t) : M unit := fun w =>
  Return tt (mkWorld (set_ingredients (ingredients (committed w) ++ others) (committed w))
                     (set_ingredients (ingredients (pending w) ++ others) (pending w))
                     (entropy w)).

Definition find_or_create_ingredient (others : list Ingredient.t) (ingredient_name : string)
  : M (option Ingredient.t) :=
  if negb (str_truthy ingredient_name) then ret None
  else
    let normalized_name := py_lower (py_strip ingredient_name) in
    rows <- select ingredients (fun g => String.eqb (Ingredient.name g) normalized_name) ;;
    match scalars_first rows with
    | Some existing_ingredient => ret (Some existing_ingredient)
    | None =>
        concurrent_commit others ;;;
        try_except
          (id <- uuid4 ;;
           let new_ingredient := Ingredient.mk id normalized_name None in
           insert_ingredient new_ingredient ;;;
           commit ;;;
           ret (Some new_ingredient))
          (fun _ => rollback ;;; ret None)
    end.

(** * What the operations are checked against *)

(** The user is the owner recorded on the recipe row. *)
Definition owns (d : DB) (user_id recipe_id : UUID) : Prop :=
  exists r, In r (recipes d) /\ Recipe.id r = recipe_id /\ Recipe.user_id r = user_id.

(** The user has a membership row in the household. *)
Definition member_of (d : DB) (user_id household_id : UUID) : Prop :=
  exists m, In m (household_memberships d)
            /\ HouseholdMembership.user_id m = user_id
            /\ HouseholdMembership.household_id m = household_id.

(** An access grant exists for the pair (recipe, household). *)
Definition granted (d : DB) (recipe_id household_id : UUID) : Prop :=
  exists a, In a (recipe_household_access d)
            /\ RecipeHouseholdAccess.recipe_id a = recipe_id
            /\ RecipeHouseholdAccess.household_id a = household_id.

(** The grants of one pair. *)
Definition grants_for (d : DB) (recipe_id household_id : UUID) : list RecipeHouseholdAccess.t :=
  filter (fun a => pair_eqb (access_key a) (recipe_id, household_id))
    (recipe_household_access d).

Definition memberships_of_user (d : DB) (user_id : UUID) : list HouseholdMembership.t :=
  filter (fun m => uuid_eqb (HouseholdMembership.user_id m) user_id) (household_memberships d).

Definition memberships_of_household (d : DB) (household_id : UUID)
  : list HouseholdMembership.t :=
  filter (fun m => uuid_eqb (HouseholdMembership.household_id m) household_id)
    (household_memberships d).

(** * Further notions used in the statements, and sample states *)

Definition users_ab : list User.t := [User.mk 1 (Some 10%N); User.mk 2 (Some 10%N)].

(** Users 1 and 2 share household 10; user 1 owns recipe 100, which is
    granted to the household. *)
Definition shared_db : DB :=
  mkDB users_ab
       [Household.mk 10 "Home" (Some 1%N) (Some "ABCD1234"%string)]
       [HouseholdMembership.mk 20 10 1 "admin"; HouseholdMembership.mk 21 10 2 "member"]
       [] [Recipe.mk 100 1 (Some true)] [] [] [] [] []
       [RecipeHouseholdAccess.mk 30 100 10 (Some 1%N)].

(** Household 10 has no grant yet on recipe 101 of user 2. *)
Definition two_recipes_db : DB :=
  mkDB users_ab
       [Household.mk 10 "Home" (Some 1%N) (Some "ABCD1234"%string)]
       [HouseholdMembership.mk 20 10 1 "admin"; HouseholdMembership.mk 21 10 2 "member"]
       [] [Recipe.mk 100 1 (Some true); Recipe.mk 101 2 (Some false)] [] [] [] [] []
       [RecipeHouseholdAccess.mk 30 100 10 (Some 1%N)].

(** The state differs only by access grants appended in the open transaction. *)
Definition only_grants_added (w w' : World) : Prop :=
  exists new,
    pending w' = set_recipe_household_access
                   (recipe_household_access (pending w) ++ new) (pending w).

(** User 3 has a shared recipe 102 and a private recipe 103, and belongs to
    no household yet. *)
Definition join_db : DB :=
  mkDB (users_ab ++ [User.mk 3 None])
       [Household.mk 10 "Home" (Some 1%N) (Some "ABCD1234"%string)]
       [HouseholdMembership.mk 20 10 1 "admin"; HouseholdMembership.mk 21 10 2 "member"]
       []
       [Recipe.mk 100 1 (Some true); Recipe.mk 102 3 (Some true); Recipe.mk 103 3 (Some false)]
       [] [] [] [] []
       [RecipeHouseholdAccess.mk 30 100 10 (Some 1%N)].

Definition join_world : World := session join_db [40%N; 41%N].

(** Drawing random values leaves both databases alone. *)
Definition same_db (w w' : World) : Prop :=
  pending w' = pending w /\ committed w' = committed w.

(** Household 10 already holds the code AAAAAAAA; user 3 is in no household. *)
Definition create_db : DB :=
  mkDB (users_ab ++ [User.mk 3 None])
       [Household.mk 10 "Home" (Some 1%N) (Some "AAAAAAAA"%string)]
       [HouseholdMembership.mk 20 10 1 "admin"; HouseholdMembership.mk 21 10 2 "member"]
       []
       [Recipe.mk 100 1 (Some true); Recipe.mk 102 3 (Some true)]
       [] [] [] [] [] [].

(** The first eight draws spell AAAAAAAA, the next eight BBBBBBBB; then come
    the ids of the household, of the membership and of one grant. *)
Definition create_world : World :=
  session create_db (repeat 0%N 8 ++ repeat 1%N 8 ++ [50%N; 51%N; 52%N]).

(** An exception escapes the [try] block: the parser raises, or the first
    amount carries a quantity that [float] rejects. *)
Definition parsing_raises (parse_ingredient : string -> option ingredient_parser.ParsedIngredient)
    (ingredient_text : string) : Prop :=
  parse_ingredient ingredient_text = None
  \/ exists parsed amount rest,
       parse_ingredient ingredient_text = Some parsed
       /\ ingredient_parser.amount parsed = amount :: rest
       /\ ingredient_parser.py_bool (ingredient_parser.quantity amount) = true
       /\ ingredient_parser.py_float (ingredient_parser.quantity amount) = None.

(** The confidence that the first amount reports, 0.8 without one. *)
Definition amount_confidence_of (parsed : ingredient_parser.ParsedIngredient) : float :=
  match ingredient_parser.amount parsed with
  | amount :: _ => ingredient_parser.confidence amount
  | [] => default_confidence
  end.

(** A parser that raises on the empty string and on one odd line, finds an
    amount but no name in "2 cups", and parses any other line as the pizza
    sauce line. *)
#[warnings="-inexact-float"]
Definition sample_parser (ingredient_text : string)
  : option ingredient_parser.ParsedIngredient :=
  if String.eqb ingredient_text "" || String.eqb ingredient_text "  Salt, To Taste " then None
  else if String.eqb ingredient_text "2 cups" then
    Some (ingredient_parser.mkParsed []
            [ingredient_parser.mkAmount
               (ingredient_parser.mkPyValue true (Some 2%float) "2")
               (ingredient_parser.mkPyValue true None "cup") 1%float]
            ingredient_parser.NoNote ingredient_parser.NoNote)
  else
    Some (ingredient_parser.mkParsed
            [ingredient_parser.mkText "Pizza Sauce" 1%float]
            [ingredient_parser.mkAmount
               (ingredient_parser.mkPyValue true (Some 2%float) "2")
               (ingredient_parser.mkPyValue true None "tablespoon") 1%float]
            ingredient_parser.NoNote ingredient_parser.NoNote).

(** The state after a lost race: the other sessions' rows are committed and
    this session's transaction is rolled back onto them. *)
Definition after_lost_race (w : World) (others : list Ingredient.t) (rnd : list N) : World :=
  let c := set_ingredients (ingredients (committed w) ++ others) (committed w) in
  mkWorld c c rnd.

(** Another session commits flour while this one is about to insert it. *)
Definition flour : Ingredient.t := Ingredient.mk 7 "flour" (Some "baking"%string).

(** A plan of household 10 with two planned meals; both recipes have a
    flour line, of 2 and of 3 cups.  Plan 71 has no planned meal. *)
Definition sugar : Ingredient.t := Ingredient.mk 9 "sugar" None.

Definition plan_db : DB :=
  mkDB users_ab
       [Household.mk 10 "Home" (Some 1%N) (Some "ABCD1234"%string)]
       [HouseholdMembership.mk 20 10 1 "admin"; HouseholdMembership.mk 21 10 2 "member"]
       [flour; sugar]
       [Recipe.mk 100 1 (Some true); Recipe.mk 101 2 (Some true)]
       [RecipeIngredient.mk 60 100 7 (Some 200%Z) (Some "cup"%string);
        RecipeIngredient.mk 62 101 7 (Some 300%Z) (Some "cup"%string);
        RecipeIngredient.mk 64 101 9 (Some 50%Z) (Some "gram"%string)]
       [MealPlan.mk 70 1 10 None; MealPlan.mk 71 1 10 (Some "Empty week"%string)]
       [PlannedMeal.mk 80 70 100 (Some true); PlannedMeal.mk 81 70 101 (Some false)]
       [] [] [].

Definition plan_world : World := session plan_db [90%N; 91%N; 92%N; 93%N].

(** What the propagation loop needs of the state: new ids to draw, a grants
    table with its unique pair constraint, and the household and the
    granting user on file. *)
Definition can_grant (w : World) (household_id granted_by : UUID) (gids : list UUID)
    (rest : list N) : Prop :=
  entropy w = gids ++ rest
  /\ NoDup gids
  /\ (forall g, In g gids ->
        has_id RecipeHouseholdAccess.id (recipe_household_access (pending w)) g = false)
  /\ unique_by pair_eqb access_key (recipe_household_access (pending w)) = true
  /\ has_id Household.id (households (pending w)) household_id = true
  /\ has_id User.id (users (pending w)) granted_by = true.

(** The shared recipes of a user, as the propagation selects them. *)
Definition shared_recipes (d : DB) (user_id : UUID) : list UUID :=
  map Recipe.id
    (filter (fun r => uuid_eqb (Recipe.user_id r) user_id
                      && sql_eq Bool.eqb (Recipe.shared_with_household r) true)
       (recipes d)).

(** The code spelled by eight draws. *)
Definition code_of (draws : list N) : string :=
  string_of_list_ascii
    (map (fun n => nth (N.to_nat (N.modulo n (N.of_nat (List.length characters))))
                     characters "000"%char) draws).

(** Some household holds the code. *)
Definition held (d : DB) (code : string) : bool :=
  existsb (fun h => sql_eq String.eqb (Household.invite_code h) code) (households d).

(** The loop starts with code [c] and then draws the blocks [bs]: every code
    but the last is held, the last one is free. *)
Fixpoint retries (d : DB) (c : string) (bs : list (list N)) : Prop :=
  match bs with
  | [] => held d c = false
  | b :: bs' => held d c = true /\ List.length b = 8%nat /\ retries d (code_of b) bs'
  end.

(** The code the loop ends with. *)
Fixpoint final_code (c : string) (bs : list (list N)) : string :=
  match bs with
  | [] => c
  | b :: bs' => final_code (code_of b) bs'
  end.

(** * More of the services *)

(** ** ingredient_parser_service.py: batches and statistics *)

(** The dict that [get_parsing_stats] returns; the [average_confidence] key
    is absent for an empty batch. *)
Module ParsingStats.
Record t := mk
  { total : nat;
    parsed_successfully : nat;
    success_rate : float;
    average_confidence : option float }.
End ParsingStats.

(** An [int] count as a float; exact below 2^53. *)
Definition float_of_nat (n : nat) : float :=
  PrimFloat.of_uint63 (Uint63.of_Z (Z.of_nat n)).

Section IngredientBatches.

(** The library's [parse_ingredient]; [None] when it raises. *)
Variable parse_ingredient : string -> option ingredient_parser.ParsedIngredient.

(** The interpreter's [sum] over floats; how it rounds depends on the
    interpreter version. *)
Variable py_sum : list float -> float.

Fixpoint parse_ingredients_batch (ingredient_texts : list string) : list Parsed.t :=
  match ingredient_texts with
  | [] => []
  | ingredient_text :: rest =>
      if str_truthy ingredient_text && str_truthy (py_strip ingredient_text)
      then parse_ingredient_string parse_ingredient ingredient_text
             :: parse_ingredients_batch rest
      else parse_ingredients_batch rest
  end.

Definition get_parsing_stats (parsed_ingredients : list Parsed.t) : ParsingStats.t :=
  let total_count := List.length parsed_ingredients in
  if Nat.eqb total_count 0 then ParsingStats.mk 0 0 0%float None
  else
    let successful_count :=
      List.length (filter Parsed.parsed_successfully parsed_ingredients) in
    let avg_confidence :=
      (py_sum (map Parsed.parsing_confidence parsed_ingredients)
       / float_of_nat total_count)%float in
    ParsingStats.mk total_count successful_count
      (float_of_nat successful_count / float_of_nat total_count)%float
      (Some avg_confidence).

End IngredientBatches.

(** ** services.py: RecipeService, numbers in scraped text *)

Definition is_digit (c : ascii) : bool :=
  let n := nat_of_ascii c in ((48 <=? n) && (n <=? 57))%nat.

Definition is_digit_or_dot (c : ascii) : bool :=
  is_digit c || Ascii.eqb c "."%char.

(** The text from the first character that satisfies [p] on. *)
Fixpoint skip_to (p : ascii -> bool) (cs : list ascii) : list ascii :=
  match cs with
  | [] => []
  | c :: rest => if p c then cs else skip_to p rest
  end.

(** The longest prefix whose characters all satisfy [p]. *)
Fixpoint take_while (p : ascii -> bool) (cs : list ascii) : list ascii :=
  match cs with
  | [] => []
  | c :: rest => if p c then c :: take_while p rest else []
  end.

(** [re.search(r'(p+)', text)]: the leftmost, longest run of characters of
    the class; [None] without a match. *)
Definition re_search_run (p : ascii -> bool) (text : string) : option (list ascii) :=
  match take_while p (skip_to p (list_ascii_of_string text)) with
  | [] => None
  | run => Some run
  end.

(** For [_parse_servings] a text is the sequence of its code points: both
    [\d] and [int] read every Unicode decimal digit, not only 0 to 9. *)
Definition CodePoint := N.

(** The list from the first element that satisfies [p] on. *)
Fixpoint drop_until {A : Type} (p : A -> bool) (l : list A) : list A :=
  match l with
  | [] => []
  | x :: rest => if p x then l else drop_until p rest
  end.

(** The longest prefix whose elements all satisfy [p]. *)
Fixpoint longest_prefix {A : Type} (p : A -> bool) (l : list A) : list A :=
  match l with
  | [] => []
  | x :: rest => if p x then x :: longest_prefix p rest else []
  end.

(** [re.search(r'(\d+)', text)]: the leftmost, longest run; [None] without
    a match. *)
Definition first_run {A : Type} (p : A -> bool) (text : list A) : option (list A) :=
  match longest_prefix p (drop_until p text) with
  | [] => None
  | run => Some run
  end.

(** What a function without a [try] gives: a value, or the [ValueError] of a
    conversion. *)
Inductive Raising (A : Type) :=
| Gives (a : A)
| RaisesValueError.
Arguments Gives {A} a.
Arguments RaisesValueError {A}.

Section ParseServings.

(** [\d]: the decimal digits of Unicode (category Nd). *)
Variable is_decimal : CodePoint -> bool.

(** [int(text)] on a run of decimal digits; [None] when it raises
    [ValueError], as it does for a run longer than the interpreter's limit
    on the digits of an integer. *)
Variable py_int : list CodePoint -> option N.

Definition _parse_servings (yields_text : list CodePoint) : Raising (option N) :=
  match yields_text with
  | [] => Gives None
  | _ =>
      match first_run is_decimal yields_text with
      | Some digits =>
          match py_int digits with
          | Some n => Gives (Some n)
          | None => RaisesValueError
          end
      | None => Gives None
      end
  end.

End ParseServings.

(** The code points of a text of the sample states. *)
Definition code_points (text : string) : list CodePoint :=
  map (fun c => N.of_nat (nat_of_ascii c)) (list_ascii_of_string text).

(** The digits 0 to 9, and an [int] that reads them up to 4300 digits. *)
Definition sample_decimal (c : CodePoint) : bool := ((48 <=? c) && (c <=? 57))%N.

Definition sample_int (digits : list CodePoint) : option N :=
  if Nat.ltb 4300 (List.length digits) then None
  else Some (fold_left (fun acc c => (10 * acc + (c - 48))%N) digits 0%N).

Section ParseNumericValue.

(** [float(text)]; [None] when it raises [ValueError]. *)
Variable py_float_of_string : string -> option float.

Definition _parse_numeric_value (value : string) : option float :=
  if negb (str_truthy value) then None
  else
    match re_search_run is_digit_or_dot value with
    | Some run => py_float_of_string (string_of_list_ascii run)
    | None => None
    end.

End ParseNumericValue.

(** A line that is neither empty nor blank. *)
Definition not_blank (ingredient_text : string) : bool :=
  str_truthy ingredient_text && str_truthy (py_strip ingredient_text).

(** The parser and the conversions raise nothing on the line. *)
Definition parses (parse_ingredient : string -> option ingredient_parser.ParsedIngredient)
    (ingredient_text : string) : bool :=
  match parse_ingredient_try parse_ingredient ingredient_text with
  | Some _ => true
  | None => false
  end.

(** A [float] that knows two texts: "256" is a number, "." is not. *)
Definition sample_float (text : string) : option float :=
  if String.eqb text "256" then Some 256%float else None.

(** ** services.py: the other household and grant operations *)

Definition delete_access (a : RecipeHouseholdAccess.t) : M unit :=
  write (fun d => set_recipe_household_access
                    (filter (fun a' => negb (uuid_eqb (RecipeHouseholdAccess.id a')
                                               (RecipeHouseholdAccess.id a)))
                       (recipe_household_access d)) d).

Definition revoke_household_access (recipe_id household_id : UUID) : M bool :=
  rows <- select recipe_household_access
            (fun a => uuid_eqb (RecipeHouseholdAccess.recipe_id a) recipe_id
                      && uuid_eqb (RecipeHouseholdAccess.household_id a) household_id) ;;
  access_grant <- scalar_one_or_none rows ;;
  match access_grant with
  | None => ret false
  | Some access_grant =>
      delete_access access_grant ;;;
      commit ;;;
      ret true
  end.

(** [select(Household).where(Household.id == household_id)] *)
Definition get_household (household_id : UUID) : M (option Household.t) :=
  rows <- select households (fun h => uuid_eqb (Household.id h) household_id) ;;
  scalar_one_or_none rows.

(** [household.members] *)
Definition members (d : DB) (household : Household.t) : list HouseholdMembership.t :=
  filter (fun m => uuid_eqb (HouseholdMembership.household_id m) (Household.id household))
    (household_memberships d).

(** The fields that a [HouseholdUpdate] sets: [name] may be left unset, set
    to null, or set to a text. *)
Definition HouseholdUpdate := option (option string).

Definition update_household (household_id : UUID) (household_data : HouseholdUpdate)
  : M (option Household.t) :=
  household <- get_household household_id ;;
  match household with
  | None => ret None
  | Some household =>
      match household_data with
      | None => commit ;;; ret (Some household)
      | Some None => raise (IntegrityError "households_name_not_null")
      | Some (Some name) =>
          let updated :=
            Household.mk (Household.id household) name (Household.created_by household)
              (Household.invite_code household) in
          (* an attribute set to the value it has sends no UPDATE *)
          if String.eqb (Household.name household) name
          then commit ;;; ret (Some household)
          else
            store (fits 255 (Some name))
                  "value too long for type character varying(255)" ;;;
            write (fun d => set_households
                              (map (fun h => if uuid_eqb (Household.id h) household_id
                                             then updated else h)
                                 (households d)) d) ;;;
            commit ;;;
            ret (Some updated)
      end
  end.

(** [CheckConstraint("role IN ('admin', 'member')")] *)
Definition role_ok (role : string) : bool :=
  String.eqb role "admin" || String.eqb role "member".

Definition select_membership (household_id user_id : UUID)
  : M (option HouseholdMembership.t) :=
  rows <- select household_memberships
            (fun m => uuid_eqb (HouseholdMembership.household_id m) household_id
                      && uuid_eqb (HouseholdMembership.user_id m) user_id) ;;
  scalar_one_or_none rows.

(** [membership.role = role]: an [UPDATE] of the row, unless the value is
    the one the row already has.  The value has to fit the [String(20)]
    column, and then to pass the role constraint. *)
Definition set_role (membership : HouseholdMembership.t) (role : string) : M unit :=
  if String.eqb (HouseholdMembership.role membership) role then ret tt
  else
    store (fits 20 (Some role)) "value too long for type character varying(20)" ;;;
    check (role_ok role) "check_role" ;;;
    write (fun d => set_household_memberships
                      (map (fun m => if uuid_eqb (HouseholdMembership.id m)
                                          (HouseholdMembership.id membership)
                                     then HouseholdMembership.mk (HouseholdMembership.id m)
                                            (HouseholdMembership.household_id m)
                                            (HouseholdMembership.user_id m) role
                                     else m)
                         (household_memberships d)) d).

Definition update_member_role (household_id user_id : UUID) (role : string)
  : M (option HouseholdMembership.t) :=
  membership <- select_membership household_id user_id ;;
  match membership with
  | None => ret None
  | Some membership =>
      set_role membership role ;;;
      commit ;;;
      ret (Some (HouseholdMembership.mk (HouseholdMembership.id membership)
                   (HouseholdMembership.household_id membership)
                   (HouseholdMembership.user_id membership) role))
  end.

Definition remove_member (household_id user_id : UUID) : M bool :=
  membership <- select_membership household_id user_id ;;
  match membership with
  | None => ret false
  | Some membership =>
      user <- get_user user_id ;;
      match user with
      | Some user =>
          if py_eq uuid_eqb (User.current_household_id user) (Some household_id)
          then set_current_household user_id None
          else ret tt
      | None => ret tt
      end ;;;
      delete_membership membership ;;;
      commit ;;;
      ret true
  end.

Definition get_household_members (household_id : UUID) : M (list UUID) :=
  rows <- select household_memberships
            (fun m => uuid_eqb (HouseholdMembership.household_id m) household_id) ;;
  ret (map HouseholdMembership.user_id rows).

(** User 2 still has household 10 as current household, user 1 has moved
    the pointer elsewhere. *)
Definition two_households_db : DB :=
  mkDB [User.mk 1 (Some 11%N); User.mk 2 (Some 10%N)]
       [Household.mk 10 "Home" (Some 1%N) (Some "ABCD1234"%string);
        Household.mk 11 "Cabin" (Some 1%N) (Some "WXYZ5678"%string)]
       [HouseholdMembership.mk 20 10 1 "admin"; HouseholdMembership.mk 21 10 2 "member"]
       [] [Recipe.mk 100 1 (Some true)] [] [] [] [] []
       [RecipeHouseholdAccess.mk 30 100 10 (Some 1%N)].

(** The table after the role of [m] is set. *)
Definition with_role (m : HouseholdMembership.t) (role : string)
    (rows : list HouseholdMembership.t) : list HouseholdMembership.t :=
  map (fun x => if uuid_eqb (HouseholdMembership.id x) (HouseholdMembership.id m)
                then HouseholdMembership.mk (HouseholdMembership.id x)
                       (HouseholdMembership.household_id x)
                       (HouseholdMembership.user_id x) role
                else x) rows.

(** ** What the operations keep *)

(** Both the transaction's view and the committed database satisfy the
    constraints. *)
Definition world_ok (w : World) : Prop :=
  db_ok (pending w) = true /\ db_ok (committed w) = true.

(** From a state with [P], [m] returns a value and a state with [Q], or it
    raises in a state that still satisfies the constraints. *)
Definition triple {A : Type} (P : World -> Prop) (m : M A) (Q : A -> World -> Prop) : Prop :=
  forall w, P w ->
    match m w with
    | Return a w' => Q a w'
    | Raise _ w' => world_ok w'
    end.

(** [m] writes to neither database. *)
Definition db_preserving {A : Type} (m : M A) : Prop :=
  forall w,
    match m w with
    | Return _ w' | Raise _ w' => pending w' = pending w /\ committed w' = committed w
    end.

(** [P] does not look at the random stream. *)
Definition entropy_free (P : World -> Prop) : Prop :=
  forall c p r r', P (mkWorld c p r) -> P (mkWorld c p r').

(** The state an operation leaves, by return or by exception, satisfies the
    constraints. *)
Definition ok_after {A : Type} (o : Outcome A) : Prop :=
  match o with
  | Return _ w' | Raise _ w' => world_ok w'
  end.

(** The databases once other sessions have committed [others]. *)
Definition with_others (others : list Ingredient.t) (w : World) : World :=
  mkWorld (set_ingredients (ingredients (committed w) ++ others) (committed w))
          (set_ingredients (ingredients (pending w) ++ others) (pending w))
          (entropy w).

(** ** routers: what a handler answers *)

(** What a handler raises: an exception that comes out of a service, or
    FastAPI's [HTTPException], which is an [Exception] like the others. *)
Inductive Raised :=
| ServiceError (e : Exn)
| HTTPException (status_code : nat) (detail : string).

Inductive Result (A : Type) :=
| Returned (a : A) (w : World)
| Failed (e : Raised) (w : World).
Arguments Returned {A} a w.
Arguments Failed {A} e w.

Definition Endpoint (A : Type) := World -> Result A.

Definition respond {A : Type} (a : A) : Endpoint A := fun w => Returned a w.

Definition raise_http {A : Type} (status_code : nat) (detail : string) : Endpoint A :=
  fun w => Failed (HTTPException status_code detail) w.

(** [await Service.method(db, ...)] *)
Definition await {A : Type} (m : M A) : Endpoint A := fun w =>
  match m w with
  | Return a w' => Returned a w'
  | Raise e w' => Failed (ServiceError e) w'
  end.

Definition and_then {A B : Type} (m : Endpoint A) (k : A -> Endpoint B) : Endpoint B :=
  fun w =>
    match m w with
    | Returned a w' => k a w'
    | Failed e w' => Failed e w'
    end.

Notation "x <~ m ;; k" := (and_then m (fun x => k))
  (at level 100, m at next level, right associativity) : session_scope.

(** [try: body except ...: handler]; the handler sees service exceptions and
    [HTTPException]s alike. *)
Definition try_except_http {A : Type} (body : Endpoint A) (handler : Raised -> Endpoint A)
  : Endpoint A := fun w =>
  match body w with
  | Returned a w' => Returned a w'
  | Failed e w' => handler e w'
  end.

Module status.
Definition HTTP_400_BAD_REQUEST : nat := 400.
Definition HTTP_403_FORBIDDEN : nat := 403.
Definition HTTP_404_NOT_FOUND : nat := 404.
End status.

Module APIResponse.
Record t := mk { success : bool; message : string }.
End APIResponse.

(** ** routers/households.py *)

(** The services as the routers name them. *)
Module HouseholdService.
Definition get_household := get_household.
Definition get_user_household := get_user_household.
Definition update_household := update_household.
Definition join_household := join_household.
Definition update_member_role := update_member_role.
Definition remove_member := remove_member.
End HouseholdService.

Module households.
Section Handlers.

(** [str(e)] of a caught exception, as the libraries print it. *)
Variable py_str : Raised -> string.

Variable current_user : User.t.

Definition get_current_household : Endpoint Household.t :=
  household <~ await (HouseholdService.get_user_household (User.id current_user)) ;;
  match household with
  | None => raise_http status.HTTP_404_NOT_FOUND "User is not in a household"
  | Some household => respond household
  end.

Definition get_household (household_id : UUID) : Endpoint Household.t :=
  household <~ await (HouseholdService.get_household household_id) ;;
  match household with
  | None => raise_http status.HTTP_404_NOT_FOUND "Household not found"
  | Some household =>
      user_household <~ await (HouseholdService.get_user_household (User.id current_user)) ;;
      match user_household with
      | None => raise_http status.HTTP_403_FORBIDDEN "Not authorized to access this household"
      | Some user_household =>
          if negb (uuid_eqb (Household.id user_household) household_id)
          then raise_http status.HTTP_403_FORBIDDEN "Not authorized to access this household"
          else respond household
      end
  end.

(** The loop over [household.members] that looks for the current user. *)
Definition user_membership_in (loaded_members : list HouseholdMembership.t)
  : option HouseholdMembership.t :=
  find (fun member => uuid_eqb (HouseholdMembership.user_id member) (User.id current_user))
    loaded_members.

(** [not user_membership or user_membership.role != "admin"] *)
Definition not_admin (user_membership : option HouseholdMembership.t) : bool :=
  match user_membership with
  | None => true
  | Some user_membership =>
      negb (String.eqb (HouseholdMembership.role user_membership) "admin")
  end.

Definition update_household (household_id : UUID) (household_data : HouseholdUpdate)
  : Endpoint (option Household.t) :=
  household <~ await (HouseholdService.get_household household_id) ;;
  match household with
  | None => raise_http status.HTTP_404_NOT_FOUND "Household not found"
  | Some household =>
      (* [household.members], loaded with the household *)
      loaded_members <~ await (read (fun d => members d household)) ;;
      if not_admin (user_membership_in loaded_members)
      then raise_http status.HTTP_403_FORBIDDEN
             "Only household admins can update household details"
      else await (HouseholdService.update_household household_id household_data)
  end.

Definition join_household (invite_code : string) : Endpoint HouseholdMembership.t :=
  try_except_http
    (membership <~ await (HouseholdService.join_household (User.id current_user) invite_code) ;;
     match membership with
     | None => raise_http status.HTTP_404_NOT_FOUND "Invalid invite code"
     | Some membership => respond membership
     end)
    (fun e =>
       match e with
       | ServiceError (ValueError _) =>
           raise_http status.HTTP_400_BAD_REQUEST (py_str e)
       | _ =>
           raise_http status.HTTP_400_BAD_REQUEST
             (String.append "Failed to join household: " (py_str e))
       end).

(** For a request body that carries a role. *)
Definition update_member_role (household_id user_id : UUID) (role : string)
  : Endpoint HouseholdMembership.t :=
  household <~ await (HouseholdService.get_household household_id) ;;
  match household with
  | None => raise_http status.HTTP_404_NOT_FOUND "Household not found"
  | Some household =>
      (* [household.members], loaded with the household *)
      loaded_members <~ await (read (fun d => members d household)) ;;
      if not_admin (user_membership_in loaded_members)
      then raise_http status.HTTP_403_FORBIDDEN
             "Only household admins can update member roles"
      else
        updated_membership <~ await (HouseholdService.update_member_role household_id user_id role) ;;
        match updated_membership with
        | None => raise_http status.HTTP_404_NOT_FOUND "Member not found in household"
        | Some updated_membership => respond updated_membership
        end
  end.

Definition remove_member (household_id user_id : UUID) : Endpoint APIResponse.t :=
  household <~ await (HouseholdService.get_household household_id) ;;
  match household with
  | None => raise_http status.HTTP_404_NOT_FOUND "Household not found"
  | Some household =>
      (* [household.members], loaded with the household *)
      loaded_members <~ await (read (fun d => members d household)) ;;
      if not_admin (user_membership_in loaded_members)
      then raise_http status.HTTP_403_FORBIDDEN
             "Only household admins can remove members"
      else if uuid_eqb user_id (User.id current_user)
      then raise_http status.HTTP_400_BAD_REQUEST
             "Cannot remove yourself from household. Use leave endpoint instead."
      else
        success <~ await (HouseholdService.remove_member household_id user_id) ;;
        if (success : bool)
        then respond (APIResponse.mk true "Member removed from household")
        else raise_http status.HTTP_404_NOT_FOUND "Member not found in household"
  end.

End Handlers.
End households.

(** The user has a membership with the role admin in the household. *)
Definition admin_of (d : DB) (user_id household_id : UUID) : Prop :=
  exists m, In m (household_memberships d)
            /\ HouseholdMembership.user_id m = user_id
            /\ HouseholdMembership.household_id m = household_id
            /\ HouseholdMembership.role m = "admin"%string.

(** The answer of an endpoint that passes on what its service did. *)
Definition passed_on {A B : Type} (o : Outcome A) (answer : A -> World -> Result B)
  : Result B :=
  match o with
  | Return a w' => answer a w'
  | Raise e w' => Failed (ServiceError e) w'
  end.

(** ** services.py: RecipeService (reading and listing) *)

Definition get_recipe (recipe_id : UUID) : M (option Recipe.t) :=
  rows <- select recipes (fun r => uuid_eqb (Recipe.id r) recipe_id) ;;
  scalar_one_or_none rows.

Module AccessibleRecipe.
Record t := mk { recipe : Recipe.t; can_edit : bool; access_type : string }.
End AccessibleRecipe.

(** [.limit(limit).offset(offset)], for a limit and an offset that are not
    negative. *)
Definition limit_offset {A : Type} (limit offset : nat) (rows : list A) : list A :=
  firstn limit (skipn offset rows).

(** [recipes LEFT OUTER JOIN recipe_household_access
     ON recipes.id = recipe_household_access.recipe_id] *)
Definition outerjoin_access (d : DB) : list (Recipe.t * option RecipeHouseholdAccess.t) :=
  flat_map (fun r =>
              match filter (fun a => uuid_eqb (Recipe.id r)
                                      (RecipeHouseholdAccess.recipe_id a))
                      (recipe_household_access d) with
              | [] => [(r, None)]
              | matches => map (fun a => (r, Some a)) matches
              end)
    (recipes d).

(** [... JOIN household_memberships
     ON recipe_household_access.household_id = household_memberships.household_id] *)
Definition join_memberships (d : DB)
    (rows : list (Recipe.t * option RecipeHouseholdAccess.t))
  : list (Recipe.t * option RecipeHouseholdAccess.t * HouseholdMembership.t) :=
  flat_map (fun row =>
              map (fun m => (row, m))
                (filter (fun m => sql_eq uuid_eqb
                                    (option_map RecipeHouseholdAccess.household_id (snd row))
                                    (HouseholdMembership.household_id m))
                   (household_memberships d)))
    rows.

Section RecipeListing.

(** [ORDER BY recipes.created_at DESC]: the order in which the database
    hands out the selected recipes; the timestamps are not part of the rows
    here. *)
Variable order_by_created_at_desc : list Recipe.t -> list Recipe.t.

Definition get_user_recipes (user_id : UUID) (limit offset : nat) : M (list Recipe.t) :=
  rows <- select recipes (fun r => uuid_eqb (Recipe.user_id r) user_id) ;;
  ret (limit_offset limit offset (order_by_created_at_desc rows)).

Definition get_accessible_recipes (user_id : UUID) (limit offset : nat)
  : M (list AccessibleRecipe.t) :=
  user_household <- get_user_household user_id ;;
  match user_household with
  | None =>
      recipes <- get_user_recipes user_id limit offset ;;
      ret (map (fun recipe => AccessibleRecipe.mk recipe true "owner") recipes)
  | Some _ =>
      rows <- read (fun d =>
                filter (fun row => uuid_eqb (Recipe.user_id (fst (fst row))) user_id
                                   || uuid_eqb (HouseholdMembership.user_id (snd row)) user_id)
                  (join_memberships d (outerjoin_access d))) ;;
      let result :=
        limit_offset limit offset
          (order_by_created_at_desc (map (fun row => fst (fst row)) rows)) in
      ret (map (fun recipe =>
                  if uuid_eqb (Recipe.user_id recipe) user_id
                  then AccessibleRecipe.mk recipe true "owner"
                  else AccessibleRecipe.mk recipe false "household_shared")
             result)
  end.

End RecipeListing.

(** ** routers/recipes.py *)

Module RecipeService.
Definition get_recipe := get_recipe.
Definition can_user_access_recipe := can_user_access_recipe.
End RecipeService.

Module recipes_router.
Section Handlers.

Variable current_user : User.t.

Definition get_recipe (recipe_id : UUID) : Endpoint Recipe.t :=
  recipe <~ await (RecipeService.get_recipe recipe_id) ;;
  match recipe with
  | None => raise_http status.HTTP_404_NOT_FOUND "Recipe not found"
  | Some recipe =>
      can_access <~ await (RecipeService.can_user_access_recipe recipe_id
                             (User.id current_user)) ;;
      if negb can_access
      then raise_http status.HTTP_403_FORBIDDEN "Not authorized to access this recipe"
      else respond recipe
  end.

End Handlers.
End recipes_router.

(** The user owns the recipe or belongs to a household that holds a grant
    for it. *)
Definition may_read (d : DB) (user_id recipe_id : UUID) : Prop :=
  owns d user_id recipe_id
  \/ exists household_id,
       member_of d user_id household_id /\ granted d recipe_id household_id.

(** The number of times the recipe occurs in a listing. *)
Definition times_listed (recipe_id : UUID) (l : list AccessibleRecipe.t) : nat :=
  List.length (filter (fun item => uuid_eqb (Recipe.id (AccessibleRecipe.recipe item)) recipe_id)
                 l).

(** User 1 owns recipe 100, shared with household 10, and recipe 104, which
    has no grant. *)
Definition listing_db : DB :=
  mkDB users_ab
       [Household.mk 10 "Home" (Some 1%N) (Some "ABCD1234"%string)]
       [HouseholdMembership.mk 20 10 1 "admin"; HouseholdMembership.mk 21 10 2 "member"]
       [] [Recipe.mk 100 1 (Some true); Recipe.mk 104 1 (Some false)] [] [] [] [] []
       [RecipeHouseholdAccess.mk 30 100 10 (Some 1%N)].

(** The rows that the outer join makes of one recipe. *)
Definition access_rows_of (d : DB) (r : Recipe.t)
  : list (Recipe.t * option RecipeHouseholdAccess.t) :=
  match filter (fun a => uuid_eqb (Recipe.id r) (RecipeHouseholdAccess.recipe_id a))
          (recipe_household_access d) with
  | [] => [(r, None)]
  | matches => map (fun a => (r, Some a)) matches
  end.

(** The rows that the query of [get_accessible_recipes] selects among the
    recipes [l]. *)
Definition rows_for (d : DB) (user_id : UUID) (l : list Recipe.t)
  : list (Recipe.t * option RecipeHouseholdAccess.t * HouseholdMembership.t) :=
  filter (fun row => uuid_eqb (Recipe.user_id (fst (fst row))) user_id
                     || uuid_eqb (HouseholdMembership.user_id (snd row)) user_id)
    (join_memberships d (flat_map (access_rows_of d) l)).

(** The memberships that the grants of a recipe reach: one for every grant
    of the recipe and every member of the household of that grant. *)
Definition reached_by (d : DB) (recipe_id : UUID) : list HouseholdMembership.t :=
  flat_map (fun a => memberships_of_household d (RecipeHouseholdAccess.household_id a))
    (filter (fun a => uuid_eqb (RecipeHouseholdAccess.recipe_id a) recipe_id)
       (recipe_household_access d)).

(** ** services.py: MealPlanService and ShoppingListService (creating and listing) *)

Definition set_meal_plans (v : list MealPlan.t) (d : DB) : DB :=
  mkDB (users d) (households d) (household_memberships d) (ingredients d) (recipes d)
       (recipe_ingredients d) v (planned_meals d) (shopping_lists d)
       (shopping_list_items d) (recipe_household_access d).

Definition insert_meal_plan (p : MealPlan.t) : M unit :=
  d <- read (fun d => d) ;;
  check (negb (has_id MealPlan.id (meal_plans d) (MealPlan.id p))) "meal_plans_pkey" ;;;
  check (meal_plan_ok d p) "meal_plans_fkey" ;;;
  write (fun d => set_meal_plans (meal_plans d ++ [p]) d).

(** Of the fields of [MealPlanCreate] the rows here keep the name. *)
Definition create_meal_plan (user_id : UUID) (name : option string) : M MealPlan.t :=
  user_household <- get_user_household user_id ;;
  match user_household with
  | None => raise (ValueError "User must be in a household to create meal plans")
  | Some user_household =>
      id <- uuid4 ;;
      let meal_plan := MealPlan.mk id user_id (Household.id user_household) name in
      insert_meal_plan meal_plan ;;;
      commit ;;;
      ret meal_plan
  end.

Definition get_shopping_list (shopping_list_id : UUID) : M (option ShoppingList.t) :=
  rows <- select shopping_lists (fun s => uuid_eqb (ShoppingList.id s) shopping_list_id) ;;
  scalar_one_or_none rows.

Section HouseholdListings.

(** [ORDER BY meal_plans.week_start DESC] and
    [ORDER BY shopping_lists.created_at DESC]: the order in which the
    database hands out the selected rows; neither column is part of the rows
    here. *)
Variable order_by_week_start_desc : list MealPlan.t -> list MealPlan.t.
Variable order_by_created_at_desc : list ShoppingList.t -> list ShoppingList.t.

Definition get_user_meal_plans (user_id : UUID) : M (list MealPlan.t) :=
  user_household <- get_user_household user_id ;;
  match user_household with
  | None => ret []
  | Some user_household =>
      rows <- select meal_plans
                (fun p => uuid_eqb (MealPlan.household_id p) (Household.id user_household)) ;;
      ret (order_by_week_start_desc rows)
  end.

Definition get_user_shopping_lists (user_id : UUID) : M (list ShoppingList.t) :=
  user_household <- get_user_household user_id ;;
  match user_household with
  | None => ret []
  | Some user_household =>
      rows <- select shopping_lists
                (fun s => uuid_eqb (ShoppingList.household_id s)
                            (Household.id user_household)) ;;
      ret (order_by_created_at_desc rows)
  end.

End HouseholdListings.

Module MealPlanService.
Definition get_meal_plan := get_meal_plan.
Definition get_user_meal_plans := get_user_meal_plans.
End MealPlanService.

Module ShoppingListService.
Definition get_shopping_list := get_shopping_list.
Definition generate_shopping_list_from_meal_plan := generate_shopping_list_from_meal_plan.
End ShoppingListService.

(** ** routers/meal_plans.py *)

Module meal_plans_router.
Section Handlers.

Variable order_by_week_start_desc : list MealPlan.t -> list MealPlan.t.
Variable current_user : User.t.

Definition get_user_meal_plans : Endpoint (list MealPlan.t) :=
  await (MealPlanService.get_user_meal_plans order_by_week_start_desc (User.id current_user)).

Definition get_meal_plan (meal_plan_id : UUID) : Endpoint MealPlan.t :=
  meal_plan <~ await (MealPlanService.get_meal_plan meal_plan_id) ;;
  match meal_plan with
  | None => raise_http status.HTTP_404_NOT_FOUND "Meal plan not found"
  | Some meal_plan =>
      if negb (uuid_eqb (MealPlan.user_id meal_plan) (User.id current_user))
      then raise_http status.HTTP_403_FORBIDDEN "Not authorized to access this meal plan"
      else respond meal_plan
  end.

End Handlers.
End meal_plans_router.

(** ** routers/shopping_lists.py *)

Module shopping_lists_router.
Section Handlers.

Variable py_str : Raised -> string.
Variable current_user : User.t.

Definition get_shopping_list (shopping_list_id : UUID) : Endpoint ShoppingList.t :=
  shopping_list <~ await (ShoppingListService.get_shopping_list shopping_list_id) ;;
  match shopping_list with
  | None => raise_http status.HTTP_404_NOT_FOUND "Shopping list not found"
  | Some shopping_list =>
      if negb (uuid_eqb (ShoppingList.user_id shopping_list) (User.id current_user))
      then raise_http status.HTTP_403_FORBIDDEN "Not authorized to access this shopping list"
      else respond shopping_list
  end.

Definition create_shopping_list_from_meal_plan (meal_plan_id : UUID)
  : Endpoint ShoppingList.t :=
  try_except_http
    (await (ShoppingListService.generate_shopping_list_from_meal_plan
              (User.id current_user) meal_plan_id))
    (fun e =>
       match e with
       | ServiceError (ValueError _) => raise_http status.HTTP_404_NOT_FOUND (py_str e)
       | _ =>
           raise_http status.HTTP_400_BAD_REQUEST
             (String.append "Failed to generate shopping list: " (py_str e))
       end).

End Handlers.
End shopping_lists_router.

(** User 3 is on file and belongs to no household; plans 70 and 71 belong
    to household 10 and were made by user 1; plan 71 has no planned meal. *)
Definition visitor_db : DB :=
  mkDB (users_ab ++ [User.mk 3 None])
       [Household.mk 10 "Home" (Some 1%N) (Some "ABCD1234"%string)]
       [HouseholdMembership.mk 20 10 1 "admin"; HouseholdMembership.mk 21 10 2 "member"]
       [flour]
       [Recipe.mk 100 1 (Some true)]
       [RecipeIngredient.mk 60 100 7 (Some 200%Z) (Some "cup"%string)]
       [MealPlan.mk 70 1 10 None; MealPlan.mk 71 1 10 None]
       [PlannedMeal.mk 80 70 100 (Some false)]
       [] [] [].


(** * Lemmas on tables and constraints *)

Lemma uuid_eqb_eq (a b : UUID) : uuid_eqb a b = true <-> a = b.
Proof. apply N.eqb_eq. Qed.

Lemma uuid_eqb_refl (a : UUID) : uuid_eqb a a = true.
Proof. apply N.eqb_refl. Qed.

Lemma uuid_eqb_neq (a b : UUID) : uuid_eqb a b = false <-> a <> b.
Proof. apply N.eqb_neq. Qed.

Lemma pair_eqb_eq (a b : UUID * UUID) : pair_eqb a b = true <-> a = b.
Proof.
  destruct a as [a1 a2], b as [b1 b2]. unfold pair_eqb. simpl.
  rewrite andb_true_iff, !uuid_eqb_eq. split.
  - intros [-> ->]. reflexivity.
  - intros E. inversion E. auto.
Qed.

Lemma existsb_false_forall {A : Type} (p : A -> bool) (l : list A) :
  existsb p l = false -> forall x, In x l -> p x = false.
Proof.
  induction l as [|y l IH]; simpl; intros H x Hx.
  - contradiction.
  - apply orb_false_iff in H. destruct H as [Hy Hl].
    destruct Hx as [<- | Hx]; auto.
Qed.

Lemma filter_nil_forall {A : Type} (p : A -> bool) (l : list A) :
  (forall x, In x l -> p x = false) -> filter p l = [].
Proof.
  induction l as [|y l IH]; simpl; intros H.
  - reflexivity.
  - rewrite (H y) by auto. apply IH. intros x Hx. apply H. auto.
Qed.

(** Rows selected by a predicate that pins the unique key: at most one. *)
Lemma unique_by_filter {A K : Type} (eqb : K -> K -> bool) (key : A -> K)
    (p : A -> bool) (rows : list A) :
  (forall a b, p a = true -> p b = true -> eqb (key b) (key a) = true) ->
  unique_by eqb key rows = true ->
  filter p rows = [] \/ exists r, filter p rows = [r].
Proof.
  intros Hp. induction rows as [|r rest IH]; simpl; intros U.
  - left. reflexivity.
  - apply andb_true_iff in U. destruct U as [Hr U].
    apply negb_true_iff in Hr.
    destruct (p r) eqn:Pr.
    + right. exists r. f_equal. apply filter_nil_forall.
      intros x Hx. destruct (p x) eqn:Px; [|reflexivity].
      specialize (Hp r x Pr Px).
      rewrite (existsb_false_forall _ _ Hr x Hx) in Hp. discriminate.
    + apply IH. exact U.
Qed.

Lemma has_id_true {A : Type} (id : A -> UUID) (rows : list A) (k : UUID) :
  has_id id rows k = true <-> exists r, In r rows /\ id r = k.
Proof.
  unfold has_id. rewrite existsb_exists. split; intros [r [Hr E]]; exists r; split; auto.
  - apply uuid_eqb_eq. exact E.
  - apply uuid_eqb_eq. exact E.
Qed.

Lemma filter_in_cons {A : Type} (p : A -> bool) (l : list A) (x : A) :
  In x l -> p x = true -> filter p l <> [].
Proof.
  intros Hx Px E. assert (H : In x (filter p l)) by (apply filter_In; auto).
  rewrite E in H. contradiction.
Qed.

Ltac ok_parts H :=
  unfold db_ok in H; repeat rewrite andb_true_iff in H;
  repeat match type of H with _ /\ _ => let H' := fresh "Ok" in destruct H as [H H'] end.

(** * Editing rights *)

Lemma recipe_rows (d : DB) (recipe_id : UUID) :
  db_ok d = true ->
  filter (fun r => uuid_eqb (Recipe.id r) recipe_id) (recipes d) = []
  \/ exists r, filter (fun r => uuid_eqb (Recipe.id r) recipe_id) (recipes d) = [r].
Proof.
  intros H. ok_parts H.
  apply unique_by_filter with (eqb := uuid_eqb) (key := Recipe.id); [|assumption].
  intros a b Ha Hb. apply uuid_eqb_eq in Ha, Hb. apply uuid_eqb_eq. congruence.
Qed.

Lemma owns_iff_rows (d : DB) (user_id recipe_id : UUID) :
  owns d user_id recipe_id <->
  exists r, In r (filter (fun r => uuid_eqb (Recipe.id r) recipe_id) (recipes d))
            /\ Recipe.user_id r = user_id.
Proof.
  unfold owns. split.
  - intros [r [Hr [E1 E2]]]. exists r. split; [|exact E2].
    apply filter_In. split; [exact Hr|]. apply uuid_eqb_eq. exact E1.
  - intros [r [Hr E]]. apply filter_In in Hr. destruct Hr as [Hr Hid].
    exists r. repeat split; auto. apply uuid_eqb_eq. exact Hid.
Qed.

(** The owner lookup shared by both checks. *)
Lemma owner_lookup (w : World) (recipe_id user_id : UUID) :
  db_ok (pending w) = true ->
  exists owner,
    scalar_one_or_none
      (map Recipe.user_id
         (filter (fun r => uuid_eqb (Recipe.id r) recipe_id) (recipes (pending w)))) w
    = Return owner w
    /\ (py_eq uuid_eqb owner (Some user_id) = true <-> owns (pending w) user_id recipe_id).
Proof.
  intros H.
  destruct (recipe_rows (pending w) recipe_id H) as [E | [r E]].
  - exists None. rewrite owns_iff_rows, E. split; [reflexivity|]. simpl.
    split; [discriminate|]. intros [r [[] _]].
  - exists (Some (Recipe.user_id r)). rewrite owns_iff_rows, E.
    split; [reflexivity|]. simpl. rewrite uuid_eqb_eq. split.
    + intros <-. exists r. split; [left|]; reflexivity.
    + intros [r' [[<- | []] E']]. exact E'.
Qed.

(** C9. [can_user_edit_recipe] answers true exactly when the user is the
    recipe's owner, and its answer is the same whatever access grants the
    database holds. *)
Theorem can_user_edit_recipe_owner_only (w : World) (recipe_id user_id : UUID) :
  db_ok (pending w) = true ->
  exists b,
    can_user_edit_recipe recipe_id user_id w = Return b w
    /\ (b = true <-> owns (pending w) user_id recipe_id)
    /\ forall grants,
         let w' := mkWorld (committed w)
                     (set_recipe_household_access grants (pending w)) (entropy w) in
         can_user_edit_recipe recipe_id user_id w' = Return b w'.
Proof.
  intros H.
  destruct (owner_lookup w recipe_id user_id H) as [owner [E Hown]].
  exists (py_eq uuid_eqb owner (Some user_id)).
  unfold can_user_edit_recipe, select, read, bind, ret in *. simpl in *.
  split; [|split].
  - rewrite E. reflexivity.
  - exact Hown.
  - intros grants.
    destruct (filter (fun r => uuid_eqb (Recipe.id r) recipe_id) (recipes (pending w)))
      as [|r [|r' rest]]; simpl in *; inversion E; reflexivity.
Qed.

Lemma can_user_edit_recipe_owner_only_witness :
  exists b,
    can_user_edit_recipe 100 2 (session shared_db []) = Return b (session shared_db [])
    /\ (b = true <-> owns shared_db 2 100)
    /\ forall grants,
         let w' := mkWorld shared_db (set_recipe_household_access grants shared_db) [] in
         can_user_edit_recipe 100 2 w' = Return b w'.
Proof.
  apply (can_user_edit_recipe_owner_only (session shared_db []) 100 2).
  vm_compute. reflexivity.
Defined.

(** * Read access *)

Lemma membership_rows (d : DB) (user_id : UUID) :
  db_ok d = true ->
  memberships_of_user d user_id = [] \/ exists m, memberships_of_user d user_id = [m].
Proof.
  intros H. ok_parts H. unfold memberships_of_user.
  apply unique_by_filter with (eqb := uuid_eqb) (key := HouseholdMembership.user_id);
    [|assumption].
  intros a b Ha Hb. apply uuid_eqb_eq in Ha, Hb. apply uuid_eqb_eq. congruence.
Qed.

Lemma household_rows (d : DB) (household_id : UUID) :
  db_ok d = true ->
  filter (fun h => uuid_eqb (Household.id h) household_id) (households d) = []
  \/ exists h, filter (fun h => uuid_eqb (Household.id h) household_id) (households d) = [h].
Proof.
  intros H. ok_parts H.
  apply unique_by_filter with (eqb := uuid_eqb) (key := Household.id); [|assumption].
  intros a b Ha Hb. apply uuid_eqb_eq in Ha, Hb. apply uuid_eqb_eq. congruence.
Qed.

Lemma membership_fk (d : DB) (m : HouseholdMembership.t) :
  db_ok d = true -> In m (household_memberships d) ->
  has_id Household.id (households d) (HouseholdMembership.household_id m) = true
  /\ has_id User.id (users d) (HouseholdMembership.user_id m) = true.
Proof.
  intros H Hm. ok_parts H.
  match goal with
  | F : forallb (membership_ok d) _ = true |- _ =>
      rewrite forallb_forall in F; specialize (F m Hm);
      unfold membership_ok in F; apply andb_true_iff in F; exact F
  end.
Qed.

Lemma member_of_rows (d : DB) (user_id household_id : UUID) :
  member_of d user_id household_id <->
  exists m, In m (memberships_of_user d user_id)
            /\ HouseholdMembership.household_id m = household_id.
Proof.
  unfold member_of, memberships_of_user. split.
  - intros [m [Hm [E1 E2]]]. exists m. split; [|exact E2].
    apply filter_In. split; [exact Hm|]. apply uuid_eqb_eq. exact E1.
  - intros [m [Hm E]]. apply filter_In in Hm. destruct Hm as [Hm Hu].
    exists m. repeat split; auto. apply uuid_eqb_eq. exact Hu.
Qed.

(** [get_user_household] finds nothing for a user without a membership, and
    otherwise the household of the user's single membership. *)
Lemma user_household_lookup (w : World) (user_id : UUID) :
  db_ok (pending w) = true ->
  (memberships_of_user (pending w) user_id = []
   /\ get_user_household user_id w = Return None w)
  \/ exists m h,
       memberships_of_user (pending w) user_id = [m]
       /\ In h (households (pending w))
       /\ Household.id h = HouseholdMembership.household_id m
       /\ get_user_household user_id w = Return (Some h) w.
Proof.
  intros H. unfold get_user_household, read, bind. simpl.
  fold (memberships_of_user (pending w) user_id).
  destruct (membership_rows (pending w) user_id H) as [E | [m E]]; rewrite E; simpl.
  - left. split; reflexivity.
  - right. exists m.
    assert (Hm : In m (household_memberships (pending w))).
    { assert (In m (memberships_of_user (pending w) user_id)) as Hin
        by (rewrite E; left; reflexivity).
      apply filter_In in Hin. apply Hin. }
    destruct (membership_fk (pending w) m H Hm) as [Hh _].
    apply has_id_true in Hh. destruct Hh as [h0 [Hh0 Eh0]].
    destruct (household_rows (pending w) (HouseholdMembership.household_id m) H)
      as [F | [h F]].
    + exfalso. apply (filter_in_cons _ _ h0 Hh0) in F; [exact F|].
      apply uuid_eqb_eq. exact Eh0.
    + rewrite F. simpl. exists h.
      assert (Hin : In h (filter (fun h => uuid_eqb (Household.id h)
                                             (HouseholdMembership.household_id m))
                            (households (pending w))))
        by (rewrite F; left; reflexivity).
      apply filter_In in Hin. destruct Hin as [Hin Hid]. apply uuid_eqb_eq in Hid.
      repeat split; auto.
Qed.

Lemma grant_rows (d : DB) (recipe_id household_id : UUID) :
  db_ok d = true ->
  grants_for d recipe_id household_id = []
  \/ exists a, grants_for d recipe_id household_id = [a].
Proof.
  intros H. ok_parts H. unfold grants_for.
  apply unique_by_filter with (eqb := pair_eqb) (key := access_key); [|assumption].
  intros a b Ha Hb. apply pair_eqb_eq in Ha, Hb. apply pair_eqb_eq. congruence.
Qed.

Lemma granted_rows (d : DB) (recipe_id household_id : UUID) :
  granted d recipe_id household_id <-> grants_for d recipe_id household_id <> [].
Proof.
  unfold granted, grants_for. split.
  - intros [a [Ha [E1 E2]]]. apply (filter_in_cons _ _ a Ha).
    apply pair_eqb_eq. unfold access_key. congruence.
  - intros Hne.
    destruct (filter _ (recipe_household_access d)) as [|a rest] eqn:E; [congruence|].
    assert (Hin : In a (filter (fun a => pair_eqb (access_key a) (recipe_id, household_id))
                          (recipe_household_access d)))
      by (rewrite E; left; reflexivity).
    apply filter_In in Hin. destruct Hin as [Hin Hk]. apply pair_eqb_eq in Hk.
    unfold access_key in Hk. inversion Hk. exists a. auto.
Qed.

(** The query of both [grant_household_access] and [can_user_access_recipe]. *)
Lemma select_grants (w : World) (recipe_id household_id : UUID) :
  select recipe_household_access
    (fun a => uuid_eqb (RecipeHouseholdAccess.recipe_id a) recipe_id
              && uuid_eqb (RecipeHouseholdAccess.household_id a) household_id) w
  = Return (grants_for (pending w) recipe_id household_id) w.
Proof. reflexivity. Qed.

(** C1. [can_user_access_recipe] answers true exactly when the user owns the
    recipe, or is a member of a household that holds a grant for the recipe;
    a non-owner without a membership gets false. *)
Theorem can_user_access_recipe_iff (w : World) (recipe_id user_id : UUID) :
  db_ok (pending w) = true ->
  exists b,
    can_user_access_recipe recipe_id user_id w = Return b w
    /\ (b = true <->
        owns (pending w) user_id recipe_id
        \/ exists household_id,
             member_of (pending w) user_id household_id
             /\ granted (pending w) recipe_id household_id)
    /\ (~ owns (pending w) user_id recipe_id ->
        (forall household_id, ~ member_of (pending w) user_id household_id) ->
        b = false).
Proof.
  intros H.
  assert (Hiff : exists b,
    can_user_access_recipe recipe_id user_id w = Return b w
    /\ (b = true <->
        owns (pending w) user_id recipe_id
        \/ exists household_id,
             member_of (pending w) user_id household_id
             /\ granted (pending w) recipe_id household_id)).
  { destruct (owner_lookup w recipe_id user_id H) as [owner [E Hown]].
    unfold can_user_access_recipe. unfold bind at 1. unfold select at 1, read. simpl.
    unfold bind at 1. rewrite E.
    destruct (py_eq uuid_eqb owner (Some user_id)) eqn:Eo.
    - exists true. split; [reflexivity|]. split; auto. intros _. left. apply Hown. reflexivity.
    - assert (Hno : ~ owns (pending w) user_id recipe_id)
        by (intros Ho; apply Hown in Ho; discriminate).
      unfold bind at 1.
      destruct (user_household_lookup w user_id H) as [[Em Eq] | [m [h [Em [Hh [Eid Eq]]]]]];
        rewrite Eq.
      + exists false. split; [reflexivity|]. split; [discriminate|].
        intros [Ho | [hid [Hm _]]]; [contradiction|].
        apply member_of_rows in Hm. destruct Hm as [m [Hm _]].
        rewrite Em in Hm. contradiction.
      + unfold bind at 1. rewrite select_grants. unfold bind at 1.
        assert (Hmem : forall hid, member_of (pending w) user_id hid <-> hid = Household.id h).
        { intros hid. rewrite member_of_rows, Em. split.
          - intros [m' [[<- | []] E']]. congruence.
          - intros ->. exists m. split; [left; reflexivity|]. auto. }
        destruct (grant_rows (pending w) recipe_id (Household.id h) H) as [Eg | [a Eg]];
          rewrite Eg; simpl.
        * exists false. split; [reflexivity|]. split; [discriminate|].
          intros [Ho | [hid [Hm Hg]]]; [contradiction|].
          apply Hmem in Hm. subst hid. apply granted_rows in Hg. contradiction.
        * exists true. split; [reflexivity|]. split; auto. intros _. right.
          exists (Household.id h). split; [apply Hmem; reflexivity|].
          apply granted_rows. rewrite Eg. discriminate. }
  destruct Hiff as [b [E Hb]]. exists b. split; [exact E|]. split; [exact Hb|].
  intros Hno Hnm. destruct b; [|reflexivity].
  destruct (proj1 Hb eq_refl) as [Ho | [hid [Hm _]]].
  - contradiction.
  - exfalso. exact (Hnm hid Hm).
Qed.

Lemma can_user_access_recipe_iff_witness :
  exists b,
    can_user_access_recipe 100 2 (session shared_db []) = Return b (session shared_db [])
    /\ (b = true <->
        owns shared_db 2 100
        \/ exists household_id,
             member_of shared_db 2 household_id /\ granted shared_db 100 household_id)
    /\ (~ owns shared_db 2 100 ->
        (forall household_id, ~ member_of shared_db 2 household_id) ->
        b = false).
Proof.
  apply (can_user_access_recipe_iff (session shared_db []) 100 2).
  vm_compute. reflexivity.
Defined.

(** A member of the household reads the shared recipe but may not edit it. *)
Example member_reads_but_cannot_edit :
  can_user_access_recipe 100 2 (session shared_db []) = Return true (session shared_db [])
  /\ can_user_edit_recipe 100 2 (session shared_db []) = Return false (session shared_db []).
Proof. split; reflexivity. Qed.

(** * Leaving a household *)

Lemma user_rows (d : DB) (user_id : UUID) :
  db_ok d = true ->
  filter (fun u => uuid_eqb (User.id u) user_id) (users d) = []
  \/ exists u, filter (fun u => uuid_eqb (User.id u) user_id) (users d) = [u].
Proof.
  intros H. ok_parts H.
  apply unique_by_filter with (eqb := uuid_eqb) (key := User.id); [|assumption].
  intros a b Ha Hb. apply uuid_eqb_eq in Ha, Hb. apply uuid_eqb_eq. congruence.
Qed.

Lemma get_user_returns (w : World) (user_id : UUID) :
  db_ok (pending w) = true -> exists user, get_user user_id w = Return user w.
Proof.
  intros H. unfold get_user, select, read, bind. simpl.
  destruct (user_rows (pending w) user_id H) as [E | [u E]]; rewrite E; simpl; eauto.
Qed.

Lemma current_household_after_set (l : list User.t) (user_id : UUID) (v : option UUID) (u : User.t) :
  In u (map (fun u => if uuid_eqb (User.id u) user_id then User.mk (User.id u) v else u) l) ->
  User.id u = user_id -> User.current_household_id u = v.
Proof.
  intros Hin Hid. apply in_map_iff in Hin. destruct Hin as [u0 [E _]].
  destruct (uuid_eqb (User.id u0) user_id) eqn:Eu; subst u.
  - reflexivity.
  - apply uuid_eqb_neq in Eu. contradiction.
Qed.

(** C8. Without a membership [leave_household] returns false and changes
    nothing; with one it returns true, clears the user's current household,
    deletes that membership row and no other, commits, and leaves the access
    grants as they were. *)
Theorem leave_household_keeps_grants (w : World) (user_id : UUID) :
  db_ok (pending w) = true ->
  (memberships_of_user (pending w) user_id = [] ->
   leave_household user_id w = Return false w)
  /\ (forall m, In m (memberships_of_user (pending w) user_id) ->
      exists w',
        leave_household user_id w = Return true w'
        /\ (forall u, In u (users (pending w')) -> User.id u = user_id ->
                      User.current_household_id u = None)
        /\ household_memberships (pending w')
           = filter (fun m' => negb (uuid_eqb (HouseholdMembership.id m')
                                       (HouseholdMembership.id m)))
               (household_memberships (pending w))
        /\ memberships_of_user (pending w') user_id = []
        /\ recipe_household_access (pending w') = recipe_household_access (pending w)
        /\ committed w' = pending w').
Proof.
  intros H. split.
  - intros E. unfold leave_household, select, read, bind. simpl.
    fold (memberships_of_user (pending w) user_id). rewrite E. reflexivity.
  - intros m Hm.
    destruct (membership_rows (pending w) user_id H) as [E | [m0 E]];
      rewrite E in Hm; [contradiction|].
    destruct Hm as [<- | []].
    assert (Hgone : forall (us : list User.t),
      memberships_of_user
        (set_household_memberships
           (filter (fun m' => negb (uuid_eqb (HouseholdMembership.id m')
                                      (HouseholdMembership.id m0)))
              (household_memberships (pending w)))
           (set_users us (pending w))) user_id = []).
    { intros us. unfold memberships_of_user. simpl.
      apply filter_nil_forall. intros x Hx.
      apply filter_In in Hx. destruct Hx as [Hx Hne].
      destruct (uuid_eqb (HouseholdMembership.user_id x) user_id) eqn:Eu; [|reflexivity].
      assert (Hin : In x (memberships_of_user (pending w) user_id))
        by (apply filter_In; auto).
      rewrite E in Hin. destruct Hin as [<- | []].
      rewrite uuid_eqb_refl in Hne. discriminate. }
    unfold leave_household, select, read, bind. simpl.
    fold (memberships_of_user (pending w) user_id). rewrite E. simpl.
    destruct (get_user_returns w user_id H) as [user Eu]. rewrite Eu.
    destruct user as [u|]; simpl.
    + eexists. split; [reflexivity|]. simpl.
      split; [intros u' Hu' Hid; eapply current_household_after_set; eauto|].
      split; [reflexivity|]. split; [apply Hgone|]. split; reflexivity.
    + eexists. split; [reflexivity|]. simpl.
      split.
      { intros u' Hu' Hid. exfalso.
        unfold get_user, select, read, bind in Eu. simpl in Eu.
        assert (Hin : In u' (filter (fun u => uuid_eqb (User.id u) user_id)
                               (users (pending w))))
          by (apply filter_In; split; [exact Hu'|apply uuid_eqb_eq; exact Hid]).
        destruct (filter (fun u => uuid_eqb (User.id u) user_id) (users (pending w)))
          as [|a [|b rest]]; simpl in Eu; try discriminate; contradiction. }
      split; [reflexivity|]. split.
      { rewrite <- (Hgone (users (pending w))). destruct (pending w); reflexivity. }
      split; reflexivity.
Qed.

Lemma leave_household_keeps_grants_witness :
  (memberships_of_user shared_db 1 = [] ->
   leave_household 1 (session shared_db []) = Return false (session shared_db []))
  /\ (forall m, In m (memberships_of_user shared_db 1) ->
      exists w',
        leave_household 1 (session shared_db []) = Return true w'
        /\ (forall u, In u (users (pending w')) -> User.id u = 1%N ->
                      User.current_household_id u = None)
        /\ household_memberships (pending w')
           = filter (fun m' => negb (uuid_eqb (HouseholdMembership.id m')
                                       (HouseholdMembership.id m)))
               (household_memberships shared_db)
        /\ memberships_of_user (pending w') 1 = []
        /\ recipe_household_access (pending w') = recipe_household_access shared_db
        /\ committed w' = pending w').
Proof.
  apply (leave_household_keeps_grants (session shared_db []) 1).
  vm_compute. reflexivity.
Defined.

(** User 1 leaves household 10: the grant on the user's own shared recipe
    stays with the household, and user 2 still reads the recipe. *)
Example grant_survives_leave :
  exists w',
    leave_household 1 (session shared_db []) = Return true w'
    /\ recipe_household_access (pending w') = [RecipeHouseholdAccess.mk 30 100 10 (Some 1%N)]
    /\ can_user_access_recipe 100 2 w' = Return true w'.
Proof. eexists. repeat split. Qed.

(** A user without a membership: nothing happens. *)
Example leave_without_membership :
  leave_household 3 (session shared_db []) = Return false (session shared_db []).
Proof. reflexivity. Qed.

(** * Granting access *)

Lemma existsb_filter_nil {A : Type} (p : A -> bool) (l : list A) :
  existsb p l = false <-> filter p l = [].
Proof.
  induction l as [|x l IH]; simpl.
  - tauto.
  - destruct (p x); simpl; [split; discriminate | exact IH].
Qed.

(** A call that finds no grant for the pair inserts one row and commits. *)
Lemma grant_household_access_inserts (w : World) (recipe_id household_id granted_by id : UUID)
    (rest : list N) :
  let a := RecipeHouseholdAccess.mk id recipe_id household_id (Some granted_by) in
  let d' := set_recipe_household_access (recipe_household_access (pending w) ++ [a])
              (pending w) in
  entropy w = id :: rest ->
  grants_for (pending w) recipe_id household_id = [] ->
  has_id RecipeHouseholdAccess.id (recipe_household_access (pending w)) id = false ->
  access_ok (pending w) a = true ->
  grant_household_access recipe_id household_id granted_by w
  = Return (Some a) (mkWorld d' d' rest).
Proof.
  intros a d' He Hg Hid Hfk.
  unfold grant_household_access. unfold bind at 1. rewrite select_grants.
  unfold bind at 1. rewrite Hg. simpl.
  unfold bind at 1. unfold uuid4, draw. rewrite He.
  unfold insert_access, bind, read, check, write, commit, ret. simpl.
  rewrite Hid. simpl.
  assert (Hx : existsb (fun a' => pair_eqb (access_key a') (recipe_id, household_id))
                 (recipe_household_access (pending w)) = false)
    by (apply existsb_filter_nil; exact Hg).
  unfold access_key at 2. simpl. rewrite Hx. simpl.
  fold a. rewrite Hfk. reflexivity.
Qed.

(** Whenever a call returns, exactly one grant for the pair is in place. *)
Lemma grant_household_access_post (w w1 : World) (recipe_id household_id granted_by : UUID)
    (r1 : option RecipeHouseholdAccess.t) :
  grant_household_access recipe_id household_id granted_by w = Return r1 w1 ->
  exists a, grants_for (pending w1) recipe_id household_id = [a].
Proof.
  unfold grant_household_access. unfold bind at 1. rewrite select_grants.
  unfold bind at 1.
  destruct (grants_for (pending w) recipe_id household_id) as [|a [|b rest]] eqn:Hg; simpl.
  - unfold bind at 1. unfold uuid4, draw.
    destruct (entropy w) as [|id rest]; [discriminate|].
    unfold insert_access, bind, read, check, write, commit, ret. simpl.
    destruct (negb (has_id _ _ id)); simpl; [|discriminate].
    destruct (negb (existsb _ _)); simpl; [|discriminate].
    destruct (access_ok _ _); simpl; [|discriminate].
    intros E. inversion E; subst. simpl.
    unfold grants_for in *. simpl. rewrite filter_app, Hg. simpl.
    unfold access_key. simpl. unfold pair_eqb. simpl. rewrite !uuid_eqb_refl. simpl.
    eexists. reflexivity.
  - intros E. inversion E; subst. exists a. exact Hg.
  - discriminate.
Qed.

(** C4. A call that finds a grant for the pair returns nothing and leaves the
    state as it is.  A call that finds none, draws a new id and names a
    recipe, a household and a user on file, inserts one row.  So after any
    first call that returns, a second call changes nothing, and one grant
    row for the pair is in place. *)
Theorem grant_household_access_idempotent
    (w : World) (recipe_id household_id granted_by granted_by' : UUID) :
  db_ok (pending w) = true ->
  (granted (pending w) recipe_id household_id ->
   grant_household_access recipe_id household_id granted_by w = Return None w)
  /\ (forall id rest,
        let a := RecipeHouseholdAccess.mk id recipe_id household_id (Some granted_by) in
        ~ granted (pending w) recipe_id household_id ->
        entropy w = id :: rest ->
        has_id RecipeHouseholdAccess.id (recipe_household_access (pending w)) id = false ->
        access_ok (pending w) a = true ->
        exists w1,
          grant_household_access recipe_id household_id granted_by w = Return (Some a) w1
          /\ recipe_household_access (pending w1)
             = recipe_household_access (pending w) ++ [a])
  /\ (forall r1 w1,
        grant_household_access recipe_id household_id granted_by w = Return r1 w1 ->
        grant_household_access recipe_id household_id granted_by' w1 = Return None w1
        /\ List.length (grants_for (pending w1) recipe_id household_id) = 1%nat).
Proof.
  intros H. split; [|split].
  - intros Hg. apply granted_rows in Hg.
    unfold grant_household_access. unfold bind at 1. rewrite select_grants.
    unfold bind at 1.
    destruct (grant_rows (pending w) recipe_id household_id H) as [E | [a E]];
      [contradiction|].
    rewrite E. reflexivity.
  - intros id rest a Hng He Hid Hfk. eexists. split.
    + apply (grant_household_access_inserts w recipe_id household_id granted_by id rest);
        auto.
      destruct (grants_for (pending w) recipe_id household_id) eqn:Eg; [reflexivity|].
      exfalso. apply Hng. apply granted_rows. rewrite Eg. discriminate.
    + reflexivity.
  - intros r1 w1 E1.
    destruct (grant_household_access_post _ _ _ _ _ _ E1) as [a Ea].
    split.
    + unfold grant_household_access. unfold bind at 1. rewrite select_grants.
      unfold bind at 1. rewrite Ea. reflexivity.
    + rewrite Ea. reflexivity.
Qed.

Lemma grant_household_access_idempotent_witness :
  (granted two_recipes_db 101 10 ->
   grant_household_access 101 10 2 (session two_recipes_db [31%N])
   = Return None (session two_recipes_db [31%N]))
  /\ (forall id rest,
        let a := RecipeHouseholdAccess.mk id 101 10 (Some 2%N) in
        ~ granted two_recipes_db 101 10 ->
        [31%N] = id :: rest ->
        has_id RecipeHouseholdAccess.id (recipe_household_access two_recipes_db) id = false ->
        access_ok two_recipes_db a = true ->
        exists w1,
          grant_household_access 101 10 2 (session two_recipes_db [31%N])
          = Return (Some a) w1
          /\ recipe_household_access (pending w1)
             = recipe_household_access two_recipes_db ++ [a])
  /\ (forall r1 w1,
        grant_household_access 101 10 2 (session two_recipes_db [31%N]) = Return r1 w1 ->
        grant_household_access 101 10 1 w1 = Return None w1
        /\ List.length (grants_for (pending w1) 101 10) = 1%nat).
Proof.
  apply (grant_household_access_idempotent (session two_recipes_db [31%N]) 101 10 2 1).
  vm_compute. reflexivity.
Defined.

(** Granting twice: the first call inserts the row, the second returns
    nothing and the table is the same. *)
Example grant_twice :
  exists a w1,
    grant_household_access 101 10 2 (session two_recipes_db [31%N]) = Return (Some a) w1
    /\ grant_household_access 101 10 2 w1 = Return None w1
    /\ grants_for (pending w1) 101 10 = [a]
    /\ recipe_household_access (pending w1)
       = recipe_household_access two_recipes_db ++ [a].
Proof.
  do 2 eexists. split; [vm_compute; reflexivity|].
  split; [|split]; reflexivity.
Qed.

(** * Running the session monad backwards *)

Lemma bind_Return_inv {A B : Type} (m : M A) (k : A -> M B) (w w' : World) (b : B) :
  bind m k w = Return b w' ->
  exists a w1, m w = Return a w1 /\ k a w1 = Return b w'.
Proof.
  unfold bind. destruct (m w) as [a w1 | e w1]; [|discriminate].
  intros E. exists a, w1. split; [reflexivity | exact E].
Qed.

Lemma check_Return_inv (ok : bool) (c : string) (w w' : World) (u : unit) :
  check ok c w = Return u w' -> ok = true /\ w' = w.
Proof.
  unfold check. destruct ok; simpl; [|discriminate].
  unfold ret. intros E. inversion E. auto.
Qed.

Lemma read_inv {A : Type} (f : DB -> A) (w w' : World) (a : A) :
  read f w = Return a w' -> w' = w /\ a = f (pending w).
Proof. unfold read. intros E. inversion E. auto. Qed.

Lemma select_inv {A : Type} (table : DB -> list A) (p : A -> bool) (w w' : World)
    (rows : list A) :
  select table p w = Return rows w' -> w' = w /\ rows = filter p (table (pending w)).
Proof. unfold select. apply read_inv. Qed.

Lemma uuid4_Return_inv (w w' : World) (id : UUID) :
  uuid4 w = Return id w' ->
  entropy w = id :: entropy w' /\ committed w' = committed w /\ pending w' = pending w.
Proof.
  unfold uuid4, draw. destruct (entropy w) as [|n rest] eqn:E; [discriminate|].
  intros R. inversion R; subst. simpl. auto.
Qed.

Lemma scalar_one_or_none_inv {A : Type} (rows : list A) (w w' : World) (r : option A) :
  scalar_one_or_none rows w = Return r w' ->
  w' = w /\ match r with Some x => rows = [x] | None => rows = [] end.
Proof.
  destruct rows as [|x [|y rest]]; simpl; unfold ret, raise; intros E;
    inversion E; subst; auto.
Qed.

Lemma insert_membership_inv (m : HouseholdMembership.t) (w w' : World) (u : unit) :
  insert_membership m w = Return u w' ->
  memberships_of_user (pending w) (HouseholdMembership.user_id m) = []
  /\ membership_ok (pending w) m = true
  /\ w' = mkWorld (committed w)
            (set_household_memberships (household_memberships (pending w) ++ [m]) (pending w))
            (entropy w).
Proof.
  unfold insert_membership. intros E.
  apply bind_Return_inv in E. destruct E as [d [w1 [E1 E]]].
  apply read_inv in E1. destruct E1 as [-> ->].
  apply bind_Return_inv in E. destruct E as [u1 [w2 [E1 E]]].
  apply check_Return_inv in E1. destruct E1 as [_ ->].
  apply bind_Return_inv in E. destruct E as [u2 [w2 [E1 E]]].
  apply check_Return_inv in E1. destruct E1 as [Hu ->].
  apply bind_Return_inv in E. destruct E as [u3 [w2 [E1 E]]].
  apply check_Return_inv in E1. destruct E1 as [Hfk ->].
  unfold write in E. inversion E; subst.
  apply negb_true_iff in Hu. apply existsb_filter_nil in Hu.
  auto.
Qed.

Lemma only_grants_added_refl (w w' : World) :
  pending w' = pending w -> only_grants_added w w'.
Proof.
  intros E. exists []. rewrite E, app_nil_r. destruct (pending w). reflexivity.
Qed.

Lemma only_grants_added_trans (w1 w2 w3 : World) :
  only_grants_added w1 w2 -> only_grants_added w2 w3 -> only_grants_added w1 w3.
Proof.
  intros [n1 E1] [n2 E2]. exists (n1 ++ n2).
  rewrite E2, E1. simpl. rewrite app_assoc. reflexivity.
Qed.

Lemma granted_mono (w w' : World) (recipe_id household_id : UUID) :
  only_grants_added w w' ->
  granted (pending w) recipe_id household_id -> granted (pending w') recipe_id household_id.
Proof.
  intros [new E] [a [Ha Hk]]. exists a. split; [|exact Hk].
  rewrite E. simpl. apply in_or_app. left. exact Ha.
Qed.

Lemma grant_household_access_step (w w' : World) (recipe_id household_id granted_by : UUID)
    (r : option RecipeHouseholdAccess.t) :
  grant_household_access recipe_id household_id granted_by w = Return r w' ->
  only_grants_added w w' /\ granted (pending w') recipe_id household_id.
Proof.
  intros E. split.
  - revert E. unfold grant_household_access. unfold bind at 1. rewrite select_grants.
    unfold bind at 1.
    destruct (grants_for (pending w) recipe_id household_id) as [|a [|b rest]]; simpl.
    + unfold bind at 1. unfold uuid4, draw.
      destruct (entropy w) as [|id rest]; [discriminate|].
      unfold insert_access, bind, read, check, write, commit, ret. simpl.
      destruct (negb (has_id _ _ id)); simpl; [|discriminate].
      destruct (negb (existsb _ _)); simpl; [|discriminate].
      destruct (access_ok _ _); simpl; [|discriminate].
      intros E. inversion E; subst. simpl. eexists. reflexivity.
    + intros E. inversion E; subst. apply only_grants_added_refl. reflexivity.
    + discriminate.
  - destruct (grant_household_access_post _ _ _ _ _ _ E) as [a Ea].
    apply granted_rows. rewrite Ea. discriminate.
Qed.

Lemma for_each_grants (ids : list UUID) (household_id user_id : UUID) :
  forall (w w' : World) (u : unit),
  for_each ids
    (fun recipe_id => grant_household_access recipe_id household_id user_id ;;; ret tt) w
  = Return u w' ->
  only_grants_added w w'
  /\ forall recipe_id, In recipe_id ids -> granted (pending w') recipe_id household_id.
Proof.
  induction ids as [|rid ids IH]; simpl; intros w w' u E.
  - unfold ret in E. inversion E; subst. split.
    + apply only_grants_added_refl. reflexivity.
    + intros ? [].
  - apply bind_Return_inv in E. destruct E as [u1 [w1 [E1 E]]].
    apply bind_Return_inv in E1. destruct E1 as [r [w2 [E1 E2]]].
    unfold ret in E2. inversion E2; subst. clear E2.
    apply grant_household_access_step in E1. destruct E1 as [S1 G1].
    apply IH in E. destruct E as [S2 G2]. split.
    + eapply only_grants_added_trans; eauto.
    + intros rid' [<- | Hin].
      * eapply granted_mono; eauto.
      * apply G2. exact Hin.
Qed.

(** The propagation step grants every shared recipe of the user to the
    household and touches nothing but the grants. *)
Lemma grant_user_recipes_post (w w' : World) (user_id household_id : UUID) (u : unit) :
  _grant_user_recipes_to_household user_id household_id w = Return u w' ->
  only_grants_added w w'
  /\ forall r, In r (recipes (pending w)) -> Recipe.user_id r = user_id ->
               Recipe.shared_with_household r = Some true ->
               granted (pending w') (Recipe.id r) household_id.
Proof.
  unfold _grant_user_recipes_to_household. intros E.
  apply bind_Return_inv in E. destruct E as [rows [w1 [E1 E]]].
  apply select_inv in E1. destruct E1 as [-> ->].
  apply for_each_grants in E. destruct E as [S G]. split; [exact S|].
  intros r Hr Hu Hs. apply G. apply in_map. apply filter_In. split; [exact Hr|].
  rewrite Hu, Hs, uuid_eqb_refl. reflexivity.
Qed.

Lemma get_household_by_invite_code_inv (w w' : World) (invite_code : string)
    (r : option Household.t) :
  get_household_by_invite_code invite_code w = Return r w' ->
  w' = w
  /\ match r with
     | Some h => In h (households (pending w))
                 /\ Household.invite_code h = Some invite_code
     | None => forall h, In h (households (pending w)) ->
                         Household.invite_code h <> Some invite_code
     end.
Proof.
  unfold get_household_by_invite_code. intros E.
  apply bind_Return_inv in E. destruct E as [rows [w1 [E1 E]]].
  apply select_inv in E1. destruct E1 as [-> ->].
  apply scalar_one_or_none_inv in E. destruct E as [-> E]. split; [reflexivity|].
  destruct r as [h|].
  - assert (Hin : In h (filter (fun h => sql_eq String.eqb (Household.invite_code h) invite_code)
                          (households (pending w))))
      by (rewrite E; left; reflexivity).
    apply filter_In in Hin. destruct Hin as [Hin Hc]. split; [exact Hin|].
    destruct (Household.invite_code h) as [c|]; simpl in Hc; [|discriminate].
    apply String.eqb_eq in Hc. congruence.
  - intros h Hin Hc.
    apply (filter_in_cons (fun h => sql_eq String.eqb (Household.invite_code h) invite_code)
             _ h Hin); [|exact E].
    rewrite Hc. simpl. apply String.eqb_refl.
Qed.

Lemma invite_code_rows (d : DB) (invite_code : string) :
  db_ok d = true ->
  filter (fun h => sql_eq String.eqb (Household.invite_code h) invite_code) (households d) = []
  \/ exists h,
       filter (fun h => sql_eq String.eqb (Household.invite_code h) invite_code) (households d)
       = [h].
Proof.
  intros H. ok_parts H. unfold unique_nullable in *.
  eapply unique_by_filter; [|eassumption].
  intros a b Ha Hb. simpl.
  destruct (Household.invite_code a) as [ca|]; simpl in Ha; [|discriminate].
  destruct (Household.invite_code b) as [cb|]; simpl in Hb; [|discriminate].
  apply String.eqb_eq in Ha, Hb. subst. simpl. apply String.eqb_refl.
Qed.

(** * Joining a household *)

Lemma get_user_inv (w w' : World) (user_id : UUID) (r : option User.t) :
  get_user user_id w = Return r w' ->
  w' = w
  /\ match r with
     | Some u => In u (users (pending w)) /\ User.id u = user_id
     | None => has_id User.id (users (pending w)) user_id = false
     end.
Proof.
  unfold get_user. intros E.
  apply bind_Return_inv in E. destruct E as [rows [w1 [E1 E]]].
  apply select_inv in E1. destruct E1 as [-> ->].
  apply scalar_one_or_none_inv in E. destruct E as [-> E]. split; [reflexivity|].
  destruct r as [u|].
  - assert (Hin : In u (filter (fun u => uuid_eqb (User.id u) user_id) (users (pending w))))
      by (rewrite E; left; reflexivity).
    apply filter_In in Hin. destruct Hin as [Hin Hid]. apply uuid_eqb_eq in Hid. auto.
  - unfold has_id. apply existsb_filter_nil. exact E.
Qed.

Lemma set_current_household_users (l : list User.t) (user_id : UUID) (v : option UUID) :
  has_id User.id l user_id = true ->
  exists u,
    In u (map (fun u => if uuid_eqb (User.id u) user_id then User.mk (User.id u) v else u) l)
    /\ User.id u = user_id /\ User.current_household_id u = v.
Proof.
  intros H. apply has_id_true in H. destruct H as [u [Hu Hid]].
  exists (User.mk (User.id u) v). split; [|auto].
  apply in_map_iff. exists u. split; [|exact Hu].
  rewrite Hid, uuid_eqb_refl. reflexivity.
Qed.

(** C2. The invite code is looked up first: unknown, the call returns no
    membership and changes nothing.  With a known code, a user who already
    has a membership gets the already-a-member error and the state stays as
    it was: no row inserted, no current household set, no grant made.  A call
    that returns a membership has appended exactly that one row with role
    member, set the user's current household to the joined household,
    granted every shared recipe of the user to it, and committed.  That
    the call does return for a user on file whenever the ids it draws are
    new is [join_household_returns]. *)
Theorem join_household_outcomes (w : World) (user_id : UUID) (invite_code : string) :
  db_ok (pending w) = true ->
  ((forall h, In h (households (pending w)) ->
              Household.invite_code h <> Some invite_code) ->
   join_household user_id invite_code w = Return None w)
  /\ (forall h m,
        In h (households (pending w)) -> Household.invite_code h = Some invite_code ->
        In m (memberships_of_user (pending w) user_id) ->
        join_household user_id invite_code w
        = Raise (ValueError "User is already in a household") w)
  /\ (forall membership w',
        join_household user_id invite_code w = Return (Some membership) w' ->
        exists h,
          In h (households (pending w))
          /\ Household.invite_code h = Some invite_code
          /\ memberships_of_user (pending w) user_id = []
          /\ household_memberships (pending w')
             = household_memberships (pending w) ++ [membership]
          /\ HouseholdMembership.role membership = "member"%string
          /\ HouseholdMembership.user_id membership = user_id
          /\ HouseholdMembership.household_id membership = Household.id h
          /\ (exists u, In u (users (pending w')) /\ User.id u = user_id)
          /\ (forall u, In u (users (pending w')) -> User.id u = user_id ->
                        User.current_household_id u = Some (Household.id h))
          /\ (forall r, In r (recipes (pending w)) -> Recipe.user_id r = user_id ->
                        Recipe.shared_with_household r = Some true ->
                        granted (pending w') (Recipe.id r) (Household.id h))
          /\ committed w' = pending w').
Proof.
  intros H. split; [|split].
  - intros Hno. unfold join_household, get_household_by_invite_code.
    unfold bind at 1. unfold bind at 1. unfold select, read. simpl.
    rewrite filter_nil_forall; [reflexivity|].
    intros h Hh. specialize (Hno h Hh).
    destruct (Household.invite_code h) as [c|]; simpl; [|reflexivity].
    destruct (String.eqb c invite_code) eqn:Ec; [|reflexivity].
    apply String.eqb_eq in Ec. congruence.
  - intros h m Hh Hc Hm. unfold join_household, get_household_by_invite_code.
    unfold bind at 1. unfold bind at 1. unfold select at 1, read. simpl.
    destruct (invite_code_rows (pending w) invite_code H) as [E | [h' E]].
    + exfalso. apply (filter_in_cons _ _ h Hh) in E; [exact E|].
      rewrite Hc. simpl. apply String.eqb_refl.
    + rewrite E. simpl. unfold bind at 1. unfold select, read. simpl.
      fold (memberships_of_user (pending w) user_id).
      destruct (membership_rows (pending w) user_id H) as [Em | [m' Em]];
        rewrite Em in *; [contradiction|].
      reflexivity.
  - intros membership w' E. unfold join_household in E.
    apply bind_Return_inv in E. destruct E as [household [w1 [E1 E]]].
    apply get_household_by_invite_code_inv in E1. destruct E1 as [-> Hh].
    destruct household as [h|]; [|discriminate].
    destruct Hh as [Hh Hc]. exists h.
    apply bind_Return_inv in E. destruct E as [rows [w1 [E1 E]]].
    apply select_inv in E1. destruct E1 as [-> ->].
    apply bind_Return_inv in E. destruct E as [existing [w1 [E1 E]]].
    apply scalar_one_or_none_inv in E1. destruct E1 as [-> Hrows].
    destruct existing as [x|]; [discriminate|].
    apply bind_Return_inv in E. destruct E as [id [w1 [E1 E]]].
    apply uuid4_Return_inv in E1. destruct E1 as [He [Hc1 Hp1]].
    apply bind_Return_inv in E. destruct E as [u1 [w2 [E1 E]]].
    apply insert_membership_inv in E1. simpl in E1. destruct E1 as [_ [Hfk ->]].
    apply bind_Return_inv in E. destruct E as [user [w3 [E1 E]]].
    apply get_user_inv in E1. destruct E1 as [-> Hu]. simpl in Hu.
    unfold membership_ok in Hfk. simpl in Hfk. apply andb_true_iff in Hfk.
    destruct Hfk as [_ Hfk]. rewrite Hp1 in *.
    destruct user as [u|]; [|rewrite Hfk in Hu; discriminate].
    apply bind_Return_inv in E. destruct E as [u2 [w4 [E1 E]]].
    unfold set_current_household, write in E1. simpl in E1.
    inversion E1; subst w4; clear E1.
    apply bind_Return_inv in E. destruct E as [u3 [w5 [E1 E]]].
    apply grant_user_recipes_post in E1. destruct E1 as [[new Hnew] Hgr]. simpl in *.
    apply bind_Return_inv in E. destruct E as [u4 [w6 [E1 E]]].
    unfold commit in E1. inversion E1; subst w6; clear E1.
    unfold ret in E. inversion E; subst; clear E. simpl.
    rewrite Hnew. simpl.
    repeat split; auto.
    + destruct (set_current_household_users (users (pending w)) user_id
                  (Some (Household.id h)) Hfk) as [u' [Hu' [Hid _]]].
      exists u'. auto.
    + intros u' Hu' Hid. eapply current_household_after_set; eauto.
    + intros r Hr Hru Hs. rewrite <- Hnew. apply Hgr; auto.
Qed.

Lemma join_household_outcomes_witness :
  ((forall h, In h (households join_db) ->
              Household.invite_code h <> Some "ABCD1234"%string) ->
   join_household 3 "ABCD1234" join_world = Return None join_world)
  /\ (forall h m,
        In h (households join_db) -> Household.invite_code h = Some "ABCD1234"%string ->
        In m (memberships_of_user join_db 3) ->
        join_household 3 "ABCD1234" join_world
        = Raise (ValueError "User is already in a household") join_world)
  /\ (forall membership w',
        join_household 3 "ABCD1234" join_world = Return (Some membership) w' ->
        exists h,
          In h (households join_db)
          /\ Household.invite_code h = Some "ABCD1234"%string
          /\ memberships_of_user join_db 3 = []
          /\ household_memberships (pending w')
             = household_memberships join_db ++ [membership]
          /\ HouseholdMembership.role membership = "member"%string
          /\ HouseholdMembership.user_id membership = 3%N
          /\ HouseholdMembership.household_id membership = Household.id h
          /\ (exists u, In u (users (pending w')) /\ User.id u = 3%N)
          /\ (forall u, In u (users (pending w')) -> User.id u = 3%N ->
                        User.current_household_id u = Some (Household.id h))
          /\ (forall r, In r (recipes join_db) -> Recipe.user_id r = 3%N ->
                        Recipe.shared_with_household r = Some true ->
                        granted (pending w') (Recipe.id r) (Household.id h))
          /\ committed w' = pending w').
Proof.
  apply (join_household_outcomes join_world 3 "ABCD1234").
  vm_compute. reflexivity.
Defined.

(** The join of user 3 goes through: one member row, the current household
    set, the shared recipe granted and the private one not. *)
Example join_succeeds :
  exists w',
    join_household 3 "ABCD1234" join_world
    = Return (Some (HouseholdMembership.mk 40 10 3 "member")) w'
    /\ household_memberships (pending w')
       = household_memberships join_db ++ [HouseholdMembership.mk 40 10 3 "member"]
    /\ users (pending w') = users_ab ++ [User.mk 3 (Some 10%N)]
    /\ recipe_household_access (pending w')
       = recipe_household_access join_db ++ [RecipeHouseholdAccess.mk 41 102 10 (Some 3%N)]
    /\ can_user_access_recipe 102 1 w' = Return true w'
    /\ can_user_access_recipe 103 1 w' = Return false w'.
Proof.
  eexists. split; [vm_compute; reflexivity|].
  repeat split.
Qed.

(** An unknown code, and a second join by a user who is already a member. *)
Example join_rejected :
  join_household 3 "NOSUCHCD" join_world = Return None join_world
  /\ join_household 2 "ABCD1234" join_world
     = Raise (ValueError "User is already in a household") join_world
  /\ join_household 2 "NOSUCHCD" join_world = Return None join_world.
Proof. repeat split. Qed.

(** * Creating a household *)

Lemma generate_chars_same_db (n : nat) :
  forall (w w' : World) (cs : list ascii),
  generate_chars n w = Return cs w' -> same_db w w'.
Proof.
  induction n as [|n IH]; simpl; intros w w' cs E.
  - unfold ret in E. inversion E. split; reflexivity.
  - apply bind_Return_inv in E. destruct E as [c [w1 [E1 E]]].
    unfold secrets_choice in E1.
    apply bind_Return_inv in E1. destruct E1 as [k [w2 [E1 E2]]].
    apply uuid4_Return_inv in E1. destruct E1 as [_ [Hc Hp]].
    unfold ret in E2. inversion E2; subst w2; clear E2.
    apply bind_Return_inv in E. destruct E as [cs' [w3 [E1 E]]].
    apply IH in E1. destruct E1 as [Hp' Hc'].
    unfold ret in E. inversion E; subst. split; congruence.
Qed.

Lemma generate_invite_code_same_db (n : nat) (w w' : World) (c : string) :
  generate_invite_code n w = Return c w' -> same_db w w'.
Proof.
  unfold generate_invite_code. intros E.
  apply bind_Return_inv in E. destruct E as [cs [w1 [E1 E]]].
  apply generate_chars_same_db in E1.
  unfold ret in E. inversion E; subst. exact E1.
Qed.

(** The loop hands back only a code that no household holds. *)
Lemma retry_invite_code_fresh (fuel : nat) :
  forall (w w' : World) (c c' : string),
  retry_invite_code fuel c w = Return c' w' ->
  same_db w w'
  /\ forall h, In h (households (pending w)) -> Household.invite_code h <> Some c'.
Proof.
  induction fuel as [|fuel IH]; intros w w' c c' E; simpl in E;
    apply bind_Return_inv in E; destruct E as [existing [w1 [E1 E]]];
    apply get_household_by_invite_code_inv in E1; destruct E1 as [-> Hex];
    destruct existing as [h0|].
  - discriminate.
  - unfold ret in E. inversion E; subst. split; [split; reflexivity | exact Hex].
  - apply bind_Return_inv in E. destruct E as [c1 [w1 [E1 E]]].
    apply generate_invite_code_same_db in E1. destruct E1 as [Hp Hc].
    apply IH in E. destruct E as [[Hp' Hc'] Hfresh]. split.
    + split; congruence.
    + rewrite <- Hp. exact Hfresh.
  - unfold ret in E. inversion E; subst. split; [split; reflexivity | exact Hex].
Qed.

Lemma insert_household_inv (h : Household.t) (w w' : World) (u : unit) :
  insert_household h w = Return u w' ->
  has_id Household.id (households (pending w)) (Household.id h) = false
  /\ household_ok (pending w) h = true
  /\ w' = mkWorld (committed w)
            (set_households (households (pending w) ++ [h]) (pending w))
            (entropy w).
Proof.
  unfold insert_household. intros E.
  apply bind_Return_inv in E. destruct E as [d [w1 [E1 E]]].
  apply read_inv in E1. destruct E1 as [-> ->].
  apply bind_Return_inv in E. destruct E as [u1 [w2 [E1 E]]].
  apply check_Return_inv in E1. destruct E1 as [Hpk ->].
  apply bind_Return_inv in E. destruct E as [u2 [w2 [E1 E]]].
  apply check_Return_inv in E1. destruct E1 as [_ ->].
  apply bind_Return_inv in E. destruct E as [u3 [w2 [E1 E]]].
  apply check_Return_inv in E1. destruct E1 as [Hfk ->].
  unfold write in E. inversion E; subst.
  apply negb_true_iff in Hpk. auto.
Qed.

(** No membership points at a household that is not in the table. *)
Lemma no_members_of_absent_household (d : DB) (household_id : UUID) :
  db_ok d = true ->
  has_id Household.id (households d) household_id = false ->
  memberships_of_household d household_id = [].
Proof.
  intros H Hno. unfold memberships_of_household. apply filter_nil_forall.
  intros m Hm. destruct (membership_fk d m H Hm) as [Hfk _].
  destruct (uuid_eqb (HouseholdMembership.household_id m) household_id) eqn:E;
    [|reflexivity].
  apply uuid_eqb_eq in E. rewrite E in Hfk. congruence.
Qed.

(** C3. When [create_household] returns, the new household has exactly one
    membership, held by the creator with role admin; the creator's current
    household is the new one; and the invite code is one that no household
    held before the call.  The shared recipes of the creator are granted to
    it and everything is committed.  That the call does return once the
    stream of random codes reaches a free one, with that first free code, is
    [create_household_returns]. *)
Theorem create_household_post (w w' : World) (user_id : UUID) (name : string)
    (household : Household.t) :
  db_ok (pending w) = true ->
  create_household user_id name w = Return household w' ->
  (exists m,
     memberships_of_household (pending w') (Household.id household) = [m]
     /\ HouseholdMembership.role m = "admin"%string
     /\ HouseholdMembership.user_id m = user_id)
  /\ In household (households (pending w'))
  /\ (exists u, In u (users (pending w')) /\ User.id u = user_id)
  /\ (forall u, In u (users (pending w')) -> User.id u = user_id ->
                User.current_household_id u = Some (Household.id household))
  /\ (exists code,
        Household.invite_code household = Some code
        /\ forall h, In h (households (pending w)) -> Household.invite_code h <> Some code)
  /\ (forall r, In r (recipes (pending w)) -> Recipe.user_id r = user_id ->
                Recipe.shared_with_household r = Some true ->
                granted (pending w') (Recipe.id r) (Household.id household))
  /\ committed w' = pending w'.
Proof.
  intros H E. unfold create_household in E.
  apply bind_Return_inv in E. destruct E as [c0 [w1 [E1 E]]].
  apply generate_invite_code_same_db in E1. destruct E1 as [Hp1 _].
  apply bind_Return_inv in E. destruct E as [code [w2 [E1 E]]].
  apply retry_invite_code_fresh in E1. destruct E1 as [[Hp2 _] Hfresh].
  rewrite Hp1 in Hfresh.
  apply bind_Return_inv in E. destruct E as [id [w3 [E1 E]]].
  apply uuid4_Return_inv in E1. destruct E1 as [_ [_ Hp3]].
  apply bind_Return_inv in E. destruct E as [u1 [w4 [E1 E]]].
  apply insert_household_inv in E1. simpl in E1. destruct E1 as [Hpk [_ ->]].
  assert (Hp : pending w3 = pending w) by congruence. rewrite Hp in *.
  apply bind_Return_inv in E. destruct E as [mid [w5 [E1 E]]].
  apply uuid4_Return_inv in E1. simpl in E1. destruct E1 as [_ [_ Hp5]].
  apply bind_Return_inv in E. destruct E as [u2 [w6 [E1 E]]].
  apply insert_membership_inv in E1. simpl in E1. destruct E1 as [_ [Hfk ->]].
  rewrite Hp5 in *. simpl in *.
  unfold membership_ok in Hfk. simpl in Hfk. apply andb_true_iff in Hfk.
  destruct Hfk as [_ Hfk].
  apply bind_Return_inv in E. destruct E as [user [w7 [E1 E]]].
  apply get_user_inv in E1. destruct E1 as [-> Hu]. simpl in Hu.
  destruct user as [u|]; [|rewrite Hfk in Hu; discriminate].
  apply bind_Return_inv in E. destruct E as [u3 [w8 [E1 E]]].
  unfold set_current_household, write in E1. simpl in E1.
  inversion E1; subst w8; clear E1.
  apply bind_Return_inv in E. destruct E as [u4 [w9 [E1 E]]].
  apply grant_user_recipes_post in E1. destruct E1 as [[new Hnew] Hgr]. simpl in *.
  apply bind_Return_inv in E. destruct E as [u5 [w10 [E1 E]]].
  unfold commit in E1. inversion E1; subst w10; clear E1.
  unfold ret in E. inversion E; subst; clear E. simpl.
  rewrite Hnew. simpl.
  split; [|split; [|split; [|split; [|split; [|split]]]]].
  - exists (HouseholdMembership.mk mid id user_id "admin").
    split; [|split; reflexivity].
    unfold memberships_of_household. simpl. rewrite filter_app. simpl.
    rewrite uuid_eqb_refl.
    fold (memberships_of_household (pending w) id).
    rewrite (no_members_of_absent_household (pending w) id H Hpk). reflexivity.
  - apply in_or_app. right. left. reflexivity.
  - destruct (set_current_household_users (users (pending w)) user_id (Some id) Hfk)
      as [u' [Hu' [Hid _]]].
    exists u'. auto.
  - intros u' Hu' Hid. eapply current_household_after_set; eauto.
  - exists code. split; [reflexivity | exact Hfresh].
  - intros r Hr Hru Hs. rewrite <- Hnew. apply Hgr; auto.
  - reflexivity.
Qed.

Lemma create_household_post_witness :
  exists household w',
    create_household 3 "Flat" create_world = Return household w'
    /\ (exists m,
          memberships_of_household (pending w') (Household.id household) = [m]
          /\ HouseholdMembership.role m = "admin"%string
          /\ HouseholdMembership.user_id m = 3%N)
    /\ (forall u, In u (users (pending w')) -> User.id u = 3%N ->
                  User.current_household_id u = Some (Household.id household))
    /\ (exists code,
          Household.invite_code household = Some code
          /\ forall h, In h (households create_db) -> Household.invite_code h <> Some code).
Proof.
  do 2 eexists. split; [vm_compute; reflexivity|].
  match goal with
  | |- (exists m, memberships_of_household (pending ?w') (Household.id ?h) = _ /\ _) /\ _ =>
      destruct (create_household_post create_world w' 3 "Flat" h)
        as [Hm [_ [_ [Hu [Hc _]]]]]
  end.
  - vm_compute. reflexivity.
  - vm_compute. reflexivity.
  - split; [exact Hm|]. split; [exact Hu | exact Hc].
Defined.

(** The colliding first code is thrown away and a second one is drawn. *)
Example create_retries_on_collision :
  exists w',
    create_household 3 "Flat" create_world
    = Return (Household.mk 50 "Flat" (Some 3%N) (Some "BBBBBBBB"%string)) w'
    /\ household_memberships (pending w')
       = household_memberships create_db ++ [HouseholdMembership.mk 51 50 3 "admin"]
    /\ users (pending w') = users_ab ++ [User.mk 3 (Some 50%N)]
    /\ recipe_household_access (pending w') = [RecipeHouseholdAccess.mk 52 102 50 (Some 3%N)].
Proof.
  eexists. split; [vm_compute; reflexivity|]. repeat split.
Qed.

(** A creator who is already a member: the unique constraint on the user
    column of memberships stops the call. *)
Example create_by_member_raises :
  exists w',
    create_household 2 "Flat" create_world
    = Raise (IntegrityError "unique_user_household") w'.
Proof. eexists. vm_compute. reflexivity. Qed.

(** * Parsing an ingredient line *)

Lemma parse_ingredient_try_None
    (parse_ingredient : string -> option ingredient_parser.ParsedIngredient)
    (ingredient_text : string) :
  parse_ingredient_try parse_ingredient ingredient_text = None
  <-> parsing_raises parse_ingredient ingredient_text.
Proof.
  unfold parse_ingredient_try, parsing_raises.
  destruct (parse_ingredient ingredient_text) as [parsed|]; [|tauto].
  destruct (ingredient_parser.amount parsed) as [|amount rest] eqn:Ea.
  - destruct (ingredient_parser.name parsed) as [|n ns]; split; try discriminate;
      intros [E | [p [a [r [E [Ea' _]]]]]]; try discriminate;
      inversion E; subst; rewrite Ea in Ea'; discriminate.
  - destruct (ingredient_parser.py_bool (ingredient_parser.quantity amount)) eqn:Eb.
    + destruct (ingredient_parser.py_float (ingredient_parser.quantity amount)) eqn:Ef.
      * destruct (ingredient_parser.name parsed) as [|n ns]; split; try discriminate;
          intros [E | [p [a [r [E [Ea' [_ Ef']]]]]]]; try discriminate;
          inversion E; subst; rewrite Ea in Ea'; inversion Ea'; subst; congruence.
      * split; [|reflexivity]. intros _. right. exists parsed, amount, rest. auto.
    + destruct (ingredient_parser.name parsed) as [|n ns]; split; try discriminate;
        intros [E | [p [a [r [E [Ea' [Eb' _]]]]]]]; try discriminate;
        inversion E; subst; rewrite Ea in Ea'; inversion Ea'; subst; congruence.
Qed.

(** C5, as the code has it.  The function is total.  When parsing raises,
    the result is the fallback record: name the trimmed, lower-cased raw
    text, no quantity, unit or notes, confidence 0.1, not parsed.  When
    nothing raises the record is marked parsed; with no name token it has a
    null name and confidence the mean of the amount confidence and 0.8. *)
Theorem parse_ingredient_string_fallback
    (parse_ingredient : string -> option ingredient_parser.ParsedIngredient)
    (ingredient_text : string) :
  (parsing_raises parse_ingredient ingredient_text ->
   parse_ingredient_string parse_ingredient ingredient_text
   = Parsed.mk None None (Some (py_lower (py_strip ingredient_text))) None
       ingredient_text fallback_confidence false)
  /\ (~ parsing_raises parse_ingredient ingredient_text ->
      Parsed.parsed_successfully (parse_ingredient_string parse_ingredient ingredient_text)
      = true)
  /\ (forall parsed,
        ~ parsing_raises parse_ingredient ingredient_text ->
        parse_ingredient ingredient_text = Some parsed ->
        ingredient_parser.name parsed = [] ->
        Parsed.ingredient_name (parse_ingredient_string parse_ingredient ingredient_text)
        = None
        /\ Parsed.parsing_confidence
             (parse_ingredient_string parse_ingredient ingredient_text)
           = ((amount_confidence_of parsed + default_confidence) / 2)%float).
Proof.
  split; [|split].
  - intros Hr. apply parse_ingredient_try_None in Hr.
    unfold parse_ingredient_string. rewrite Hr. reflexivity.
  - intros Hn. rewrite <- parse_ingredient_try_None in Hn.
    unfold parse_ingredient_string.
    destruct (parse_ingredient_try parse_ingredient ingredient_text) as [r|] eqn:E;
      [|congruence].
    unfold parse_ingredient_try in E.
    destruct (parse_ingredient ingredient_text) as [parsed|]; [|discriminate].
    destruct (ingredient_parser.amount parsed) as [|amount rest].
    + destruct (ingredient_parser.name parsed); inversion E; reflexivity.
    + destruct (ingredient_parser.py_bool _); [destruct (ingredient_parser.py_float _)|];
        try discriminate;
        destruct (ingredient_parser.name parsed); inversion E; reflexivity.
  - intros parsed Hn Ep En. rewrite <- parse_ingredient_try_None in Hn.
    unfold parse_ingredient_string, amount_confidence_of.
    destruct (parse_ingredient_try parse_ingredient ingredient_text) as [r|] eqn:E;
      [|congruence].
    unfold parse_ingredient_try in E. rewrite Ep, En in E.
    destruct (ingredient_parser.amount parsed) as [|amount rest].
    + inversion E. split; reflexivity.
    + destruct (ingredient_parser.py_bool _); [destruct (ingredient_parser.py_float _)|];
        try discriminate; inversion E; split; reflexivity.
Qed.

Lemma parse_ingredient_string_fallback_witness :
  parsing_raises sample_parser "  Salt, To Taste "
  /\ parse_ingredient_string sample_parser "  Salt, To Taste "
     = Parsed.mk None None (Some "salt, to taste"%string) None "  Salt, To Taste "
         fallback_confidence false.
Proof.
  assert (R : parsing_raises sample_parser "  Salt, To Taste ") by (left; reflexivity).
  split; [exact R|].
  exact (proj1 (parse_ingredient_string_fallback sample_parser "  Salt, To Taste ") R).
Defined.

(** The empty string, when the parser rejects it. *)
Example parse_empty_string :
  parse_ingredient_string sample_parser ""
  = Parsed.mk None None (Some ""%string) None "" fallback_confidence false.
Proof. reflexivity. Qed.

(** A line that parses in full. *)
Example parse_pizza_sauce :
  parse_ingredient_string sample_parser "2 tablespoons pizza sauce"
  = Parsed.mk (Some 2%float) (Some "tablespoon"%string) (Some "pizza sauce"%string) None
      "2 tablespoons pizza sauce" 1%float true.
Proof. vm_compute. reflexivity. Qed.

(** The specification's sentence fails on a line without a name token: the record is
    not the fallback record, it is marked as parsed. *)
Lemma parse_without_name_is_not_fallback :
  (exists parsed,
     sample_parser "2 cups" = Some parsed /\ ingredient_parser.name parsed = [])
  /\ parse_ingredient_string sample_parser "2 cups" <> fallback "2 cups"
  /\ Parsed.parsed_successfully (parse_ingredient_string sample_parser "2 cups") = true
  /\ Parsed.ingredient_name (parse_ingredient_string sample_parser "2 cups") = None.
Proof.
  split; [eexists; split; reflexivity|].
  split; [|split; reflexivity].
  intros E. apply (f_equal Parsed.parsed_successfully) in E.
  vm_compute in E. discriminate.
Qed.

(** * Resolving an ingredient name *)

(** C7, as the code has it.  When the lookup finds no entry and another
    session commits an entry of the same normalized name before the insert,
    the insert fails, the session rolls back and the call returns nothing: it
    raises no error, and it does not read the catalog again. *)
Theorem find_or_create_ingredient_lost_race
    (w : World) (others : list Ingredient.t) (ingredient_name : string) (g : Ingredient.t) :
  str_truthy ingredient_name = true ->
  filter (fun g' => String.eqb (Ingredient.name g') (py_lower (py_strip ingredient_name)))
    (ingredients (pending w)) = [] ->
  In g others ->
  Ingredient.name g = py_lower (py_strip ingredient_name) ->
  exists rnd,
    find_or_create_ingredient others ingredient_name w
    = Return None (after_lost_race w others rnd)
    /\ In g (ingredients (pending (after_lost_race w others rnd))).
Proof.
  intros Ht Hnone Hg Hname.
  unfold find_or_create_ingredient. rewrite Ht. simpl.
  unfold bind at 1. unfold select, read. rewrite Hnone. simpl.
  unfold bind at 1. unfold concurrent_commit.
  unfold try_except, bind at 1. unfold uuid4, draw. simpl.
  assert (Hin : forall rnd, In g (ingredients (pending (after_lost_race w others rnd)))).
  { intros rnd. simpl. apply in_or_app. right. exact Hg. }
  destruct (entropy w) as [|id rest].
  - exists []. split; [reflexivity | apply (Hin [])].
  - exists rest. split; [|apply (Hin rest)].
    unfold insert_ingredient, bind, read, check. simpl.
    destruct (negb (has_id Ingredient.id (ingredients (pending w) ++ others) id)); simpl.
    + assert (Hx : existsb (fun g' => String.eqb (Ingredient.name g')
                                        (py_lower (py_strip ingredient_name)))
                     (ingredients (pending w) ++ others) = true).
      { apply existsb_exists. exists g. split.
        - apply in_or_app. right. exact Hg.
        - rewrite Hname. apply String.eqb_refl. }
      rewrite Hx. reflexivity.
    + reflexivity.
Qed.

Lemma find_or_create_ingredient_lost_race_witness :
  exists rnd,
    find_or_create_ingredient [flour] " Flour" (session empty_db [8%N])
    = Return None (after_lost_race (session empty_db [8%N]) [flour] rnd)
    /\ In flour (ingredients (pending (after_lost_race (session empty_db [8%N]) [flour] rnd))).
Proof.
  apply (find_or_create_ingredient_lost_race (session empty_db [8%N]) [flour] " Flour" flour).
  - reflexivity.
  - reflexivity.
  - left. reflexivity.
  - reflexivity.
Defined.

(** The specification's sentence fails: the loser of the race gets nothing back,
    although the entry is in the catalog when the call ends. *)
Lemma lost_race_returns_nothing :
  exists w',
    find_or_create_ingredient [flour] " Flour" (session empty_db [8%N]) = Return None w'
    /\ ingredients (pending w') = [flour]
    /\ forall w'',
         find_or_create_ingredient [flour] " Flour" (session empty_db [8%N])
         <> Return (Some flour) w''.
Proof.
  eexists. split; [vm_compute; reflexivity|]. split; [reflexivity|].
  intros w'' E. vm_compute in E. discriminate.
Qed.

(** Without a race the entry is created, and the next call finds it. *)
Example find_or_create_ingredient_creates_then_finds :
  exists w',
    find_or_create_ingredient [] " Flour" (session empty_db [8%N])
    = Return (Some (Ingredient.mk 8 "flour" None)) w'
    /\ find_or_create_ingredient [] "FLOUR " w'
       = Return (Some (Ingredient.mk 8 "flour" None)) w'.
Proof. eexists. split; [vm_compute; reflexivity | reflexivity]. Qed.

(** * Generating a shopping list *)

Lemma bind_run {A B : Type} (m : M A) (k : A -> M B) (w w1 : World) (a : A) :
  m w = Return a w1 -> bind m k w = k a w1.
Proof. unfold bind. intros ->. reflexivity. Qed.

Lemma uuid4_run (w : World) (n : N) (rest : list N) :
  entropy w = n :: rest ->
  uuid4 w = Return n (mkWorld (committed w) (pending w) rest).
Proof. unfold uuid4, draw. intros ->. reflexivity. Qed.

Lemma filter_all {A : Type} (p : A -> bool) (l : list A) :
  (forall x, In x l -> p x = true) -> filter p l = l.
Proof.
  induction l as [|x l IH]; simpl; intros H.
  - reflexivity.
  - rewrite (H x) by auto. f_equal. apply IH. intros y Hy. apply H. auto.
Qed.

Lemma unique_by_filter_In {A : Type} (key : A -> UUID) (rows : list A) (x : A) :
  unique_by uuid_eqb key rows = true -> In x rows ->
  filter (fun r => uuid_eqb (key r) (key x)) rows = [x].
Proof.
  intros U Hx.
  assert (Hin : In x (filter (fun r => uuid_eqb (key r) (key x)) rows))
    by (apply filter_In; split; [exact Hx | apply uuid_eqb_refl]).
  destruct (unique_by_filter uuid_eqb key (fun r => uuid_eqb (key r) (key x)) rows)
    as [E | [r E]].
  - intros a b Ha Hb. apply uuid_eqb_eq in Ha, Hb. apply uuid_eqb_eq. congruence.
  - exact U.
  - rewrite E in Hin. contradiction.
  - rewrite E in Hin. destruct Hin as [-> | []]. exact E.
Qed.

Lemma has_id_app {A : Type} (id : A -> UUID) (l1 l2 : list A) (k : UUID) :
  has_id id (l1 ++ l2) k = has_id id l1 k || has_id id l2 k.
Proof. unfold has_id. apply existsb_app. Qed.

Lemma meal_plan_fk (d : DB) (mp : MealPlan.t) :
  db_ok d = true -> In mp (meal_plans d) ->
  has_id Household.id (households d) (MealPlan.household_id mp) = true.
Proof.
  intros H Hmp. ok_parts H.
  match goal with
  | F : forallb (meal_plan_ok d) _ = true |- _ =>
      rewrite forallb_forall in F; specialize (F mp Hmp);
      unfold meal_plan_ok in F; apply andb_true_iff in F; apply F
  end.
Qed.

Lemma meal_plans_id_unique (d : DB) :
  db_ok d = true -> unique_by uuid_eqb MealPlan.id (meal_plans d) = true.
Proof. intros H. ok_parts H. assumption. Qed.

Lemma get_meal_plan_found (w : World) (p : MealPlan.t) :
  db_ok (pending w) = true -> In p (meal_plans (pending w)) ->
  get_meal_plan (MealPlan.id p) w = Return (Some p) w.
Proof.
  intros H Hp. unfold get_meal_plan, select, read, bind.
  rewrite (unique_by_filter_In MealPlan.id _ p (meal_plans_id_unique _ H) Hp).
  reflexivity.
Qed.

(** The recipe of a planned meal is on file, so [planned_meal.recipe] is an
    object. *)
Lemma planned_meal_recipe (d : DB) (pm : PlannedMeal.t) :
  db_ok d = true -> In pm (planned_meals d) -> exists r, recipe_of d pm = Some r.
Proof.
  intros H Hpm.
  assert (F : has_id Recipe.id (recipes d) (PlannedMeal.recipe_id pm) = true).
  { ok_parts H.
    match goal with
    | F : forallb (planned_meal_ok d) _ = true |- _ =>
        rewrite forallb_forall in F; specialize (F pm Hpm);
        unfold planned_meal_ok in F; apply andb_true_iff in F; apply F
    end. }
  unfold recipe_of. unfold has_id in F. apply existsb_exists in F.
  destruct F as [r [Hr Er]].
  destruct (find _ (recipes d)) as [r'|] eqn:E; [exists r'; reflexivity|].
  rewrite (find_none _ _ E r Hr) in Er. discriminate.
Qed.

(** The first loop stops at the first planned meal. *)
Lemma aggregate_ingredients_run (d : DB) (w : World) (mp : MealPlan.t) :
  db_ok d = true ->
  planned_meals (pending w) = planned_meals d ->
  recipes (pending w) = recipes d ->
  aggregate_ingredients mp w
  = match planned_meals_of d mp with
    | [] => Return [] w
    | _ :: _ => Raise MissingGreenlet w
    end.
Proof.
  intros H Epm Er. unfold aggregate_ingredients, bind at 1, read.
  unfold planned_meals_of at 1. rewrite Epm. fold (planned_meals_of d mp).
  destruct (planned_meals_of d mp) as [|pm rest] eqn:E; [reflexivity|].
  assert (Hpm : In pm (planned_meals d)).
  { assert (Hin : In pm (planned_meals_of d mp)) by (rewrite E; left; reflexivity).
    apply filter_In in Hin. apply Hin. }
  destruct (planned_meal_recipe d pm H Hpm) as [r Hr].
  simpl. unfold bind at 1. unfold add_planned_meal, bind at 1, read.
  unfold recipe_of at 1. rewrite Er. fold (recipe_of d pm). rewrite Hr.
  reflexivity.
Qed.

Lemma insert_shopping_list_run (s : ShoppingList.t) (w : World) :
  fits 255 (ShoppingList.name s) = true ->
  has_id ShoppingList.id (shopping_lists (pending w)) (ShoppingList.id s) = false ->
  shopping_list_ok (pending w) s = true ->
  insert_shopping_list s w
  = Return tt
      (mkWorld (committed w)
         (set_shopping_lists (shopping_lists (pending w) ++ [s]) (pending w))
         (entropy w)).
Proof.
  intros Hw Hpk Hfk. unfold insert_shopping_list, bind, read, store, check, write, ret.
  rewrite Hw, Hpk. simpl. rewrite Hfk. reflexivity.
Qed.

(** What the call does for a plan on file, a user on file and a new id: it
    flushes the list, and then returns it without items when the plan has no
    planned meal, and raises [MissingGreenlet] with nothing committed when
    it has one. *)
Lemma generate_shopping_list_run (w : World) (user_id : UUID) (mp : MealPlan.t) (id : UUID)
    (rest : list N) :
  let d := pending w in
  let shopping_list :=
    ShoppingList.mk id (Some (MealPlan.id mp)) user_id (MealPlan.household_id mp)
      (Some (shopping_list_name mp)) in
  let d' := set_shopping_lists (shopping_lists d ++ [shopping_list]) d in
  db_ok d = true ->
  In mp (meal_plans d) ->
  has_id User.id (users d) user_id = true ->
  entropy w = id :: rest ->
  has_id ShoppingList.id (shopping_lists d) id = false ->
  Nat.leb (String.length (shopping_list_name mp)) 255 = true ->
  generate_shopping_list_from_meal_plan user_id (MealPlan.id mp) w
  = match planned_meals_of d mp with
    | [] => Return shopping_list (mkWorld d' d' rest)
    | _ :: _ => Raise MissingGreenlet (mkWorld (committed w) d' rest)
    end.
Proof.
  intros d shopping_list d' H Hmp Hu He Hpk Hname.
  assert (Hfk : shopping_list_ok d shopping_list = true).
  { unfold shopping_list_ok, shopping_list. simpl.
    rewrite Hu, (meal_plan_fk d mp H Hmp), andb_true_r, andb_true_r.
    apply has_id_true. exists mp. auto. }
  unfold generate_shopping_list_from_meal_plan.
  erewrite bind_run by (apply get_meal_plan_found; assumption). cbv beta iota.
  erewrite bind_run by (apply uuid4_run; exact He). cbv beta iota zeta.
  erewrite bind_run
    by (apply insert_shopping_list_run; [exact Hname | exact Hpk | exact Hfk]).
  simpl pending. simpl committed. simpl entropy. fold d shopping_list d'.
  unfold bind at 1.
  rewrite (aggregate_ingredients_run d (mkWorld (committed w) d' rest) mp H)
    by reflexivity.
  destruct (planned_meals_of d mp); reflexivity.
Qed.

(** C6. The scenario of the specification: a plan with two planned meals
    whose recipes each hold a flour line, of 2 and of 3 cups.  The call
    flushes the new list and then raises [MissingGreenlet] at the first
    planned meal, when it reads [recipe.recipe_ingredients], which
    [get_meal_plan] did not load.  No item is made, and nothing is
    committed. *)
Theorem generate_shopping_list_flour_raises :
  exists w',
    generate_shopping_list_from_meal_plan 1 70 plan_world = Raise MissingGreenlet w'
    /\ shopping_list_items (pending w') = []
    /\ committed w' = plan_db.
Proof. eexists. split; [vm_compute; reflexivity|]. split; reflexivity. Qed.

(** A plan without planned meals gives a list without items. *)
Example generate_shopping_list_empty_plan :
  exists w',
    generate_shopping_list_from_meal_plan 2 71 plan_world
    = Return (ShoppingList.mk 90 (Some 71%N) 2 10 (Some "Shopping List for Empty week"%string))
        w'
    /\ shopping_list_items (pending w') = [].
Proof. eexists. split; [vm_compute; reflexivity | reflexivity]. Qed.

(** A plan that does not exist. *)
Example generate_shopping_list_not_found :
  generate_shopping_list_from_meal_plan 1 79 plan_world
  = Raise (ValueError "Meal plan not found") plan_world.
Proof. reflexivity. Qed.

(** ** Joining and creating return when the ids drawn are new *)

Lemma pair_eqb_sym (a b : UUID * UUID) : pair_eqb a b = pair_eqb b a.
Proof.
  unfold pair_eqb, uuid_eqb. rewrite (N.eqb_sym (fst a)), (N.eqb_sym (snd a)). reflexivity.
Qed.

Lemma unique_by_snoc {A K : Type} (eqb : K -> K -> bool) (key : A -> K)
    (rows : list A) (x : A) :
  (forall a b, eqb a b = eqb b a) ->
  unique_by eqb key rows = true ->
  existsb (fun r => eqb (key r) (key x)) rows = false ->
  unique_by eqb key (rows ++ [x]) = true.
Proof.
  intros Hsym. induction rows as [|r rows IH]; simpl; intros U Hx.
  - reflexivity.
  - apply andb_true_iff in U. destruct U as [Hr U].
    apply orb_false_iff in Hx. destruct Hx as [Hrx Hx].
    rewrite existsb_app. simpl. rewrite orb_false_r.
    apply negb_true_iff in Hr. rewrite Hr, (Hsym (key x) (key r)), Hrx. simpl.
    apply IH; assumption.
Qed.

Lemma propagation_returns (household_id granted_by : UUID) (rids : list UUID) :
  forall (w : World) (gids : list UUID) (rest : list N),
  can_grant w household_id granted_by gids rest ->
  (forall r, In r rids -> has_id Recipe.id (recipes (pending w)) r = true) ->
  (List.length rids <= List.length gids)%nat ->
  exists w',
    for_each rids
      (fun recipe_id => grant_household_access recipe_id household_id granted_by ;;; ret tt) w
    = Return tt w'.
Proof.
  induction rids as [|r rids IH]; intros w gids rest Hc Hrec Hlen; simpl.
  - eexists. reflexivity.
  - destruct Hc as [He [Hn [Hfresh [Hu [Hh Hby]]]]].
    unfold bind at 1. unfold bind at 1. unfold grant_household_access.
    unfold bind at 1. rewrite select_grants. unfold bind at 1.
    destruct (unique_by_filter pair_eqb access_key
                (fun a => pair_eqb (access_key a) (r, household_id))
                (recipe_household_access (pending w))) as [Eg | [a Eg]].
    + intros x y Hx Hy. apply pair_eqb_eq in Hx, Hy. apply pair_eqb_eq. congruence.
    + exact Hu.
    + unfold grants_for. rewrite Eg. simpl.
      destruct gids as [|g gids]; [simpl in Hlen; lia|].
      unfold bind at 1. unfold uuid4, draw. rewrite He. simpl.
      unfold insert_access, bind, read, check, write, commit, ret. simpl.
      rewrite (Hfresh g) by (left; reflexivity). simpl.
      assert (Hx : existsb (fun a' => pair_eqb (access_key a') (r, household_id))
                     (recipe_household_access (pending w)) = false)
        by (apply existsb_filter_nil; exact Eg).
      unfold access_key at 2. simpl. rewrite Hx. simpl.
      unfold access_ok. simpl.
      rewrite (Hrec r) by (left; reflexivity). rewrite Hh, Hby. simpl.
      inversion Hn as [|? ? Hg Hn']; subst.
      apply (IH _ gids rest).
      * unfold can_grant. simpl. split; [reflexivity|]. split; [exact Hn'|].
        split; [|split; [|split; assumption]].
        -- intros g' Hg'. rewrite has_id_app, (Hfresh g') by (right; exact Hg').
           unfold has_id. simpl. rewrite orb_false_r. apply uuid_eqb_neq.
           intros E. subst. contradiction.
        -- apply unique_by_snoc; [apply pair_eqb_sym | exact Hu | exact Hx].
      * intros r' Hr'. simpl. apply Hrec. right. exact Hr'.
      * simpl in Hlen. lia.
    + unfold grants_for. rewrite Eg. simpl. unfold ret at 1.
      apply (IH w gids rest).
      * unfold can_grant. repeat split; assumption.
      * intros r' Hr'. apply Hrec. right. exact Hr'.
      * simpl in Hlen. lia.
Qed.

Lemma shared_recipes_on_file (d : DB) (user_id : UUID) (r : UUID) :
  In r (map Recipe.id
          (filter (fun r => uuid_eqb (Recipe.user_id r) user_id
                            && sql_eq Bool.eqb (Recipe.shared_with_household r) true)
             (recipes d))) ->
  has_id Recipe.id (recipes d) r = true.
Proof.
  intros H. apply in_map_iff in H. destruct H as [rc [E Hrc]].
  apply filter_In in Hrc. apply has_id_true. exists rc. split; [apply Hrc | exact E].
Qed.

Lemma access_pairs_unique (d : DB) :
  db_ok d = true -> unique_by pair_eqb access_key (recipe_household_access d) = true.
Proof. intros H. ok_parts H. assumption. Qed.

Lemma get_household_by_invite_code_found (w : World) (invite_code : string)
    (h : Household.t) :
  db_ok (pending w) = true ->
  In h (households (pending w)) -> Household.invite_code h = Some invite_code ->
  get_household_by_invite_code invite_code w = Return (Some h) w.
Proof.
  intros H Hh Hc. unfold get_household_by_invite_code, select, read, bind.
  assert (Hin : In h (filter (fun h => sql_eq String.eqb (Household.invite_code h)
                                         invite_code) (households (pending w)))).
  { apply filter_In. split; [exact Hh|]. rewrite Hc. simpl. apply String.eqb_refl. }
  destruct (invite_code_rows (pending w) invite_code H) as [E | [h' E]]; rewrite E in *.
  - contradiction.
  - destruct Hin as [-> | []]. reflexivity.
Qed.

Lemma insert_membership_run (m : HouseholdMembership.t) (w : World) :
  has_id HouseholdMembership.id (household_memberships (pending w))
    (HouseholdMembership.id m) = false ->
  memberships_of_user (pending w) (HouseholdMembership.user_id m) = [] ->
  membership_ok (pending w) m = true ->
  insert_membership m w
  = Return tt
      (mkWorld (committed w)
         (set_household_memberships (household_memberships (pending w) ++ [m]) (pending w))
         (entropy w)).
Proof.
  intros Hpk Hu Hfk. unfold insert_membership, bind, read, check, write, ret.
  rewrite Hpk. simpl.
  apply existsb_filter_nil in Hu. rewrite Hu. simpl. rewrite Hfk. reflexivity.
Qed.

Lemma get_user_found (w : World) (user_id : UUID) :
  unique_by uuid_eqb User.id (users (pending w)) = true ->
  has_id User.id (users (pending w)) user_id = true ->
  exists u, get_user user_id w = Return (Some u) w.
Proof.
  intros U Hu. unfold get_user, select, read, bind.
  destruct (unique_by_filter uuid_eqb User.id (fun u => uuid_eqb (User.id u) user_id)
              (users (pending w))) as [E | [u E]].
  - intros a b Ha Hb. apply uuid_eqb_eq in Ha, Hb. apply uuid_eqb_eq. congruence.
  - exact U.
  - apply has_id_true in Hu. destruct Hu as [u [Hu Hid]].
    exfalso. apply (filter_in_cons _ _ u Hu) in E; [exact E | apply uuid_eqb_eq; exact Hid].
  - rewrite E. exists u. reflexivity.
Qed.

Lemma users_unique (d : DB) :
  db_ok d = true -> unique_by uuid_eqb User.id (users d) = true.
Proof. intros H. ok_parts H. assumption. Qed.

(** The steps shared by joining and creating once the membership row is
    about to be inserted. *)
Lemma membership_steps_return (w : World) (user_id household_id mid : UUID) (role : string)
    (gids : list UUID) (rest : list N) {R : Type} (result : R) :
  let d := pending w in
  let m := HouseholdMembership.mk mid household_id user_id role in
  unique_by uuid_eqb User.id (users d) = true ->
  unique_by pair_eqb access_key (recipe_household_access d) = true ->
  has_id Household.id (households d) household_id = true ->
  has_id User.id (users d) user_id = true ->
  memberships_of_user d user_id = [] ->
  has_id HouseholdMembership.id (household_memberships d) mid = false ->
  entropy w = gids ++ rest ->
  NoDup gids ->
  (forall g, In g gids ->
             has_id RecipeHouseholdAccess.id (recipe_household_access d) g = false) ->
  (List.length (shared_recipes d user_id) <= List.length gids)%nat ->
  exists w',
    (insert_membership m ;;;
     user <- get_user user_id ;;
     match user with
     | Some _ => set_current_household user_id (Some household_id)
     | None => ret tt
     end ;;;
     _grant_user_recipes_to_household user_id household_id ;;;
     commit ;;;
     ret result) w
    = Return result w'.
Proof.
  intros d m Uu Ua Hh Hu Hm Hmid He Hn Hfresh Hlen.
  erewrite bind_run.
  2:{ apply insert_membership_run; [exact Hmid | exact Hm |].
      unfold membership_ok. simpl. fold d. rewrite Hh, Hu. reflexivity. }
  match goal with
  | |- context [bind (get_user user_id) _ ?w0] =>
      destruct (get_user_found w0 user_id) as [u Eu]; [exact Uu | exact Hu |]
  end.
  erewrite bind_run by exact Eu.
  erewrite bind_run by reflexivity.
  unfold _grant_user_recipes_to_household.
  match goal with
  | |- context [bind (bind (select recipes ?p) ?k) _ ?w0] =>
      destruct (propagation_returns household_id user_id (shared_recipes d user_id)
                  w0 gids rest) as [w1 E1]
  end.
  - unfold can_grant. simpl. fold d. split; [exact He|]. split; [exact Hn|].
    split; [exact Hfresh|]. split; [exact Ua|]. split; [exact Hh|].
    destruct (set_current_household_users (users d) user_id (Some household_id) Hu)
      as [u' [Hu' [Hid _]]].
    apply has_id_true. exists u'. auto.
  - intros r Hr. simpl. apply (shared_recipes_on_file d user_id r Hr).
  - exact Hlen.
  - erewrite bind_run.
    2:{ erewrite bind_run by reflexivity. simpl. exact E1. }
    erewrite bind_run by reflexivity. eexists. reflexivity.
Qed.

(** A user on file without a membership joins with a known code as soon as
    the ids drawn are new: one for the membership, and one for each shared
    recipe at most. *)
Lemma join_household_returns (w : World) (user_id : UUID) (invite_code : string)
    (h : Household.t) (mid : UUID) (gids : list UUID) (rest : list N) :
  let d := pending w in
  db_ok d = true ->
  In h (households d) -> Household.invite_code h = Some invite_code ->
  memberships_of_user d user_id = [] ->
  has_id User.id (users d) user_id = true ->
  entropy w = mid :: gids ++ rest ->
  has_id HouseholdMembership.id (household_memberships d) mid = false ->
  NoDup gids ->
  (forall g, In g gids ->
             has_id RecipeHouseholdAccess.id (recipe_household_access d) g = false) ->
  (List.length (shared_recipes d user_id) <= List.length gids)%nat ->
  exists w',
    join_household user_id invite_code w
    = Return (Some (HouseholdMembership.mk mid (Household.id h) user_id "member")) w'.
Proof.
  intros d H Hh Hc Hm Hu He Hmid Hn Hfresh Hlen.
  unfold join_household.
  erewrite bind_run by (apply get_household_by_invite_code_found; eassumption).
  cbv beta iota.
  erewrite bind_run by reflexivity.
  fold d. fold (memberships_of_user d user_id). rewrite Hm.
  erewrite bind_run by reflexivity. cbv beta iota.
  erewrite bind_run by (apply uuid4_run; exact He).
  apply (membership_steps_return _ user_id (Household.id h) mid "member" gids rest); simpl;
    fold d; auto.
  - apply users_unique. exact H.
  - apply access_pairs_unique. exact H.
  - apply has_id_true. exists h. auto.
Qed.

Lemma generate_chars_run (draws : list N) :
  forall (w : World) (rest : list N),
  entropy w = draws ++ rest ->
  generate_chars (List.length draws) w
  = Return (map (fun n => nth (N.to_nat (N.modulo n (N.of_nat (List.length characters))))
                            characters "000"%char) draws)
      (mkWorld (committed w) (pending w) rest).
Proof.
  induction draws as [|n draws IH]; intros w rest He; simpl.
  - unfold ret. destruct w as [c p e]. simpl in *. subst. reflexivity.
  - unfold secrets_choice.
    erewrite bind_run.
    2:{ erewrite bind_run by (apply uuid4_run; exact He). reflexivity. }
    erewrite bind_run by (apply IH; reflexivity). reflexivity.
Qed.

Lemma generate_invite_code_run (draws : list N) (w : World) (rest : list N) :
  entropy w = draws ++ rest ->
  generate_invite_code (List.length draws) w
  = Return (code_of draws) (mkWorld (committed w) (pending w) rest).
Proof.
  intros He. unfold generate_invite_code.
  erewrite bind_run by (apply generate_chars_run; exact He). reflexivity.
Qed.

Lemma get_household_by_invite_code_free (w : World) (c : string) :
  held (pending w) c = false -> get_household_by_invite_code c w = Return None w.
Proof.
  intros Hf. unfold get_household_by_invite_code, select, read, bind.
  apply existsb_filter_nil in Hf. rewrite Hf. reflexivity.
Qed.

Lemma get_household_by_invite_code_held (w : World) (c : string) :
  db_ok (pending w) = true -> held (pending w) c = true ->
  exists h, get_household_by_invite_code c w = Return (Some h) w.
Proof.
  intros H Hh. unfold held in Hh. apply existsb_exists in Hh. destruct Hh as [h [Hin Hc]].
  exists h. apply get_household_by_invite_code_found; [exact H | exact Hin |].
  destruct (Household.invite_code h) as [c'|]; simpl in Hc; [|discriminate].
  apply String.eqb_eq in Hc. congruence.
Qed.

Lemma retries_last_free (d : DB) (bs : list (list N)) :
  forall c, retries d c bs -> held d (final_code c bs) = false.
Proof.
  induction bs as [|b bs IH]; intros c Hr; simpl in *.
  - exact Hr.
  - destruct Hr as [_ [_ Hr]]. apply IH. exact Hr.
Qed.

(** The loop returns the first free code of the stream. *)
Lemma retry_invite_code_run (bs : list (list N)) :
  forall (fuel : nat) (c : string) (w : World) (rest : list N),
  db_ok (pending w) = true ->
  entropy w = List.concat bs ++ rest ->
  retries (pending w) c bs ->
  (List.length bs <= fuel)%nat ->
  retry_invite_code fuel c w
  = Return (final_code c bs) (mkWorld (committed w) (pending w) rest).
Proof.
  induction bs as [|b bs IH]; intros fuel c w rest H He Hr Hf.
  - simpl in *.
    assert (E : retry_invite_code fuel c w = Return c w).
    { destruct fuel; simpl;
        rewrite (bind_run _ _ w w None (get_household_by_invite_code_free w c Hr));
        reflexivity. }
    rewrite E. destruct w as [cm p e]. simpl in *. subst. reflexivity.
  - simpl in Hr. destruct Hr as [Hh [Hb Hr]].
    destruct fuel as [|fuel]; [simpl in Hf; lia|].
    destruct (get_household_by_invite_code_held w c H Hh) as [h Eh].
    simpl retry_invite_code.
    rewrite (bind_run _ _ w w (Some h) Eh). cbv beta iota.
    simpl in He. rewrite <- app_assoc in He.
    rewrite <- Hb.
    erewrite bind_run by (apply generate_invite_code_run; exact He).
    rewrite (IH fuel (code_of b) _ rest); simpl; auto.
    simpl in Hf. lia.
Qed.

Lemma concat_blocks_length (d : DB) (bs : list (list N)) :
  forall c, retries d c bs -> (List.length bs <= List.length (List.concat bs))%nat.
Proof.
  induction bs as [|b bs IH]; intros c Hr; simpl in *.
  - lia.
  - destruct Hr as [_ [Hb Hr]]. rewrite length_app, Hb. specialize (IH _ Hr). lia.
Qed.

Lemma insert_household_run (h : Household.t) (w : World) (c : string) :
  Household.invite_code h = Some c ->
  has_id Household.id (households (pending w)) (Household.id h) = false ->
  held (pending w) c = false ->
  household_ok (pending w) h = true ->
  insert_household h w
  = Return tt
      (mkWorld (committed w)
         (set_households (households (pending w) ++ [h]) (pending w)) (entropy w)).
Proof.
  intros Hc Hpk Hfree Hfk. unfold insert_household, bind, read, check, write, ret.
  rewrite Hpk, Hc. simpl. unfold held in Hfree. rewrite Hfree. simpl.
  rewrite Hfk. reflexivity.
Qed.

(** A user on file without a membership creates a household as soon as the
    stream of codes reaches a free one and the ids drawn after it are new.
    The household gets the first free code of the stream. *)
Lemma create_household_returns (w : World) (user_id : UUID) (name : string)
    (b0 : list N) (bs : list (list N)) (id mid : UUID) (gids : list UUID) (rest : list N) :
  let d := pending w in
  db_ok d = true ->
  has_id User.id (users d) user_id = true ->
  memberships_of_user d user_id = [] ->
  entropy w = b0 ++ List.concat bs ++ id :: mid :: gids ++ rest ->
  List.length b0 = 8%nat ->
  retries d (code_of b0) bs ->
  has_id Household.id (households d) id = false ->
  has_id HouseholdMembership.id (household_memberships d) mid = false ->
  NoDup gids ->
  (forall g, In g gids ->
             has_id RecipeHouseholdAccess.id (recipe_household_access d) g = false) ->
  (List.length (shared_recipes d user_id) <= List.length gids)%nat ->
  exists w',
    create_household user_id name w
    = Return (Household.mk id name (Some user_id)
                (Some (final_code (code_of b0) bs))) w'.
Proof.
  intros d H Hu Hm He Hb0 Hr Hid Hmid Hn Hfresh Hlen.
  unfold create_household.
  rewrite <- Hb0.
  erewrite bind_run by (apply generate_invite_code_run; exact He).
  erewrite bind_run.
  2:{ apply (retry_invite_code_run bs); simpl; fold d; auto.
      rewrite length_app. pose proof (concat_blocks_length d bs _ Hr). lia. }
  erewrite bind_run by (apply uuid4_run; reflexivity).
  erewrite bind_run.
  2:{ eapply insert_household_run; simpl; fold d.
      - reflexivity.
      - exact Hid.
      - apply retries_last_free. exact Hr.
      - unfold household_ok. simpl. exact Hu. }
  erewrite bind_run by (apply uuid4_run; reflexivity).
  apply (membership_steps_return _ user_id id mid "admin" gids rest); simpl; fold d; auto.
  - apply users_unique. exact H.
  - apply access_pairs_unique. exact H.
  - rewrite has_id_app. unfold has_id at 2. simpl. rewrite uuid_eqb_refl.
    apply orb_true_r.
Qed.

(** * More of the services: invite codes *)

Lemma string_length_of_list (l : list ascii) :
  String.length (string_of_list_ascii l) = List.length l.
Proof. induction l as [|c l IH]; simpl; congruence. Qed.

Lemma choice_in_characters (n : N) :
  In (nth (N.to_nat (N.modulo n (N.of_nat (List.length characters)))) characters "000"%char)
     characters.
Proof.
  apply nth_In.
  assert (H : (N.modulo n (N.of_nat (List.length characters))
               < N.of_nat (List.length characters))%N)
    by (apply N.mod_lt; discriminate).
  lia.
Qed.

(** X1. With at least [length] random draws left, [generate_invite_code]
    returns a code of exactly [length] characters, each an upper-case letter
    or a digit; it uses up exactly [length] draws and touches no table. *)
Theorem generate_invite_code_shape (length : nat) (w : World) :
  (length <= List.length (entropy w))%nat ->
  exists code,
    generate_invite_code length w
    = Return code (mkWorld (committed w) (pending w) (skipn length (entropy w)))
    /\ String.length code = length
    /\ Forall (fun c => In c characters) (list_ascii_of_string code).
Proof.
  intros Hlen.
  assert (He : entropy w = firstn length (entropy w) ++ skipn length (entropy w))
    by (symmetry; apply firstn_skipn).
  assert (Hl : List.length (firstn length (entropy w)) = length)
    by (apply firstn_length_le; exact Hlen).
  exists (code_of (firstn length (entropy w))). split; [|split].
  - rewrite <- Hl at 1. apply generate_invite_code_run. exact He.
  - unfold code_of. rewrite string_length_of_list, length_map. exact Hl.
  - unfold code_of. rewrite list_ascii_of_string_of_list_ascii.
    apply Forall_forall. intros c Hc. apply in_map_iff in Hc.
    destruct Hc as [n [<- _]]. apply choice_in_characters.
Qed.

Lemma generate_invite_code_shape_witness :
  exists code,
    generate_invite_code 8 create_world
    = Return code (mkWorld (committed create_world) (pending create_world)
                     (skipn 8 (entropy create_world)))
    /\ String.length code = 8%nat
    /\ Forall (fun c => In c characters) (list_ascii_of_string code).
Proof.
  apply (generate_invite_code_shape 8 create_world). vm_compute. lia.
Defined.

(** * More of the services: batches of ingredient lines *)

Lemma parse_ingredient_string_raw_text
    (parse_ingredient : string -> option ingredient_parser.ParsedIngredient)
    (ingredient_text : string) :
  Parsed.raw_text (parse_ingredient_string parse_ingredient ingredient_text)
  = ingredient_text.
Proof.
  unfold parse_ingredient_string, parse_ingredient_try.
  destruct (parse_ingredient ingredient_text) as [parsed|]; [|reflexivity].
  destruct (ingredient_parser.amount parsed) as [|amount rest].
  - destruct (ingredient_parser.name parsed); reflexivity.
  - destruct (ingredient_parser.py_bool _); [destruct (ingredient_parser.py_float _)|];
      try reflexivity; destruct (ingredient_parser.name parsed); reflexivity.
Qed.

Lemma parse_ingredient_string_flag
    (parse_ingredient : string -> option ingredient_parser.ParsedIngredient)
    (ingredient_text : string) :
  Parsed.parsed_successfully (parse_ingredient_string parse_ingredient ingredient_text)
  = match parse_ingredient_try parse_ingredient ingredient_text with
    | Some _ => true
    | None => false
    end.
Proof.
  unfold parse_ingredient_string.
  destruct (parse_ingredient_try parse_ingredient ingredient_text) as [r|] eqn:E;
    [|reflexivity].
  unfold parse_ingredient_try in E.
  destruct (parse_ingredient ingredient_text) as [parsed|]; [|discriminate].
  destruct (ingredient_parser.amount parsed) as [|amount rest].
  - destruct (ingredient_parser.name parsed); inversion E; reflexivity.
  - destruct (ingredient_parser.py_bool _); [destruct (ingredient_parser.py_float _)|];
      try discriminate; destruct (ingredient_parser.name parsed); inversion E; reflexivity.
Qed.

Lemma batch_raw_texts
    (parse_ingredient : string -> option ingredient_parser.ParsedIngredient)
    (ingredient_texts : list string) :
  map Parsed.raw_text (parse_ingredients_batch parse_ingredient ingredient_texts)
  = filter not_blank ingredient_texts.
Proof.
  induction ingredient_texts as [|t rest IH]; simpl.
  - reflexivity.
  - unfold not_blank at 1.
    destruct (str_truthy t && str_truthy (py_strip t)); simpl.
    + rewrite parse_ingredient_string_raw_text, IH. reflexivity.
    + exact IH.
Qed.

(** X2. [parse_ingredients_batch] drops the empty and the blank lines and
    parses the others in order: the raw texts of the records are the
    non-blank inputs, so no record is lost or reordered, whatever the parser
    does. *)
Theorem parse_ingredients_batch_raw_texts
    (parse_ingredient : string -> option ingredient_parser.ParsedIngredient)
    (ingredient_texts : list string) :
  map Parsed.raw_text (parse_ingredients_batch parse_ingredient ingredient_texts)
  = filter not_blank ingredient_texts
  /\ (List.length (parse_ingredients_batch parse_ingredient ingredient_texts)
      <= List.length ingredient_texts)%nat.
Proof.
  split; [apply batch_raw_texts|].
  rewrite <- (length_map Parsed.raw_text), batch_raw_texts. apply filter_length_le.
Qed.

Lemma batch_successes
    (parse_ingredient : string -> option ingredient_parser.ParsedIngredient)
    (ingredient_texts : list string) :
  filter Parsed.parsed_successfully
    (parse_ingredients_batch parse_ingredient ingredient_texts)
  = parse_ingredients_batch parse_ingredient
      (filter (fun t => match parse_ingredient_try parse_ingredient t with
                        | Some _ => true
                        | None => false
                        end) ingredient_texts).
Proof.
  induction ingredient_texts as [|t rest IH]; simpl.
  - reflexivity.
  - destruct (str_truthy t && str_truthy (py_strip t)) eqn:Eb; simpl.
    + rewrite parse_ingredient_string_flag.
      destruct (parse_ingredient_try parse_ingredient t); simpl.
      * rewrite Eb, IH. reflexivity.
      * exact IH.
    + destruct (parse_ingredient_try parse_ingredient t); simpl.
      * rewrite Eb. exact IH.
      * exact IH.
Qed.

Lemma batch_length
    (parse_ingredient : string -> option ingredient_parser.ParsedIngredient)
    (ingredient_texts : list string) :
  List.length (parse_ingredients_batch parse_ingredient ingredient_texts)
  = List.length (filter not_blank ingredient_texts).
Proof.
  rewrite <- (batch_raw_texts parse_ingredient), length_map. reflexivity.
Qed.

Lemma filter_twice {A : Type} (f g : A -> bool) (l : list A) :
  filter f (filter g l) = filter (fun x => f x && g x) l.
Proof.
  induction l as [|x l IH]; simpl.
  - reflexivity.
  - destruct (g x); simpl.
    + rewrite andb_true_r. destruct (f x); rewrite IH; reflexivity.
    + rewrite andb_false_r. exact IH.
Qed.

Lemma filter_and_length_le {A : Type} (f g : A -> bool) (l : list A) :
  (List.length (filter (fun x => f x && g x) l) <= List.length (filter f l))%nat.
Proof.
  induction l as [|x l IH]; simpl.
  - lia.
  - destruct (f x), (g x); simpl; lia.
Qed.

(** X3. The statistics of a parsed batch: the total is the number of
    non-blank lines, the success count is the number of non-blank lines on
    which parsing raised nothing and never exceeds the total, and the
    average confidence is missing exactly when no line was non-blank. *)
Theorem get_parsing_stats_of_batch
    (parse_ingredient : string -> option ingredient_parser.ParsedIngredient)
    (py_sum : list float -> float) (ingredient_texts : list string) :
  let stats :=
    get_parsing_stats py_sum (parse_ingredients_batch parse_ingredient ingredient_texts) in
  ParsingStats.total stats = List.length (filter not_blank ingredient_texts)
  /\ ParsingStats.parsed_successfully stats
     = List.length (filter (fun t => not_blank t && parses parse_ingredient t)
                      ingredient_texts)
  /\ (ParsingStats.parsed_successfully stats <= ParsingStats.total stats)%nat
  /\ (ParsingStats.average_confidence stats = None
      <-> filter not_blank ingredient_texts = []).
Proof.
  intros stats.
  assert (Hs : List.length (filter Parsed.parsed_successfully
                              (parse_ingredients_batch parse_ingredient ingredient_texts))
               = List.length (filter (fun t => not_blank t && parses parse_ingredient t)
                                ingredient_texts)).
  { rewrite batch_successes, batch_length, filter_twice. reflexivity. }
  unfold stats, get_parsing_stats. rewrite batch_length.
  destruct (List.length (filter not_blank ingredient_texts)) as [|n] eqn:El; simpl.
  - pose proof (filter_and_length_le not_blank (parses parse_ingredient) ingredient_texts)
      as Hle.
    rewrite El in Hle. apply length_zero_iff_nil in El.
    split; [reflexivity|]. split; [lia|]. split; [lia|]. tauto.
  - rewrite Hs.
    pose proof (filter_and_length_le not_blank (parses parse_ingredient) ingredient_texts)
      as Hle.
    rewrite El in Hle.
    split; [reflexivity|]. split; [reflexivity|]. split; [exact Hle|].
    split; [discriminate|]. intros E. rewrite E in El. discriminate.
Qed.

(** * More of the services: numbers in scraped text *)

Lemma skip_to_prefix (p : ascii -> bool) (pre l : list ascii) :
  Forall (fun c => p c = false) pre -> skip_to p (pre ++ l) = skip_to p l.
Proof.
  induction pre as [|c pre IH]; simpl; intros H.
  - reflexivity.
  - inversion H as [|? ? Hc Hpre]; subst. rewrite Hc. apply IH. exact Hpre.
Qed.

Lemma skip_to_head (p : ascii -> bool) (c : ascii) (l : list ascii) :
  p c = true -> skip_to p (c :: l) = c :: l.
Proof. simpl. intros ->. reflexivity. Qed.

Lemma take_while_run (p : ascii -> bool) (run post : list ascii) :
  Forall (fun c => p c = true) run ->
  match post with [] => True | c :: _ => p c = false end ->
  take_while p (run ++ post) = run.
Proof.
  induction run as [|c run IH]; simpl; intros H Hpost.
  - destruct post as [|c post]; simpl; [reflexivity|]. rewrite Hpost. reflexivity.
  - inversion H as [|? ? Hc Hrun]; subst. rewrite Hc. f_equal. apply IH; assumption.
Qed.

(** The leftmost, longest run of a text split at it. *)
Lemma re_search_run_found (p : ascii -> bool) (pre run post : list ascii) :
  Forall (fun c => p c = false) pre ->
  run <> [] -> Forall (fun c => p c = true) run ->
  match post with [] => True | c :: _ => p c = false end ->
  re_search_run p (string_of_list_ascii (pre ++ run ++ post)) = Some run.
Proof.
  intros Hpre Hne Hrun Hpost. unfold re_search_run.
  rewrite list_ascii_of_string_of_list_ascii, skip_to_prefix by exact Hpre.
  destruct run as [|c run]; [congruence|].
  inversion Hrun as [|? ? Hc Hrun']; subst.
  change ((c :: run) ++ post) with (c :: (run ++ post)).
  rewrite skip_to_head by exact Hc.
  change (c :: (run ++ post)) with ((c :: run) ++ post).
  rewrite take_while_run by assumption. reflexivity.
Qed.

Lemma skip_to_nil (p : ascii -> bool) (l : list ascii) :
  skip_to p l = [] <-> Forall (fun c => p c = false) l.
Proof.
  induction l as [|c l IH]; simpl.
  - split; constructor.
  - destruct (p c) eqn:E.
    + split; [discriminate|]. intros H. inversion H; congruence.
    + rewrite IH. split.
      * intros H. constructor; assumption.
      * intros H. inversion H; assumption.
Qed.

Lemma skip_to_starts (p : ascii -> bool) (l : list ascii) :
  match skip_to p l with [] => True | c :: _ => p c = true end.
Proof.
  induction l as [|c l IH]; simpl.
  - exact I.
  - destruct (p c) eqn:E; [exact E | exact IH].
Qed.

Lemma re_search_run_none (p : ascii -> bool) (text : string) :
  re_search_run p text = None
  <-> Forall (fun c => p c = false) (list_ascii_of_string text).
Proof.
  unfold re_search_run. rewrite <- skip_to_nil.
  pose proof (skip_to_starts p (list_ascii_of_string text)) as Hs.
  destruct (skip_to p (list_ascii_of_string text)) as [|c l]; simpl.
  - split; reflexivity.
  - rewrite Hs. split; discriminate.
Qed.

Lemma str_truthy_of_list (l : list ascii) :
  l <> [] -> str_truthy (string_of_list_ascii l) = true.
Proof. destruct l; [congruence | reflexivity]. Qed.

Lemma drop_until_prefix {A : Type} (p : A -> bool) (pre l : list A) :
  Forall (fun c => p c = false) pre -> drop_until p (pre ++ l) = drop_until p l.
Proof.
  induction pre as [|c pre IH]; simpl; intros H.
  - reflexivity.
  - inversion H as [|? ? Hc Hpre]; subst. rewrite Hc. apply IH. exact Hpre.
Qed.

Lemma longest_prefix_run {A : Type} (p : A -> bool) (run post : list A) :
  Forall (fun c => p c = true) run ->
  match post with [] => True | c :: _ => p c = false end ->
  longest_prefix p (run ++ post) = run.
Proof.
  induction run as [|c run IH]; simpl; intros H Hpost.
  - destruct post as [|c post]; simpl; [reflexivity|]. rewrite Hpost. reflexivity.
  - inversion H as [|? ? Hc Hrun]; subst. rewrite Hc. f_equal. apply IH; assumption.
Qed.

(** The leftmost, longest run of a text split at it. *)
Lemma first_run_found {A : Type} (p : A -> bool) (pre run post : list A) :
  Forall (fun c => p c = false) pre ->
  run <> [] -> Forall (fun c => p c = true) run ->
  match post with [] => True | c :: _ => p c = false end ->
  first_run p (pre ++ run ++ post) = Some run.
Proof.
  intros Hpre Hne Hrun Hpost. unfold first_run.
  rewrite drop_until_prefix by exact Hpre.
  destruct run as [|c run]; [congruence|].
  inversion Hrun as [|? ? Hc Hrun']; subst.
  change ((c :: run) ++ post) with (c :: (run ++ post)).
  simpl drop_until. rewrite Hc.
  change (c :: (run ++ post)) with ((c :: run) ++ post).
  rewrite longest_prefix_run by assumption. reflexivity.
Qed.

Lemma first_run_none {A : Type} (p : A -> bool) (text : list A) :
  first_run p text = None <-> Forall (fun c => p c = false) text.
Proof.
  unfold first_run. induction text as [|c text IH]; simpl.
  - split; [constructor | reflexivity].
  - destruct (p c) eqn:E; simpl.
    + rewrite E. split; [discriminate|]. intros H. inversion H; congruence.
    + rewrite IH. split.
      * intros H. constructor; assumption.
      * intros H. inversion H; assumption.
Qed.

(** X4. [_parse_servings] hands [int] the first, longest run of decimal
    digits of the text, whatever stands before and after, and has no
    [try]: it returns the number that [int] makes of the run, and raises the
    [ValueError] of [int] when [int] refuses the run, as for a run beyond the
    limit on the digits of an integer.  It returns nothing exactly for the
    texts without a decimal digit.  What counts as a decimal digit is the
    table of Unicode, not only 0 to 9. *)
Theorem parse_servings_first_run (is_decimal : CodePoint -> bool)
    (py_int : list CodePoint -> option N) :
  (forall pre digits post,
     Forall (fun c => is_decimal c = false) pre ->
     digits <> [] -> Forall (fun c => is_decimal c = true) digits ->
     match post with [] => True | c :: _ => is_decimal c = false end ->
     _parse_servings is_decimal py_int (pre ++ digits ++ post)
     = match py_int digits with
       | Some n => Gives (Some n)
       | None => RaisesValueError
       end)
  /\ (forall yields_text,
        _parse_servings is_decimal py_int yields_text = Gives None
        <-> Forall (fun c => is_decimal c = false) yields_text).
Proof.
  split.
  - intros pre digits post Hpre Hne Hd Hpost. unfold _parse_servings.
    rewrite first_run_found by assumption.
    destruct (pre ++ digits ++ post) eqn:E; [|reflexivity].
    apply app_eq_nil in E. destruct E as [_ E]. apply app_eq_nil in E.
    destruct E as [E _]. congruence.
  - intros yields_text. unfold _parse_servings.
    destruct yields_text as [|c text]; [split; [constructor | reflexivity]|].
    rewrite <- first_run_none.
    destruct (first_run is_decimal (c :: text)) as [digits|]; [|split; reflexivity].
    split; [|discriminate].
    destruct (py_int digits); discriminate.
Qed.

Lemma parse_servings_first_run_witness :
  _parse_servings sample_decimal sample_int
    (code_points "Makes 12 large muffins (24 small)") = Gives (Some 12%N)
  /\ _parse_servings sample_decimal sample_int (code_points "a dozen") = Gives None
  /\ _parse_servings sample_decimal sample_int (repeat 57%N 4301) = RaisesValueError.
Proof.
  destruct (parse_servings_first_run sample_decimal sample_int) as [Hrun Hnone].
  split; [|split].
  - apply (Hrun (code_points "Makes ") (code_points "12")
             (code_points " large muffins (24 small)")).
    + repeat constructor.
    + discriminate.
    + repeat constructor.
    + reflexivity.
  - apply Hnone. repeat constructor.
  - assert (E : sample_int (repeat 57%N 4301) = None) by (vm_compute; reflexivity).
    assert (R := Hrun [] (repeat 57%N 4301) []).
    rewrite app_nil_l, app_nil_r, E in R. apply R.
    + constructor.
    + discriminate.
    + apply Forall_forall. intros x Hx. apply repeat_spec in Hx. subst. reflexivity.
    + exact I.
Defined.

(** X5. [_parse_numeric_value] hands [float] the first, longest run of
    digits and dots and returns what [float] makes of it: a dot that stands
    before the number, as in an abbreviation, is that run, and the number
    after it is never read.  Without a digit or dot the result is nothing. *)
Theorem parse_numeric_value_first_run (py_float_of_string : string -> option float) :
  (forall pre run post,
     Forall (fun c => is_digit_or_dot c = false) pre ->
     run <> [] -> Forall (fun c => is_digit_or_dot c = true) run ->
     match post with [] => True | c :: _ => is_digit_or_dot c = false end ->
     _parse_numeric_value py_float_of_string (string_of_list_ascii (pre ++ run ++ post))
     = py_float_of_string (string_of_list_ascii run))
  /\ (forall value,
        Forall (fun c => is_digit_or_dot c = false) (list_ascii_of_string value) ->
        _parse_numeric_value py_float_of_string value = None).
Proof.
  split.
  - intros pre run post Hpre Hne Hr Hpost. unfold _parse_numeric_value.
    rewrite str_truthy_of_list.
    + simpl. rewrite re_search_run_found by assumption. reflexivity.
    + destruct pre; simpl; [destruct run; simpl; congruence | discriminate].
  - intros value Hv. unfold _parse_numeric_value.
    destruct (str_truthy value); simpl; [|reflexivity].
    apply re_search_run_none in Hv. rewrite Hv. reflexivity.
Qed.

Lemma parse_numeric_value_first_run_witness :
  _parse_numeric_value sample_float "256 calories" = Some 256%float
  /\ _parse_numeric_value sample_float "approx. 256 calories" = None.
Proof.
  destruct (parse_numeric_value_first_run sample_float) as [Hrun _]. split.
  - apply (Hrun [] (list_ascii_of_string "256") (list_ascii_of_string " calories")).
    + constructor.
    + discriminate.
    + repeat constructor.
    + reflexivity.
  - apply (Hrun (list_ascii_of_string "approx") (list_ascii_of_string ".")
             (list_ascii_of_string " 256 calories")).
    + repeat constructor.
    + discriminate.
    + repeat constructor.
    + reflexivity.
Defined.

(** * More of the services: the ingredient catalog *)

(** Without a race and with a new id, a name that is not in the catalog is
    inserted, with no category, and committed. *)
Lemma find_or_create_ingredient_inserts
    (w : World) (ingredient_name : string) (id : UUID) (rest : list N) :
  let normalized_name := py_lower (py_strip ingredient_name) in
  let g := Ingredient.mk id normalized_name None in
  let d' := set_ingredients (ingredients (pending w) ++ [g]) (pending w) in
  str_truthy ingredient_name = true ->
  filter (fun g' => String.eqb (Ingredient.name g') normalized_name)
    (ingredients (pending w)) = [] ->
  entropy w = id :: rest ->
  has_id Ingredient.id (ingredients (pending w)) id = false ->
  find_or_create_ingredient [] ingredient_name w = Return (Some g) (mkWorld d' d' rest).
Proof.
  intros normalized_name g d' Ht Hnone He Hid.
  unfold find_or_create_ingredient. rewrite Ht. simpl.
  unfold bind at 1. unfold select, read. fold normalized_name. rewrite Hnone. simpl.
  unfold bind at 1. unfold concurrent_commit, try_except.
  unfold bind at 1. unfold uuid4, draw. simpl. rewrite He.
  unfold insert_ingredient, bind, read, check, write, commit, ret. simpl.
  rewrite !app_nil_r. rewrite Hid. simpl.
  apply existsb_filter_nil in Hnone. rewrite Hnone. simpl.
  unfold d'. reflexivity.
Qed.

(** X6. Looking an ingredient up after it was resolved gives the same entry
    and changes nothing, also under another spelling: names that agree up to
    case and surrounding white space resolve to one catalog entry, whose
    name is the trimmed, lower-cased text. *)
Theorem find_or_create_ingredient_same_entry
    (w w1 : World) (name name' : string) (g : Ingredient.t) :
  str_truthy name = true -> str_truthy name' = true ->
  py_lower (py_strip name') = py_lower (py_strip name) ->
  find_or_create_ingredient [] name w = Return (Some g) w1 ->
  Ingredient.name g = py_lower (py_strip name)
  /\ find_or_create_ingredient [] name' w1 = Return (Some g) w1.
Proof.
  intros Ht Ht' Hn E.
  unfold find_or_create_ingredient in *. rewrite Ht in E. rewrite Ht'. simpl in *.
  rewrite Hn. unfold bind at 1 in E. unfold bind at 1.
  unfold select, read in *.
  destruct (filter (fun g' => String.eqb (Ingredient.name g') (py_lower (py_strip name)))
              (ingredients (pending w))) as [|e rows] eqn:Er; simpl in E.
  - unfold bind at 1 in E. unfold concurrent_commit, try_except in E.
    unfold bind at 1 in E. unfold uuid4, draw in E. simpl in E.
    destruct (entropy w) as [|id rest]; [discriminate|].
    unfold insert_ingredient, bind, read, check, write, commit, rollback, ret in E.
    simpl in E. rewrite !app_nil_r in E.
    destruct (negb (has_id Ingredient.id (ingredients (pending w)) id)); simpl in E;
      [|discriminate].
    destruct (negb (existsb _ (ingredients (pending w)))); simpl in E; [|discriminate].
    inversion E; subst; clear E. simpl. split; [reflexivity|].
    rewrite filter_app, Er. simpl. rewrite String.eqb_refl. reflexivity.
  - unfold ret in E. inversion E; subst; clear E.
    assert (Hin : In g (filter (fun g' => String.eqb (Ingredient.name g')
                                            (py_lower (py_strip name)))
                          (ingredients (pending w1))))
      by (rewrite Er; left; reflexivity).
    apply filter_In in Hin. destruct Hin as [_ Hname]. apply String.eqb_eq in Hname.
    split; [exact Hname|]. rewrite Er. reflexivity.
Qed.

Lemma find_or_create_ingredient_same_entry_witness :
  Ingredient.name (Ingredient.mk 8 "flour" None) = py_lower (py_strip " Flour")
  /\ find_or_create_ingredient [] "FLOUR  "
       (mkWorld (set_ingredients [Ingredient.mk 8 "flour" None] empty_db)
          (set_ingredients [Ingredient.mk 8 "flour" None] empty_db) [])
     = Return (Some (Ingredient.mk 8 "flour" None))
         (mkWorld (set_ingredients [Ingredient.mk 8 "flour" None] empty_db)
            (set_ingredients [Ingredient.mk 8 "flour" None] empty_db) []).
Proof.
  apply (find_or_create_ingredient_same_entry (session empty_db [8%N]) _ " Flour" "FLOUR  ");
    reflexivity.
Defined.

(** X7. The empty name resolves to nothing and leaves the state alone,
    whatever other sessions do.  A name of white space only is not turned
    away: with no entry of the empty name in the catalog, it creates one. *)
Theorem find_or_create_ingredient_blank_names :
  (forall others w, find_or_create_ingredient others "" w = Return None w)
  /\ (forall w ingredient_name id rest,
        str_truthy ingredient_name = true ->
        py_strip ingredient_name = ""%string ->
        filter (fun g' => String.eqb (Ingredient.name g') "") (ingredients (pending w)) = [] ->
        entropy w = id :: rest ->
        has_id Ingredient.id (ingredients (pending w)) id = false ->
        exists w',
          find_or_create_ingredient [] ingredient_name w
          = Return (Some (Ingredient.mk id "" None)) w'
          /\ ingredients (committed w')
             = ingredients (pending w) ++ [Ingredient.mk id "" None]).
Proof.
  split.
  - intros others w. reflexivity.
  - intros w ingredient_name id rest Ht Hs Hnone He Hid.
    eexists. split.
    + pose proof (find_or_create_ingredient_inserts w ingredient_name id rest) as H.
      simpl in H. rewrite Hs in H. apply H; assumption.
    + reflexivity.
Qed.

Lemma find_or_create_ingredient_blank_names_witness :
  exists w',
    find_or_create_ingredient [] "   " (session empty_db [8%N])
    = Return (Some (Ingredient.mk 8 "" None)) w'
    /\ ingredients (committed w') = [Ingredient.mk 8 "" None].
Proof.
  apply (proj2 find_or_create_ingredient_blank_names (session empty_db [8%N]) "   "%string 8%N []);
    reflexivity.
Defined.

(** * More of the services: revoking a grant *)

Lemma access_ids_unique (d : DB) :
  db_ok d = true ->
  unique_by uuid_eqb RecipeHouseholdAccess.id (recipe_household_access d) = true.
Proof. intros H. ok_parts H. assumption. Qed.

Lemma filter_remove_snoc {A : Type} (id : A -> UUID) (l : list A) (x : A) :
  has_id id l (id x) = false ->
  filter (fun y => negb (uuid_eqb (id y) (id x))) (l ++ [x]) = l.
Proof.
  intros Hf. rewrite filter_app. simpl. rewrite uuid_eqb_refl. simpl. rewrite app_nil_r.
  apply filter_all. intros y Hy. unfold has_id in Hf.
  rewrite (existsb_false_forall _ _ Hf y Hy). reflexivity.
Qed.

Lemma revoke_household_access_run (w : World) (recipe_id household_id : UUID)
    (a : RecipeHouseholdAccess.t) :
  grants_for (pending w) recipe_id household_id = [a] ->
  let d' := set_recipe_household_access
              (filter (fun a' => negb (uuid_eqb (RecipeHouseholdAccess.id a')
                                         (RecipeHouseholdAccess.id a)))
                 (recipe_household_access (pending w))) (pending w) in
  revoke_household_access recipe_id household_id w
  = Return true (mkWorld d' d' (entropy w)).
Proof.
  intros Hg d'. unfold revoke_household_access.
  erewrite bind_run by apply select_grants. rewrite Hg.
  erewrite bind_run by reflexivity. reflexivity.
Qed.

(** X8. [revoke_household_access] returns false and changes nothing when
    the pair has no grant.  When it has one, the call returns true, deletes
    that row and no other, commits, and the pair is left without a grant. *)
Theorem revoke_household_access_outcomes (w : World) (recipe_id household_id : UUID) :
  db_ok (pending w) = true ->
  (~ granted (pending w) recipe_id household_id ->
   revoke_household_access recipe_id household_id w = Return false w)
  /\ (granted (pending w) recipe_id household_id ->
      exists a w',
        In a (recipe_household_access (pending w))
        /\ access_key a = (recipe_id, household_id)
        /\ revoke_household_access recipe_id household_id w = Return true w'
        /\ recipe_household_access (pending w')
           = filter (fun a' => negb (uuid_eqb (RecipeHouseholdAccess.id a')
                                       (RecipeHouseholdAccess.id a)))
               (recipe_household_access (pending w))
        /\ ~ granted (pending w') recipe_id household_id
        /\ (forall r h, (r, h) <> (recipe_id, household_id) ->
                        granted (pending w) r h -> granted (pending w') r h)
        /\ committed w' = pending w').
Proof.
  intros H. split.
  - intros Hn. unfold revoke_household_access.
    erewrite bind_run by apply select_grants.
    destruct (grants_for (pending w) recipe_id household_id) eqn:Eg; [reflexivity|].
    exfalso. apply Hn. apply granted_rows. rewrite Eg. discriminate.
  - intros Hg. apply granted_rows in Hg.
    destruct (grant_rows (pending w) recipe_id household_id H) as [E | [a E]];
      [contradiction|].
    assert (Hin : In a (grants_for (pending w) recipe_id household_id))
      by (rewrite E; left; reflexivity).
    apply filter_In in Hin. destruct Hin as [Hin Hk]. apply pair_eqb_eq in Hk.
    exists a. eexists. split; [exact Hin|]. split; [exact Hk|].
    split; [apply revoke_household_access_run; exact E|]. simpl.
    split; [reflexivity|]. split; [|split; [|reflexivity]].
    + intros [x [Hx [Hr Hh]]]. apply filter_In in Hx. destruct Hx as [Hx Hne].
      assert (Hx' : In x (grants_for (pending w) recipe_id household_id)).
      { apply filter_In. split; [exact Hx|]. apply pair_eqb_eq. unfold access_key.
        congruence. }
      rewrite E in Hx'. destruct Hx' as [<- | []].
      rewrite uuid_eqb_refl in Hne. discriminate.
    + intros r h Hne [x [Hx [Hr Hh]]]. exists x. split; [|auto].
      apply filter_In. split; [exact Hx|]. apply negb_true_iff. apply uuid_eqb_neq.
      intros Eid. apply Hne.
      pose proof (access_ids_unique (pending w) H) as U.
      pose proof (unique_by_filter_In RecipeHouseholdAccess.id _ a U Hin) as Fa.
      assert (Hxa : In x (filter (fun y => uuid_eqb (RecipeHouseholdAccess.id y)
                                             (RecipeHouseholdAccess.id a))
                            (recipe_household_access (pending w))))
        by (apply filter_In; split; [exact Hx | apply uuid_eqb_eq; exact Eid]).
      rewrite Fa in Hxa. destruct Hxa as [<- | []].
      unfold access_key in Hk. inversion Hk. congruence.
Qed.

Lemma revoke_household_access_outcomes_witness :
  (~ granted shared_db 100 10 ->
   revoke_household_access 100 10 (session shared_db []) = Return false (session shared_db []))
  /\ (granted shared_db 100 10 ->
      exists a w',
        In a (recipe_household_access shared_db)
        /\ access_key a = (100%N, 10%N)
        /\ revoke_household_access 100 10 (session shared_db []) = Return true w'
        /\ recipe_household_access (pending w')
           = filter (fun a' => negb (uuid_eqb (RecipeHouseholdAccess.id a')
                                       (RecipeHouseholdAccess.id a)))
               (recipe_household_access shared_db)
        /\ ~ granted (pending w') 100 10
        /\ (forall r h, (r, h) <> (100%N, 10%N) ->
                        granted shared_db r h -> granted (pending w') r h)
        /\ committed w' = pending w').
Proof.
  apply (revoke_household_access_outcomes (session shared_db []) 100 10).
  vm_compute. reflexivity.
Defined.

Lemma grant_household_access_Some_inv (w w1 : World)
    (recipe_id household_id granted_by : UUID) (a : RecipeHouseholdAccess.t) :
  grant_household_access recipe_id household_id granted_by w = Return (Some a) w1 ->
  access_key a = (recipe_id, household_id)
  /\ grants_for (pending w) recipe_id household_id = []
  /\ has_id RecipeHouseholdAccess.id (recipe_household_access (pending w))
       (RecipeHouseholdAccess.id a) = false
  /\ pending w1 = set_recipe_household_access
                    (recipe_household_access (pending w) ++ [a]) (pending w)
  /\ committed w1 = pending w1.
Proof.
  unfold grant_household_access. unfold bind at 1. rewrite select_grants.
  unfold bind at 1.
  destruct (grants_for (pending w) recipe_id household_id) as [|x [|y rest]]; simpl;
    try discriminate.
  unfold bind at 1. unfold uuid4, draw.
  destruct (entropy w) as [|id rest]; [discriminate|].
  unfold insert_access, bind, read, check, write, commit, ret. simpl.
  destruct (has_id _ _ id) eqn:Hid; simpl; [discriminate|].
  destruct (negb (existsb _ _)); simpl; [|discriminate].
  destruct (access_ok _ _); simpl; [|discriminate].
  intros E. inversion E; subst. simpl. auto.
Qed.

(** The access check reads the open transaction's database and nothing
    else. *)
Lemma can_user_access_recipe_pending (w w' : World) (r u : UUID) (b : bool) :
  pending w' = pending w ->
  can_user_access_recipe r u w = Return b w ->
  can_user_access_recipe r u w' = Return b w'.
Proof.
  destruct w as [c d e], w' as [c' d' e']. simpl. intros ->.
  unfold can_user_access_recipe, get_user_household, bind, select, read, ret.
  simpl.
  destruct (filter (fun r0 => uuid_eqb (Recipe.id r0) r) (recipes d))
    as [|x [|y l]]; simpl; unfold ret, raise; try discriminate.
  - destruct (flat_map _ _) as [|h [|h' hs]]; simpl; unfold ret, raise; try discriminate.
    + intros E. inversion E. reflexivity.
    + destruct (filter _ (recipe_household_access d)) as [|g [|g' gs]];
        simpl; unfold ret, raise; try discriminate; intros E; inversion E; reflexivity.
  - destruct (uuid_eqb (Recipe.user_id x) u).
    + intros E. inversion E. reflexivity.
    + destruct (flat_map _ _) as [|h [|h' hs]]; simpl; unfold ret, raise; try discriminate.
      * intros E. inversion E. reflexivity.
      * destruct (filter _ (recipe_household_access d)) as [|g [|g' gs]];
          simpl; unfold ret, raise; try discriminate; intros E; inversion E; reflexivity.
Qed.

(** X9. Granting and then revoking is a round trip: when a grant call
    inserts a row, the revoke call that follows returns true and the
    database is the one from before the grant, so every access check
    answers as it did before the grant. *)
Theorem revoke_household_access_undoes_grant
    (w w1 : World) (recipe_id household_id granted_by : UUID)
    (a : RecipeHouseholdAccess.t) :
  grant_household_access recipe_id household_id granted_by w = Return (Some a) w1 ->
  exists w2,
    revoke_household_access recipe_id household_id w1 = Return true w2
    /\ pending w2 = pending w
    /\ committed w2 = pending w
    /\ forall r u b,
         can_user_access_recipe r u w = Return b w ->
         can_user_access_recipe r u w2 = Return b w2.
Proof.
  intros E. apply grant_household_access_Some_inv in E.
  destruct E as [Hk [Hg [Hid [Hp _]]]].
  assert (Hg1 : grants_for (pending w1) recipe_id household_id = [a]).
  { rewrite Hp. unfold grants_for in *. simpl. rewrite filter_app, Hg. simpl.
    rewrite Hk. rewrite (proj2 (pair_eqb_eq _ _) eq_refl). reflexivity. }
  assert (Hd : set_recipe_household_access
                 (filter (fun a' => negb (uuid_eqb (RecipeHouseholdAccess.id a')
                                            (RecipeHouseholdAccess.id a)))
                    (recipe_household_access (pending w1))) (pending w1)
               = pending w).
  { rewrite Hp. simpl. rewrite filter_remove_snoc by exact Hid.
    destruct (pending w). reflexivity. }
  eexists. split; [apply (revoke_household_access_run w1 recipe_id household_id a Hg1)|].
  simpl. split; [exact Hd|]. split; [exact Hd|].
  intros r u b Hb. apply (can_user_access_recipe_pending w); [exact Hd | exact Hb].
Qed.

Lemma revoke_household_access_undoes_grant_witness :
  exists w1 w2,
    grant_household_access 101 10 2 (session two_recipes_db [31%N])
    = Return (Some (RecipeHouseholdAccess.mk 31 101 10 (Some 2%N))) w1
    /\ revoke_household_access 101 10 w1 = Return true w2
    /\ pending w2 = two_recipes_db.
Proof.
  eexists.
  assert (E : grant_household_access 101 10 2 (session two_recipes_db [31%N])
              = Return (Some (RecipeHouseholdAccess.mk 31 101 10 (Some 2%N)))
                  (session (set_recipe_household_access
                              (recipe_household_access two_recipes_db
                               ++ [RecipeHouseholdAccess.mk 31 101 10 (Some 2%N)])
                              two_recipes_db) []))
    by (vm_compute; reflexivity).
  destruct (revoke_household_access_undoes_grant _ _ _ _ _ _ E) as [w2 [R [Hp _]]].
  exists w2. split; [exact E|]. split; [exact R | exact Hp].
Defined.

(** * More of the services: removing a member, changing a role *)

Lemma memberships_user_unique (d : DB) :
  db_ok d = true ->
  unique_by uuid_eqb HouseholdMembership.user_id (household_memberships d) = true.
Proof. intros H. ok_parts H. assumption. Qed.

Lemma memberships_id_unique (d : DB) :
  db_ok d = true ->
  unique_by uuid_eqb HouseholdMembership.id (household_memberships d) = true.
Proof. intros H. ok_parts H. assumption. Qed.

Lemma select_membership_none (w : World) (household_id user_id : UUID) :
  ~ member_of (pending w) user_id household_id ->
  select_membership household_id user_id w = Return None w.
Proof.
  intros Hn. unfold select_membership, select, read, bind.
  rewrite filter_nil_forall; [reflexivity|].
  intros m Hm.
  destruct (uuid_eqb (HouseholdMembership.household_id m) household_id) eqn:Eh;
    [|reflexivity].
  destruct (uuid_eqb (HouseholdMembership.user_id m) user_id) eqn:Eu; [|reflexivity].
  exfalso. apply Hn. exists m. apply uuid_eqb_eq in Eh, Eu. auto.
Qed.

Lemma select_membership_found (w : World) (m : HouseholdMembership.t) :
  db_ok (pending w) = true ->
  In m (household_memberships (pending w)) ->
  select_membership (HouseholdMembership.household_id m) (HouseholdMembership.user_id m) w
  = Return (Some m) w.
Proof.
  intros H Hm. unfold select_membership, select, read, bind.
  assert (Hin : In m (filter (fun x => uuid_eqb (HouseholdMembership.household_id x)
                                         (HouseholdMembership.household_id m)
                                       && uuid_eqb (HouseholdMembership.user_id x)
                                            (HouseholdMembership.user_id m))
                        (household_memberships (pending w)))).
  { apply filter_In. split; [exact Hm|]. rewrite !uuid_eqb_refl. reflexivity. }
  destruct (unique_by_filter uuid_eqb HouseholdMembership.user_id
              (fun x => uuid_eqb (HouseholdMembership.household_id x)
                          (HouseholdMembership.household_id m)
                        && uuid_eqb (HouseholdMembership.user_id x)
                             (HouseholdMembership.user_id m))
              (household_memberships (pending w))) as [E | [x E]].
  - intros a b Ha Hb. apply andb_true_iff in Ha, Hb.
    destruct Ha as [_ Ha], Hb as [_ Hb]. apply uuid_eqb_eq in Ha, Hb.
    apply uuid_eqb_eq. congruence.
  - apply memberships_user_unique. exact H.
  - rewrite E in Hin. contradiction.
  - rewrite E in *. destruct Hin as [-> | []]. reflexivity.
Qed.

(** Deleting the membership of a user leaves the user without one. *)
Lemma membership_removed (d : DB) (m : HouseholdMembership.t) :
  db_ok d = true -> In m (household_memberships d) ->
  filter (fun x => uuid_eqb (HouseholdMembership.user_id x) (HouseholdMembership.user_id m))
    (filter (fun x => negb (uuid_eqb (HouseholdMembership.id x) (HouseholdMembership.id m)))
       (household_memberships d)) = [].
Proof.
  intros H Hm. apply filter_nil_forall. intros x Hx.
  apply filter_In in Hx. destruct Hx as [Hx Hne].
  destruct (uuid_eqb (HouseholdMembership.user_id x) (HouseholdMembership.user_id m)) eqn:E;
    [|reflexivity].
  pose proof (unique_by_filter_In HouseholdMembership.user_id _ m
                (memberships_user_unique d H) Hm) as F.
  assert (Hin : In x (filter (fun r => uuid_eqb (HouseholdMembership.user_id r)
                                         (HouseholdMembership.user_id m))
                        (household_memberships d)))
    by (apply filter_In; auto).
  rewrite F in Hin. destruct Hin as [<- | []].
  rewrite uuid_eqb_refl in Hne. discriminate.
Qed.

(** X10. [remove_member] returns false and changes nothing when the user
    has no membership in the household.  Otherwise it returns true, deletes
    that membership, leaves the user without any, clears the user's current
    household only when it is this household, and touches neither other
    users nor households nor access grants. *)
Theorem remove_member_outcomes (w : World) (household_id user_id : UUID) :
  db_ok (pending w) = true ->
  (~ member_of (pending w) user_id household_id ->
   remove_member household_id user_id w = Return false w)
  /\ (forall m,
        In m (household_memberships (pending w)) ->
        HouseholdMembership.household_id m = household_id ->
        HouseholdMembership.user_id m = user_id ->
        exists w',
          remove_member household_id user_id w = Return true w'
          /\ household_memberships (pending w')
             = filter (fun x => negb (uuid_eqb (HouseholdMembership.id x)
                                        (HouseholdMembership.id m)))
                 (household_memberships (pending w))
          /\ memberships_of_user (pending w') user_id = []
          /\ users (pending w')
             = map (fun x => if uuid_eqb (User.id x) user_id
                                && py_eq uuid_eqb (User.current_household_id x)
                                     (Some household_id)
                             then User.mk (User.id x) None else x)
                 (users (pending w))
          /\ households (pending w') = households (pending w)
          /\ recipe_household_access (pending w') = recipe_household_access (pending w)
          /\ committed w' = pending w').
Proof.
  intros H. split.
  - intros Hn. unfold remove_member.
    erewrite bind_run by (apply select_membership_none; exact Hn). reflexivity.
  - intros m Hm Hh Hu. subst household_id user_id.
    unfold remove_member.
    erewrite bind_run by (apply select_membership_found; assumption).
    cbv beta iota.
    destruct (membership_fk (pending w) m H Hm) as [_ Hfk].
    destruct (get_user_found w (HouseholdMembership.user_id m)
                (users_unique (pending w) H) Hfk) as [u Eu].
    erewrite bind_run by exact Eu. cbv beta iota.
    apply get_user_inv in Eu. destruct Eu as [_ [Hu Hid]].
    pose proof (unique_by_filter_In User.id _ u (users_unique (pending w) H) Hu) as Fu.
    rewrite Hid in Fu.
    assert (Hrow : forall x, In x (users (pending w)) ->
                             User.id x = HouseholdMembership.user_id m -> x = u).
    { intros x Hx Hxid.
      assert (Hin : In x (filter (fun r => uuid_eqb (User.id r)
                                             (HouseholdMembership.user_id m))
                            (users (pending w))))
        by (apply filter_In; split; [exact Hx | apply uuid_eqb_eq; exact Hxid]).
      rewrite Fu in Hin. destruct Hin as [<- | []]. reflexivity. }
    destruct (py_eq uuid_eqb (User.current_household_id u)
                (Some (HouseholdMembership.household_id m))) eqn:Ec.
    + eexists. split; [reflexivity|]. simpl.
      split; [reflexivity|]. split; [apply (membership_removed (pending w) m H Hm)|].
      split; [|repeat split].
      apply map_ext_in. intros x Hx.
      destruct (uuid_eqb (User.id x) (HouseholdMembership.user_id m)) eqn:Ex;
        [|reflexivity].
      apply uuid_eqb_eq in Ex. rewrite (Hrow x Hx Ex), Ec. reflexivity.
    + eexists. split; [reflexivity|]. simpl.
      split; [reflexivity|]. split; [apply (membership_removed (pending w) m H Hm)|].
      split; [|repeat split].
      rewrite <- (map_id (users (pending w))) at 1.
      apply map_ext_in. intros x Hx.
      destruct (uuid_eqb (User.id x) (HouseholdMembership.user_id m)) eqn:Ex;
        [|reflexivity].
      apply uuid_eqb_eq in Ex. rewrite (Hrow x Hx Ex), Ec. reflexivity.
Qed.

Lemma remove_member_outcomes_witness :
  exists w',
    remove_member 10 1 (session two_households_db []) = Return true w'
    /\ memberships_of_user (pending w') 1 = []
    /\ users (pending w') = users two_households_db
    /\ recipe_household_access (pending w') = recipe_household_access two_households_db.
Proof.
  destruct (remove_member_outcomes (session two_households_db []) 10 1) as [_ Hr].
  - vm_compute. reflexivity.
  - destruct (Hr (HouseholdMembership.mk 20 10 1 "admin")) as [w' [E [_ [Hm [Hu [_ [Ha _]]]]]]].
    + left. reflexivity.
    + reflexivity.
    + reflexivity.
    + exists w'. split; [exact E|]. split; [exact Hm|]. split; [exact Hu | exact Ha].
Defined.

Lemma membership_row (d : DB) (m x : HouseholdMembership.t) :
  db_ok d = true -> In m (household_memberships d) -> In x (household_memberships d) ->
  HouseholdMembership.id x = HouseholdMembership.id m -> x = m.
Proof.
  intros H Hm Hx Hid.
  pose proof (unique_by_filter_In HouseholdMembership.id _ m
                (memberships_id_unique d H) Hm) as F.
  assert (Hin : In x (filter (fun r => uuid_eqb (HouseholdMembership.id r)
                                         (HouseholdMembership.id m))
                        (household_memberships d)))
    by (apply filter_In; split; [exact Hx | apply uuid_eqb_eq; exact Hid]).
  rewrite F in Hin. destruct Hin as [<- | []]. reflexivity.
Qed.

Lemma with_role_same (d : DB) (m : HouseholdMembership.t) :
  db_ok d = true -> In m (household_memberships d) ->
  with_role m (HouseholdMembership.role m) (household_memberships d)
  = household_memberships d.
Proof.
  intros H Hm. unfold with_role.
  rewrite <- (map_id (household_memberships d)) at 2.
  apply map_ext_in. intros x Hx.
  destruct (uuid_eqb (HouseholdMembership.id x) (HouseholdMembership.id m)) eqn:E;
    [|reflexivity].
  apply uuid_eqb_eq in E. rewrite (membership_row d m x H Hm Hx E).
  destruct m. reflexivity.
Qed.

(** The two roles of the constraint fit the column. *)
Lemma role_ok_fits (role : string) : role_ok role = true -> fits 20 (Some role) = true.
Proof.
  unfold role_ok. intros H. apply orb_true_iff in H.
  destruct H as [H | H]; apply String.eqb_eq in H; subst; reflexivity.
Qed.

(** The run of [update_member_role] on an existing membership. *)
Lemma update_member_role_run (w : World) (m : HouseholdMembership.t) (role : string) :
  db_ok (pending w) = true ->
  In m (household_memberships (pending w)) ->
  let m' := HouseholdMembership.mk (HouseholdMembership.id m)
              (HouseholdMembership.household_id m) (HouseholdMembership.user_id m) role in
  let d' := set_household_memberships
              (with_role m role (household_memberships (pending w))) (pending w) in
  (String.eqb (HouseholdMembership.role m) role || role_ok role = true ->
   update_member_role (HouseholdMembership.household_id m) (HouseholdMembership.user_id m)
     role w
   = Return (Some m') (mkWorld d' d' (entropy w)))
  /\ (String.eqb (HouseholdMembership.role m) role || role_ok role = false ->
      update_member_role (HouseholdMembership.household_id m)
        (HouseholdMembership.user_id m) role w
      = Raise (if fits 20 (Some role)
               then IntegrityError "check_role"
               else DBAPIError "value too long for type character varying(20)") w).
Proof.
  intros H Hm m' d'. unfold update_member_role.
  erewrite bind_run by (apply select_membership_found; assumption).
  cbv beta iota. unfold set_role.
  destruct (String.eqb (HouseholdMembership.role m) role) eqn:Er; simpl orb.
  - split; [|discriminate]. intros _.
    apply String.eqb_eq in Er. unfold bind, ret, commit. simpl.
    unfold m', d'. rewrite <- Er, with_role_same by assumption.
    destruct (pending w). reflexivity.
  - destruct (role_ok role) eqn:Ek; simpl orb.
    + split; [|discriminate]. intros _.
      unfold bind, store, check, ret, write, commit.
      rewrite (role_ok_fits role Ek). reflexivity.
    + split; [discriminate|]. intros _. unfold bind, store, check, ret, raise.
      destruct (fits 20 (Some role)); reflexivity.
Qed.



(** X12. [update_member_role] does not look at the other members: the only
    admin of a household can be made a plain member, and the household is
    then left without any admin. *)
Theorem update_member_role_demotes_last_admin (w : World) (m : HouseholdMembership.t) :
  db_ok (pending w) = true ->
  In m (household_memberships (pending w)) ->
  (forall x, In x (household_memberships (pending w)) ->
             HouseholdMembership.household_id x = HouseholdMembership.household_id m ->
             HouseholdMembership.role x = "admin"%string -> x = m) ->
  exists w',
    update_member_role (HouseholdMembership.household_id m)
      (HouseholdMembership.user_id m) "member" w
    = Return (Some (HouseholdMembership.mk (HouseholdMembership.id m)
                      (HouseholdMembership.household_id m)
                      (HouseholdMembership.user_id m) "member")) w'
    /\ forall x, In x (household_memberships (pending w')) ->
                 HouseholdMembership.household_id x = HouseholdMembership.household_id m ->
                 HouseholdMembership.role x <> "admin"%string.
Proof.
  intros H Hm Honly.
  destruct (update_member_role_run w m "member" H Hm) as [Hok _].
  eexists. split.
  - apply Hok. unfold role_ok. simpl. apply orb_true_r.
  - simpl. intros x Hx Hh. unfold with_role in Hx. apply in_map_iff in Hx.
    destruct Hx as [x0 [E Hx0]].
    destruct (uuid_eqb (HouseholdMembership.id x0) (HouseholdMembership.id m)) eqn:Eid.
    + subst x. simpl. discriminate.
    + subst x. intros Hadmin. rewrite (Honly x0 Hx0 Hh Hadmin) in Eid.
      rewrite uuid_eqb_refl in Eid. discriminate.
Qed.

Lemma update_member_role_demotes_last_admin_witness :
  exists w',
    update_member_role 10 1 "member" (session shared_db [])
    = Return (Some (HouseholdMembership.mk 20 10 1 "member")) w'
    /\ forall x, In x (household_memberships (pending w')) ->
                 HouseholdMembership.household_id x = 10%N ->
                 HouseholdMembership.role x <> "admin"%string.
Proof.
  apply (update_member_role_demotes_last_admin (session shared_db [])
           (HouseholdMembership.mk 20 10 1 "admin")).
  - vm_compute. reflexivity.
  - left. reflexivity.
  - intros x [<- | [<- | []]] _ Hr; [reflexivity | discriminate].
Defined.

(** * More of the services: renaming a household *)

Lemma households_id_unique (d : DB) :
  db_ok d = true -> unique_by uuid_eqb Household.id (households d) = true.
Proof. intros H. ok_parts H. assumption. Qed.

Lemma get_household_found (w : World) (h : Household.t) :
  db_ok (pending w) = true -> In h (households (pending w)) ->
  get_household (Household.id h) w = Return (Some h) w.
Proof.
  intros H Hh. unfold get_household, select, read, bind.
  rewrite (unique_by_filter_In Household.id _ h (households_id_unique _ H) Hh).
  reflexivity.
Qed.

Lemma get_household_none (w : World) (household_id : UUID) :
  has_id Household.id (households (pending w)) household_id = false ->
  get_household household_id w = Return None w.
Proof.
  intros Hn. unfold get_household, select, read, bind.
  unfold has_id in Hn. apply existsb_filter_nil in Hn. rewrite Hn. reflexivity.
Qed.

Lemma household_row (d : DB) (h x : Household.t) :
  db_ok d = true -> In h (households d) -> In x (households d) ->
  Household.id x = Household.id h -> x = h.
Proof.
  intros H Hh Hx Hid.
  pose proof (unique_by_filter_In Household.id _ h (households_id_unique d H) Hh) as F.
  assert (Hin : In x (filter (fun r => uuid_eqb (Household.id r) (Household.id h))
                        (households d)))
    by (apply filter_In; split; [exact Hx | apply uuid_eqb_eq; exact Hid]).
  rewrite F in Hin. destruct Hin as [<- | []]. reflexivity.
Qed.





(** * The declared constraints are kept *)

Lemma uuid_eqb_sym (a b : UUID) : uuid_eqb a b = uuid_eqb b a.
Proof. apply N.eqb_sym. Qed.

Lemma unique_by_sub {A K : Type} (eqb : K -> K -> bool) (key : A -> K) (p : A -> bool)
    (rows : list A) :
  unique_by eqb key rows = true -> unique_by eqb key (filter p rows) = true.
Proof.
  induction rows as [|r rows IH]; simpl; intros U.
  - reflexivity.
  - apply andb_true_iff in U. destruct U as [Hr U]. apply negb_true_iff in Hr.
    destruct (p r); simpl; [|apply IH; exact U].
    rewrite (IH U), andb_true_r. apply negb_true_iff.
    destruct (existsb (fun r' => eqb (key r') (key r)) (filter p rows)) eqn:E;
      [|reflexivity].
    apply existsb_exists in E. destruct E as [x [Hx Ex]].
    apply filter_In in Hx. destruct Hx as [Hx _].
    rewrite (existsb_false_forall _ _ Hr x Hx) in Ex. discriminate.
Qed.

Lemma existsb_map_key {A : Type} (f : A -> A) (q : A -> bool) (rows : list A) :
  (forall x, q (f x) = q x) -> existsb q (map f rows) = existsb q rows.
Proof.
  intros Hf. induction rows as [|r rows IH]; simpl; [reflexivity|].
  rewrite Hf, IH. reflexivity.
Qed.

Lemma unique_by_map_key {A K : Type} (eqb : K -> K -> bool) (key : A -> K) (f : A -> A)
    (rows : list A) :
  (forall x, key (f x) = key x) ->
  unique_by eqb key rows = true -> unique_by eqb key (map f rows) = true.
Proof.
  intros Hf. induction rows as [|r rows IH]; simpl; intros U.
  - reflexivity.
  - apply andb_true_iff in U. destruct U as [Hr U].
    rewrite (IH U), andb_true_r, Hf, existsb_map_key; [exact Hr|].
    intros x. rewrite Hf. reflexivity.
Qed.

Lemma forallb_sub {A : Type} (f : A -> bool) (p : A -> bool) (rows : list A) :
  forallb f rows = true -> forallb f (filter p rows) = true.
Proof.
  rewrite !forallb_forall. intros H x Hx. apply filter_In in Hx. apply H. apply Hx.
Qed.

Lemma forallb_snoc {A : Type} (f : A -> bool) (rows : list A) (x : A) :
  forallb f rows = true -> f x = true -> forallb f (rows ++ [x]) = true.
Proof.
  intros H Hx. rewrite forallb_app, H. simpl. rewrite Hx. reflexivity.
Qed.

Lemma forallb_mono {A : Type} (f g : A -> bool) (rows : list A) :
  (forall x, In x rows -> f x = true -> g x = true) ->
  forallb f rows = true -> forallb g rows = true.
Proof.
  rewrite !forallb_forall. intros Hfg H x Hx. apply Hfg; auto.
Qed.

Lemma has_id_app_l {A : Type} (id : A -> UUID) (l l' : list A) (k : UUID) :
  has_id id l k = true -> has_id id (l ++ l') k = true.
Proof. intros H. rewrite has_id_app, H. reflexivity. Qed.

Lemma has_id_opt_app_l {A : Type} (id : A -> UUID) (l l' : list A) (k : option UUID) :
  has_id_opt id l k = true -> has_id_opt id (l ++ l') k = true.
Proof. destruct k; simpl; [apply has_id_app_l | auto]. Qed.

Ltac ok_goal := unfold db_ok; repeat (apply andb_true_intro; split).

(** Deleting grants keeps the constraints. *)
Lemma delete_access_ok (d : DB) (p : RecipeHouseholdAccess.t -> bool) :
  db_ok d = true ->
  db_ok (set_recipe_household_access (filter p (recipe_household_access d)) d) = true.
Proof.
  intros H. ok_parts H. ok_goal; simpl;
    try assumption;
    try (apply unique_by_sub; assumption);
    try (apply forallb_sub; assumption).
Qed.

(** Deleting memberships keeps the constraints. *)
Lemma delete_membership_ok (d : DB) (p : HouseholdMembership.t -> bool) :
  db_ok d = true ->
  db_ok (set_household_memberships (filter p (household_memberships d)) d) = true.
Proof.
  intros H. ok_parts H. ok_goal; simpl;
    try assumption;
    try (apply unique_by_sub; assumption);
    try (apply forallb_sub; assumption).
Qed.

(** Inserting a grant that passes the checks keeps the constraints. *)
Lemma append_access_ok (d : DB) (a : RecipeHouseholdAccess.t) :
  db_ok d = true ->
  has_id RecipeHouseholdAccess.id (recipe_household_access d)
    (RecipeHouseholdAccess.id a) = false ->
  existsb (fun a' => pair_eqb (access_key a') (access_key a)) (recipe_household_access d)
  = false ->
  access_ok d a = true ->
  db_ok (set_recipe_household_access (recipe_household_access d ++ [a]) d) = true.
Proof.
  intros H Hid Hpair Hfk. ok_parts H. ok_goal; simpl; try assumption.
  - apply unique_by_snoc; [apply uuid_eqb_sym | assumption | exact Hid].
  - apply unique_by_snoc; [apply pair_eqb_sym | assumption | exact Hpair].
  - apply forallb_snoc; assumption.
Qed.

(** Inserting a membership that passes the checks keeps the constraints. *)
Lemma append_membership_ok (d : DB) (m : HouseholdMembership.t) :
  db_ok d = true ->
  has_id HouseholdMembership.id (household_memberships d) (HouseholdMembership.id m) = false ->
  existsb (fun m' => uuid_eqb (HouseholdMembership.user_id m') (HouseholdMembership.user_id m))
    (household_memberships d) = false ->
  membership_ok d m = true ->
  db_ok (set_household_memberships (household_memberships d ++ [m]) d) = true.
Proof.
  intros H Hid Hu Hfk. ok_parts H. ok_goal; simpl; try assumption.
  - apply unique_by_snoc; [apply uuid_eqb_sym | assumption | exact Hid].
  - apply unique_by_snoc; [apply uuid_eqb_sym | assumption | exact Hu].
  - apply forallb_snoc; assumption.
Qed.

(** ** Reasoning about a sequence of steps *)

Lemma triple_bind {A B : Type} (P : World -> Prop) (m : M A) (Q : A -> World -> Prop)
    (k : A -> M B) (R : B -> World -> Prop) :
  triple P m Q -> (forall a, triple (Q a) (k a) R) -> triple P (bind m k) R.
Proof.
  intros Hm Hk w Hw. specialize (Hm w Hw). unfold bind.
  destruct (m w) as [a w'|e w']; [apply Hk; exact Hm | exact Hm].
Qed.

Lemma triple_weaken {A : Type} (P P' : World -> Prop) (m : M A) (Q Q' : A -> World -> Prop) :
  (forall w, P' w -> P w) -> (forall a w, Q a w -> Q' a w) ->
  triple P m Q -> triple P' m Q'.
Proof.
  intros HP HQ Hm w Hw. specialize (Hm w (HP w Hw)).
  destruct (m w); [apply HQ; exact Hm | exact Hm].
Qed.

Lemma triple_ret {A : Type} (P : World -> Prop) (a : A) (Q : A -> World -> Prop) :
  (forall w, P w -> Q a w) -> triple P (ret a) Q.
Proof. intros H w Hw. apply H. exact Hw. Qed.

Lemma triple_raise {A : Type} (P : World -> Prop) (e : Exn) (Q : A -> World -> Prop) :
  (forall w, P w -> world_ok w) -> triple P (raise e) Q.
Proof. intros H w Hw. apply H. exact Hw. Qed.

Lemma triple_write (P : World -> Prop) (f : DB -> DB) (Q : unit -> World -> Prop) :
  (forall w, P w -> Q tt (mkWorld (committed w) (f (pending w)) (entropy w))) ->
  triple P (write f) Q.
Proof. intros H w Hw. apply H. exact Hw. Qed.

Lemma triple_commit (P : World -> Prop) :
  (forall w, P w -> world_ok w) -> triple P commit (fun _ => world_ok).
Proof. intros H w Hw. destruct (H w Hw) as [Hp _]. split; exact Hp. Qed.

Lemma triple_check (P : World -> Prop) (b : bool) (c : string) :
  (forall w, P w -> world_ok w) ->
  triple P (check b c) (fun _ w => P w /\ b = true).
Proof.
  intros H w Hw. unfold check. destruct b; simpl; [split; auto | apply H; exact Hw].
Qed.

Lemma triple_store (P : World -> Prop) (b : bool) (reason : string) :
  (forall w, P w -> world_ok w) -> triple P (store b reason) (fun _ => P).
Proof.
  intros H w Hw. unfold store. destruct b; simpl; [exact Hw | apply H; exact Hw].
Qed.

Lemma triple_db_preserving {A : Type} (P : World -> Prop) (m : M A) :
  db_preserving m -> entropy_free P -> (forall w, P w -> world_ok w) ->
  triple P m (fun _ => P).
Proof.
  intros Hm HP Hok w Hw. specialize (Hm w).
  destruct w as [c p r].
  destruct (m (mkWorld c p r)) as [a [c' p' r']|e [c' p' r']];
    simpl in Hm; destruct Hm as [Ep Ec]; subst c' p'.
  - apply (HP c p r). exact Hw.
  - apply Hok. apply (HP c p r). exact Hw.
Qed.

Lemma triple_for_each {A : Type} (P : World -> Prop) (l : list A) (body : A -> M unit) :
  (forall x, triple P (body x) (fun _ => P)) ->
  triple P (for_each l body) (fun _ => P).
Proof.
  intros Hb. induction l as [|x l IH]; simpl.
  - apply triple_ret. auto.
  - eapply triple_bind; [apply Hb | intros u; exact IH].
Qed.

Lemma world_ok_entropy_free : entropy_free world_ok.
Proof. intros c p r r' H. exact H. Qed.

Lemma db_preserving_ret {A : Type} (a : A) : db_preserving (ret a).
Proof. intros w. split; reflexivity. Qed.

Lemma db_preserving_raise {A : Type} (e : Exn) : db_preserving (@raise A e).
Proof. intros w. split; reflexivity. Qed.

Lemma db_preserving_read {A : Type} (f : DB -> A) : db_preserving (read f).
Proof. intros w. split; reflexivity. Qed.

Lemma db_preserving_select {A : Type} (table : DB -> list A) (p : A -> bool) :
  db_preserving (select table p).
Proof. apply db_preserving_read. Qed.

Lemma db_preserving_scalar_one_or_none {A : Type} (rows : list A) :
  db_preserving (scalar_one_or_none rows).
Proof. intros w. destruct rows as [|x [|y rows]]; split; reflexivity. Qed.

Lemma db_preserving_draw : db_preserving draw.
Proof. intros w. unfold draw. destruct (entropy w); split; reflexivity. Qed.

Lemma db_preserving_bind {A B : Type} (m : M A) (k : A -> M B) :
  db_preserving m -> (forall a, db_preserving (k a)) -> db_preserving (bind m k).
Proof.
  intros Hm Hk w. unfold bind. specialize (Hm w).
  destruct (m w) as [a w'|e w']; [|exact Hm].
  specialize (Hk a w'). destruct Hm as [Hp Hc].
  destruct (k a w'); rewrite <- Hp, <- Hc; exact Hk.
Qed.

Lemma db_preserving_generate_invite_code (length : nat) :
  db_preserving (generate_invite_code length).
Proof.
  unfold generate_invite_code. apply db_preserving_bind; [|intros; apply db_preserving_ret].
  induction length as [|n IH]; simpl; [apply db_preserving_ret|].
  apply db_preserving_bind.
  - unfold secrets_choice. apply db_preserving_bind;
      [apply db_preserving_draw | intros; apply db_preserving_ret].
  - intros c. apply db_preserving_bind; [exact IH | intros; apply db_preserving_ret].
Qed.

Lemma db_preserving_get_household_by_invite_code (invite_code : string) :
  db_preserving (get_household_by_invite_code invite_code).
Proof.
  apply db_preserving_bind;
    [apply db_preserving_select | intros; apply db_preserving_scalar_one_or_none].
Qed.

Lemma db_preserving_retry_invite_code (fuel : nat) (invite_code : string) :
  db_preserving (retry_invite_code fuel invite_code).
Proof.
  revert invite_code. induction fuel as [|n IH]; intros invite_code; simpl;
    (apply db_preserving_bind; [apply db_preserving_get_household_by_invite_code|]);
    intros [h|]; try apply db_preserving_ret; try apply db_preserving_raise.
  apply db_preserving_bind; [apply db_preserving_generate_invite_code | intros; apply IH].
Qed.

Lemma db_preserving_get_user (user_id : UUID) : db_preserving (get_user user_id).
Proof.
  apply db_preserving_bind;
    [apply db_preserving_select | intros; apply db_preserving_scalar_one_or_none].
Qed.

Lemma db_preserving_select_membership (household_id user_id : UUID) :
  db_preserving (select_membership household_id user_id).
Proof.
  apply db_preserving_bind;
    [apply db_preserving_select | intros; apply db_preserving_scalar_one_or_none].
Qed.

(** *** The single statements *)

Lemma insert_access_keeps (a : RecipeHouseholdAccess.t) :
  triple world_ok (insert_access a) (fun _ => world_ok).
Proof.
  intros w [Hp Hc]. unfold insert_access, bind, read, check, write, ret, raise.
  destruct (has_id RecipeHouseholdAccess.id (recipe_household_access (pending w))
              (RecipeHouseholdAccess.id a)) eqn:E1; simpl; [split; assumption|].
  destruct (existsb (fun a' => pair_eqb (access_key a') (access_key a))
              (recipe_household_access (pending w))) eqn:E2; simpl; [split; assumption|].
  destruct (access_ok (pending w) a) eqn:E3; simpl; [|split; assumption].
  split; [apply append_access_ok; assumption | exact Hc].
Qed.

Lemma insert_membership_keeps (m : HouseholdMembership.t) :
  triple world_ok (insert_membership m)
    (fun _ w => world_ok w
                /\ has_id Household.id (households (pending w))
                     (HouseholdMembership.household_id m) = true).
Proof.
  intros w [Hp Hc]. unfold insert_membership, bind, read, check, write, ret, raise.
  destruct (has_id HouseholdMembership.id (household_memberships (pending w))
              (HouseholdMembership.id m)) eqn:E1; simpl; [split; assumption|].
  destruct (existsb (fun m' => uuid_eqb (HouseholdMembership.user_id m')
                                 (HouseholdMembership.user_id m))
              (household_memberships (pending w))) eqn:E2; simpl; [split; assumption|].
  destruct (membership_ok (pending w) m) eqn:E3; simpl; [|split; assumption].
  split; [split; [apply append_membership_ok; assumption | exact Hc]|].
  unfold membership_ok in E3. apply andb_true_iff in E3. apply E3.
Qed.

Ltac unfold_fk :=
  unfold user_ok, household_ok, membership_ok, access_ok, recipe_ok, recipe_ingredient_ok,
    meal_plan_ok, planned_meal_ok, shopping_list_ok, shopping_list_item_ok; simpl.

(** A foreign key that held before holds when the tables it points to have
    kept their ids. *)
Ltac fk_mono tac :=
  match goal with
  | H : forallb (?f ?d) ?l = true |- forallb (?f ?d') ?l = true =>
      apply (forallb_mono (f d) (f d') l); [|exact H];
      let x := fresh "x" in
      intros x _; unfold_fk; rewrite ?andb_true_iff; tac; intuition auto
  end.

Lemma unique_by_map_in {A K : Type} (eqb : K -> K -> bool) (key : A -> K) (f : A -> A)
    (rows : list A) :
  (forall x, In x rows -> key (f x) = key x) ->
  unique_by eqb key rows = true -> unique_by eqb key (map f rows) = true.
Proof.
  induction rows as [|r rows IH]; simpl; intros Hf U.
  - reflexivity.
  - apply andb_true_iff in U. destruct U as [Hr U].
    rewrite (IH (fun x Hx => Hf x (or_intror Hx)) U), andb_true_r.
    rewrite (Hf r (or_introl eq_refl)). rewrite <- Hr. f_equal.
    clear IH Hr U. induction rows as [|y rows IH]; simpl; [reflexivity|].
    rewrite (Hf y (or_intror (or_introl eq_refl))). f_equal.
    apply IH. intros x [E|Hx]; apply Hf; [left; exact E | right; right; exact Hx].
Qed.

Lemma has_id_map_in {A : Type} (id : A -> UUID) (f : A -> A) (l : list A) (k : UUID) :
  (forall x, In x l -> id (f x) = id x) -> has_id id (map f l) k = has_id id l k.
Proof.
  intros Hf. unfold has_id. induction l as [|y l IH]; simpl; [reflexivity|].
  rewrite (Hf y (or_introl eq_refl)). f_equal. apply IH.
  intros x Hx. apply Hf. right. exact Hx.
Qed.

Lemma has_id_opt_map_in {A : Type} (id : A -> UUID) (f : A -> A) (l : list A)
    (k : option UUID) :
  (forall x, In x l -> id (f x) = id x) -> has_id_opt id (map f l) k = has_id_opt id l k.
Proof. intros Hf. destruct k; simpl; [apply has_id_map_in; exact Hf | reflexivity]. Qed.

(** Rewriting user rows keeps the constraints when the ids stay and the
    new rows point to households on file. *)
Lemma update_users_ok (d : DB) (f : User.t -> User.t) :
  db_ok d = true ->
  (forall u, In u (users d) -> User.id (f u) = User.id u) ->
  (forall u, In u (users d) -> user_ok d (f u) = true) ->
  db_ok (set_users (map f (users d)) d) = true.
Proof.
  intros H Hid Hfk. ok_parts H. ok_goal; simpl; try assumption;
    try (fk_mono ltac:(rewrite ?(has_id_map_in User.id f), ?(has_id_opt_map_in User.id f)
                         by exact Hid)).
  - apply unique_by_map_in; assumption.
  - apply forallb_forall. intros x Hx. apply in_map_iff in Hx.
    destruct Hx as [u [<- Hu]]. apply (Hfk u Hu).
Qed.

Lemma set_current_household_keeps (user_id : UUID) (value : option UUID) :
  triple (fun w => world_ok w
                   /\ has_id_opt Household.id (households (pending w)) value = true)
    (set_current_household user_id value) (fun _ => world_ok).
Proof.
  apply triple_write. intros w [[Hp Hc] Hv]. split; [|exact Hc]. simpl.
  apply update_users_ok; [exact Hp | |].
  - intros u _. destruct (uuid_eqb (User.id u) user_id); reflexivity.
  - intros u Hu. destruct (uuid_eqb (User.id u) user_id); [exact Hv|].
    ok_parts Hp.
    match goal with
    | H : forallb (user_ok _) _ = true |- _ =>
        rewrite forallb_forall in H; apply H; exact Hu
    end.
Qed.

Lemma existsb_pointwise {A : Type} (p q : A -> bool) (l : list A) :
  (forall x, p x = q x) -> existsb p l = existsb q l.
Proof.
  intros H. induction l as [|x l IH]; simpl; [reflexivity|]. rewrite H, IH. reflexivity.
Qed.

Lemma invite_code_eqb_sym (a b : option string) :
  match a with Some x => sql_eq String.eqb b x | None => false end
  = match b with Some x => sql_eq String.eqb a x | None => false end.
Proof. destruct a, b; simpl; try reflexivity. apply String.eqb_sym. Qed.

(** Inserting a household that passes the checks keeps the constraints. *)
Lemma append_household_ok (d : DB) (h : Household.t) :
  db_ok d = true ->
  has_id Household.id (households d) (Household.id h) = false ->
  existsb (fun h' => match Household.invite_code h with
                     | Some c => sql_eq String.eqb (Household.invite_code h') c
                     | None => false
                     end) (households d) = false ->
  household_ok d h = true ->
  db_ok (set_households (households d ++ [h]) d) = true.
Proof.
  intros H Hid Hcode Hfk. ok_parts H. ok_goal; simpl; try assumption;
    try (fk_mono ltac:(idtac); auto using has_id_app_l, has_id_opt_app_l).
  - apply unique_by_snoc; [apply uuid_eqb_sym | assumption | exact Hid].
  - unfold unique_nullable. apply unique_by_snoc.
    + intros a b. apply invite_code_eqb_sym.
    + assumption.
    + etransitivity; [|exact Hcode]. apply existsb_pointwise. intros x.
      apply invite_code_eqb_sym.
  - apply forallb_snoc; assumption.
Qed.

Lemma insert_household_keeps (h : Household.t) :
  triple world_ok (insert_household h) (fun _ => world_ok).
Proof.
  intros w [Hp Hc]. unfold insert_household, bind, read, check, write, ret, raise.
  destruct (has_id Household.id (households (pending w)) (Household.id h)) eqn:E1;
    simpl; [split; assumption|].
  destruct (existsb _ (households (pending w))) eqn:E2; simpl; [split; assumption|].
  destruct (household_ok (pending w) h) eqn:E3; simpl; [|split; assumption].
  split; [apply append_household_ok; assumption | exact Hc].
Qed.

Create HintDb keeps.
#[local] Hint Resolve db_preserving_ret db_preserving_raise db_preserving_read
  db_preserving_select db_preserving_scalar_one_or_none db_preserving_draw
  db_preserving_generate_invite_code db_preserving_get_household_by_invite_code
  db_preserving_retry_invite_code db_preserving_get_user
  db_preserving_select_membership world_ok_entropy_free : keeps.

(** A step that only reads. *)
Ltac reads :=
  eapply triple_bind;
  [ apply triple_db_preserving;
    [ auto with keeps
    | first [apply world_ok_entropy_free | intros ? ? ? ? H; exact H]
    | first [solve [auto] | intros ? H; apply H] ]
  | intros ? ].

Ltac done_ok := apply triple_ret; first [solve [auto] | intros ? H; apply H].

(** *** The services *)

Lemma grant_household_access_keeps (recipe_id household_id granted_by : UUID) :
  triple world_ok (grant_household_access recipe_id household_id granted_by)
    (fun _ => world_ok).
Proof.
  unfold grant_household_access. reads. reads.
  match goal with |- triple _ (match ?x with _ => _ end) _ => destruct x end;
    [done_ok|].
  unfold uuid4. reads.
  eapply triple_bind; [apply insert_access_keeps | intros u].
  eapply triple_bind; [apply triple_commit; auto | intros u'].
  done_ok.
Qed.

Lemma grant_user_recipes_keeps (user_id household_id : UUID) :
  triple world_ok (_grant_user_recipes_to_household user_id household_id)
    (fun _ => world_ok).
Proof.
  unfold _grant_user_recipes_to_household. reads.
  apply triple_for_each. intros x.
  eapply triple_bind; [apply grant_household_access_keeps | intros r]. done_ok.
Qed.

(** The steps that [create_household] and [join_household] share. *)
Lemma membership_steps_keep {A : Type} (m : HouseholdMembership.t) (result : A) :
  triple world_ok
    (insert_membership m ;;;
     user <- get_user (HouseholdMembership.user_id m) ;;
     match user with
     | Some _ => set_current_household (HouseholdMembership.user_id m)
                   (Some (HouseholdMembership.household_id m))
     | None => ret tt
     end ;;;
     _grant_user_recipes_to_household (HouseholdMembership.user_id m)
       (HouseholdMembership.household_id m) ;;;
     commit ;;;
     ret result)
    (fun _ => world_ok).
Proof.
  eapply triple_bind; [apply insert_membership_keeps | intros u].
  reads.
  eapply triple_bind.
  - match goal with |- triple _ (match ?x with _ => _ end) _ => destruct x end.
    + exact (set_current_household_keeps (HouseholdMembership.user_id m)
               (Some (HouseholdMembership.household_id m))).
    + apply triple_ret. intros w H. apply H.
  - intros u'. eapply triple_bind; [apply grant_user_recipes_keeps | intros u''].
    eapply triple_bind; [apply triple_commit; auto | intros u3]. done_ok.
Qed.

Lemma join_household_keeps (user_id : UUID) (invite_code : string) :
  triple world_ok (join_household user_id invite_code) (fun _ => world_ok).
Proof.
  unfold join_household. reads.
  match goal with |- triple _ (match ?x with _ => _ end) _ => destruct x as [h|] end;
    [|done_ok].
  reads. reads.
  match goal with |- triple _ (match ?x with _ => _ end) _ => destruct x end;
    [apply triple_raise; auto|].
  unfold uuid4. reads.
  match goal with
  | |- triple _ (bind (insert_membership ?m) _) _ => exact (membership_steps_keep m _)
  end.
Qed.

Lemma create_household_keeps (user_id : UUID) (name : string) :
  triple world_ok (create_household user_id name) (fun _ => world_ok).
Proof.
  unfold create_household. reads.
  eapply triple_bind.
  { intros w Hw.
    match goal with
    | |- match retry_invite_code ?n ?c w with _ => _ end =>
        apply (triple_db_preserving world_ok (retry_invite_code n c)); auto with keeps
    end. }
  intros c. unfold uuid4. reads.
  eapply triple_bind; [apply insert_household_keeps | intros u].
  reads.
  match goal with
  | |- triple _ (bind (insert_membership ?m) _) _ => exact (membership_steps_keep m _)
  end.
Qed.

Lemma leave_household_keeps (user_id : UUID) :
  triple world_ok (leave_household user_id) (fun _ => world_ok).
Proof.
  unfold leave_household. reads. reads.
  match goal with |- triple _ (match ?x with _ => _ end) _ => destruct x as [m|] end;
    [|done_ok].
  reads.
  eapply triple_bind.
  - match goal with |- triple _ (match ?x with _ => _ end) _ => destruct x end.
    + eapply triple_weaken; [| |apply (set_current_household_keeps user_id None)].
      * intros w H. split; [exact H | reflexivity].
      * intros u w H. exact H.
    + done_ok.
  - intros u. apply (triple_bind _ _ (fun _ => world_ok)).
    + apply triple_write. intros w Hw. cbv beta in Hw. destruct Hw as [Hp Hc].
      split; [|exact Hc]. simpl. apply delete_membership_ok. exact Hp.
    + intros u'. eapply triple_bind; [apply triple_commit; auto | intros u'']. done_ok.
Qed.

Lemma delete_membership_keeps (m : HouseholdMembership.t) :
  triple world_ok (delete_membership m) (fun _ => world_ok).
Proof.
  apply triple_write. intros w [Hp Hc]. split; [|exact Hc]. simpl.
  apply delete_membership_ok. exact Hp.
Qed.

Lemma remove_member_keeps (household_id user_id : UUID) :
  triple world_ok (remove_member household_id user_id) (fun _ => world_ok).
Proof.
  unfold remove_member. reads.
  match goal with |- triple _ (match ?x with _ => _ end) _ => destruct x as [m|] end;
    [|done_ok].
  reads.
  apply (triple_bind _ _ (fun _ => world_ok)).
  - match goal with |- triple _ (match ?x with _ => _ end) _ => destruct x as [u|] end;
      [|done_ok].
    destruct (py_eq uuid_eqb (User.current_household_id u) (Some household_id));
      [|done_ok].
    eapply triple_weaken; [| |apply (set_current_household_keeps user_id None)].
    + intros w H. split; [exact H | reflexivity].
    + intros x w H. exact H.
  - intros u. eapply triple_bind; [apply delete_membership_keeps | intros u'].
    eapply triple_bind; [apply triple_commit; auto | intros u'']. done_ok.
Qed.

(** Rewriting membership rows keeps the constraints when the ids, the users
    and the households of the rows stay. *)
Lemma update_memberships_ok (d : DB) (f : HouseholdMembership.t -> HouseholdMembership.t) :
  db_ok d = true ->
  (forall m, HouseholdMembership.id (f m) = HouseholdMembership.id m) ->
  (forall m, HouseholdMembership.user_id (f m) = HouseholdMembership.user_id m) ->
  (forall m, HouseholdMembership.household_id (f m) = HouseholdMembership.household_id m) ->
  db_ok (set_household_memberships (map f (household_memberships d)) d) = true.
Proof.
  intros H Hid Hu Hh. ok_parts H. ok_goal; simpl; try assumption.
  - apply unique_by_map_key; assumption.
  - apply unique_by_map_key; assumption.
  - apply forallb_forall. intros x Hx. apply in_map_iff in Hx.
    destruct Hx as [m [<- Hm]]. unfold membership_ok. simpl. rewrite Hu, Hh.
    match goal with
    | H : forallb (membership_ok _) _ = true |- _ =>
        rewrite forallb_forall in H; apply (H m Hm)
    end.
Qed.

Lemma set_role_keeps (membership : HouseholdMembership.t) (role : string) :
  triple world_ok (set_role membership role) (fun _ => world_ok).
Proof.
  unfold set_role. destruct (String.eqb (HouseholdMembership.role membership) role);
    [done_ok|].
  eapply triple_bind; [apply triple_store; auto | intros u0].
  eapply triple_bind; [apply triple_check; auto | intros u].
  apply triple_write. intros w [[Hp Hc] _]. split; [|exact Hc]. simpl.
  apply update_memberships_ok; [exact Hp | | |]; intros m;
    destruct (uuid_eqb (HouseholdMembership.id m) (HouseholdMembership.id membership));
    reflexivity.
Qed.

Lemma update_member_role_keeps (household_id user_id : UUID) (role : string) :
  triple world_ok (update_member_role household_id user_id role) (fun _ => world_ok).
Proof.
  unfold update_member_role. reads.
  match goal with |- triple _ (match ?x with _ => _ end) _ => destruct x as [m|] end;
    [|done_ok].
  eapply triple_bind; [apply set_role_keeps | intros u].
  eapply triple_bind; [apply triple_commit; auto | intros u']. done_ok.
Qed.

(** Rewriting household rows keeps the constraints when the ids, the invite
    codes and the creators of the rows stay. *)
Lemma update_households_ok (d : DB) (f : Household.t -> Household.t) :
  db_ok d = true ->
  (forall h, In h (households d) -> Household.id (f h) = Household.id h) ->
  (forall h, In h (households d) -> Household.invite_code (f h) = Household.invite_code h) ->
  (forall h, In h (households d) -> Household.created_by (f h) = Household.created_by h) ->
  db_ok (set_households (map f (households d)) d) = true.
Proof.
  intros H Hid Hcode Hby. ok_parts H. ok_goal; simpl; try assumption;
    try (fk_mono ltac:(rewrite ?(has_id_map_in Household.id f),
                         ?(has_id_opt_map_in Household.id f) by exact Hid)).
  - apply unique_by_map_in; assumption.
  - unfold unique_nullable. apply unique_by_map_in; assumption.
  - apply forallb_forall. intros x Hx. apply in_map_iff in Hx.
    destruct Hx as [h [<- Hh]]. unfold household_ok. simpl. rewrite (Hby h Hh).
    match goal with
    | H : forallb (household_ok _) _ = true |- _ =>
        rewrite forallb_forall in H; apply (H h Hh)
    end.
Qed.

Lemma update_household_keeps (household_id : UUID) (household_data : HouseholdUpdate) :
  triple world_ok (update_household household_id household_data) (fun _ => world_ok).
Proof.
  intros w [Hp Hc]. unfold update_household.
  destruct (has_id Household.id (households (pending w)) household_id) eqn:E.
  - apply has_id_true in E. destruct E as [h [Hh <-]].
    erewrite bind_run by (apply get_household_found; assumption). cbv beta iota.
    destruct household_data as [[name|]|]; try (split; assumption).
    destruct (String.eqb (Household.name h) name); [split; assumption|].
    unfold bind, store, fits, write, commit, ret, raise.
    destruct (Nat.leb (String.length name) 255); simpl; [|split; assumption].
    split;
      (apply update_households_ok; [exact Hp | | |]; intros x Hx;
       destruct (uuid_eqb (Household.id x) (Household.id h)) eqn:Ex; try reflexivity;
       apply uuid_eqb_eq in Ex; rewrite (household_row (pending w) h x Hp Hh Hx Ex);
       reflexivity).
  - erewrite bind_run by (apply get_household_none; exact E). split; assumption.
Qed.

Lemma revoke_household_access_keeps (recipe_id household_id : UUID) :
  triple world_ok (revoke_household_access recipe_id household_id) (fun _ => world_ok).
Proof.
  unfold revoke_household_access. reads. reads.
  match goal with |- triple _ (match ?x with _ => _ end) _ => destruct x as [g|] end;
    [|done_ok].
  apply (triple_bind _ _ (fun _ => world_ok)).
  - apply triple_write. intros w [Hp Hc]. split; [|exact Hc]. simpl.
    apply delete_access_ok. exact Hp.
  - intros u. eapply triple_bind; [apply triple_commit; auto | intros u']. done_ok.
Qed.

(** Inserting a shopping list that passes the checks keeps the constraints. *)
Lemma append_shopping_list_ok (d : DB) (s : ShoppingList.t) :
  db_ok d = true ->
  has_id ShoppingList.id (shopping_lists d) (ShoppingList.id s) = false ->
  shopping_list_ok d s = true ->
  db_ok (set_shopping_lists (shopping_lists d ++ [s]) d) = true.
Proof.
  intros H Hid Hfk. ok_parts H. ok_goal; simpl; try assumption;
    try (fk_mono ltac:(idtac); auto using has_id_app_l, has_id_opt_app_l).
  - apply unique_by_snoc; [apply uuid_eqb_sym | assumption | exact Hid].
  - apply forallb_snoc; assumption.
Qed.

(** Inserting an item that passes the checks keeps the constraints. *)
Lemma append_shopping_list_item_ok (d : DB) (i : ShoppingListItem.t) :
  db_ok d = true ->
  has_id ShoppingListItem.id (shopping_list_items d) (ShoppingListItem.id i) = false ->
  shopping_list_item_ok d i = true ->
  db_ok (set_shopping_list_items (shopping_list_items d ++ [i]) d) = true.
Proof.
  intros H Hid Hfk. ok_parts H. ok_goal; simpl; try assumption.
  - apply unique_by_snoc; [apply uuid_eqb_sym | assumption | exact Hid].
  - apply forallb_snoc; assumption.
Qed.

(** Inserting an ingredient that passes the checks keeps the constraints. *)
Lemma append_ingredient_ok (d : DB) (g : Ingredient.t) :
  db_ok d = true ->
  has_id Ingredient.id (ingredients d) (Ingredient.id g) = false ->
  existsb (fun g' => String.eqb (Ingredient.name g') (Ingredient.name g)) (ingredients d)
  = false ->
  db_ok (set_ingredients (ingredients d ++ [g]) d) = true.
Proof.
  intros H Hid Hname. ok_parts H. ok_goal; simpl; try assumption;
    try (fk_mono ltac:(idtac); auto using has_id_app_l, has_id_opt_app_l).
  - apply unique_by_snoc; [apply uuid_eqb_sym | assumption | exact Hid].
  - apply unique_by_snoc; [apply String.eqb_sym | assumption | exact Hname].
Qed.

Lemma insert_shopping_list_keeps (s : ShoppingList.t) :
  triple world_ok (insert_shopping_list s) (fun _ => world_ok).
Proof.
  intros w [Hp Hc].
  unfold insert_shopping_list, bind, read, store, check, write, ret, raise.
  destruct (fits 255 (ShoppingList.name s)); simpl; [|split; assumption].
  destruct (has_id ShoppingList.id (shopping_lists (pending w)) (ShoppingList.id s)) eqn:E1;
    simpl; [split; assumption|].
  destruct (shopping_list_ok (pending w) s) eqn:E2; simpl; [|split; assumption].
  split; [apply append_shopping_list_ok; assumption | exact Hc].
Qed.

Lemma insert_shopping_list_item_keeps (i : ShoppingListItem.t) :
  triple world_ok (insert_shopping_list_item i) (fun _ => world_ok).
Proof.
  intros w [Hp Hc].
  unfold insert_shopping_list_item, bind, read, store, check, write, ret, raise.
  destruct (decimal_10_2 (ShoppingListItem.quantity i)); simpl; [|split; assumption].
  destruct (fits 50 (ShoppingListItem.unit i)); simpl; [|split; assumption].
  destruct (fits 100 (ShoppingListItem.category i)); simpl; [|split; assumption].
  destruct (has_id ShoppingListItem.id (shopping_list_items (pending w))
              (ShoppingListItem.id i)) eqn:E1;
    simpl; [split; assumption|].
  destruct (shopping_list_item_ok (pending w) i) eqn:E2; simpl; [|split; assumption].
  split; [apply append_shopping_list_item_ok; assumption | exact Hc].
Qed.

Lemma insert_ingredient_keeps (g : Ingredient.t) :
  triple world_ok (insert_ingredient g) (fun _ => world_ok).
Proof.
  intros w [Hp Hc]. unfold insert_ingredient, bind, read, check, write, ret, raise.
  destruct (has_id Ingredient.id (ingredients (pending w)) (Ingredient.id g)) eqn:E1;
    simpl; [split; assumption|].
  destruct (existsb _ (ingredients (pending w))) eqn:E2; simpl; [split; assumption|].
  split; [apply append_ingredient_ok; assumption | exact Hc].
Qed.

Lemma db_preserving_get_meal_plan (meal_plan_id : UUID) :
  db_preserving (get_meal_plan meal_plan_id).
Proof.
  apply db_preserving_bind;
    [apply db_preserving_select | intros; apply db_preserving_scalar_one_or_none].
Qed.

Lemma triple_for_each_with {A B : Type} (P : World -> Prop) (l : list B) (a : A)
    (body : A -> B -> M A) :
  (forall a x, triple P (body a x) (fun _ => P)) ->
  triple P (for_each_with l a body) (fun _ => P).
Proof.
  intros Hb. revert a. induction l as [|x l IH]; intros a; simpl.
  - apply triple_ret. auto.
  - eapply triple_bind; [apply Hb | intros a'; apply IH].
Qed.

Lemma aggregate_ingredients_keeps (meal_plan : MealPlan.t) :
  triple world_ok (aggregate_ingredients meal_plan) (fun _ => world_ok).
Proof.
  unfold aggregate_ingredients. reads.
  apply triple_for_each_with. intros dict pm. unfold add_planned_meal. reads.
  match goal with |- triple _ (match ?x with _ => _ end) _ => destruct x end;
    [|done_ok].
  apply (triple_bind _ _ (fun _ => world_ok)); [apply triple_raise; auto | intros lines].
  destruct lines; [done_ok|].
  apply triple_for_each_with. intros dict' ri. unfold add_line.
  destruct (negb (dict_contains (RecipeIngredient.ingredient_id ri) dict')).
  - apply (triple_bind _ _ (fun _ => world_ok)); [apply triple_raise; auto | intros g].
    done_ok.
  - destruct (quantity_truthy (RecipeIngredient.quantity ri)); done_ok.
Qed.

Lemma generate_shopping_list_keeps (user_id meal_plan_id : UUID) :
  triple world_ok (generate_shopping_list_from_meal_plan user_id meal_plan_id)
    (fun _ => world_ok).
Proof.
  unfold generate_shopping_list_from_meal_plan.
  eapply triple_bind;
    [apply triple_db_preserving;
       [apply db_preserving_get_meal_plan | apply world_ok_entropy_free | auto]
    | intros mp].
  destruct mp as [mp|]; [|apply triple_raise; auto].
  unfold uuid4. reads.
  eapply triple_bind; [apply insert_shopping_list_keeps | intros u].
  eapply triple_bind; [apply aggregate_ingredients_keeps | intros dict].
  eapply triple_bind.
  - apply triple_for_each. intros e. reads. apply insert_shopping_list_item_keeps.
  - intros u'. eapply triple_bind; [apply triple_commit; auto | intros u'']. done_ok.
Qed.

Lemma triple_try_except {A : Type} (P : World -> Prop) (body : M A)
    (handler : Exn -> M A) (Q : A -> World -> Prop) :
  triple P body Q -> (forall e, triple world_ok (handler e) Q) ->
  triple P (try_except body handler) Q.
Proof.
  intros Hb Hh w Hw. specialize (Hb w Hw). unfold try_except.
  destruct (body w) as [a w'|e w']; [exact Hb | apply Hh; exact Hb].
Qed.

Lemma find_or_create_ingredient_keeps (others : list Ingredient.t)
    (ingredient_name : string) :
  triple (fun w => world_ok w /\ world_ok (with_others others w))
    (find_or_create_ingredient others ingredient_name) (fun _ => world_ok).
Proof.
  unfold find_or_create_ingredient.
  destruct (negb (str_truthy ingredient_name)); [done_ok|].
  reads.
  match goal with |- triple _ (match ?x with _ => _ end) _ => destruct x as [g|] end;
    [done_ok|].
  apply (triple_bind _ _ (fun _ => world_ok)).
  - intros w [_ Hw]. exact Hw.
  - intros u. apply triple_try_except.
    + unfold uuid4. reads.
      eapply triple_bind; [apply insert_ingredient_keeps | intros u'].
      eapply triple_bind; [apply triple_commit; auto | intros u'']. done_ok.
    + intros e. eapply triple_bind; [|intros u'; done_ok].
      intros w [Hp Hc]. split; exact Hc.
Qed.

(** X14. The household services keep the declared constraints: run on a
    session whose pending and committed databases satisfy the primary keys,
    the unique constraints and the foreign keys, each of [create_household],
    [join_household], [leave_household], [remove_member],
    [update_member_role] and [update_household] leaves both databases
    satisfying them, whether it returns or raises.  In particular no user
    ends up with two memberships or with a current household that is not on
    file. *)
Theorem household_services_keep_constraints (w : World) (user_id household_id : UUID)
    (name invite_code role : string) (household_data : HouseholdUpdate) :
  world_ok w ->
  ok_after (create_household user_id name w)
  /\ ok_after (join_household user_id invite_code w)
  /\ ok_after (leave_household user_id w)
  /\ ok_after (remove_member household_id user_id w)
  /\ ok_after (update_member_role household_id user_id role w)
  /\ ok_after (update_household household_id household_data w).
Proof.
  intros Hw. repeat split.
  - apply (create_household_keeps user_id name w Hw).
  - apply (join_household_keeps user_id invite_code w Hw).
  - apply (leave_household_keeps user_id w Hw).
  - apply (remove_member_keeps household_id user_id w Hw).
  - apply (update_member_role_keeps household_id user_id role w Hw).
  - apply (update_household_keeps household_id household_data w Hw).
Qed.

Lemma household_services_keep_constraints_witness :
  ok_after (create_household 2 "Cabin" create_world)
  /\ ok_after (join_household 2 "AAAAAAAA" create_world)
  /\ ok_after (leave_household 2 create_world)
  /\ ok_after (remove_member 10 2 create_world)
  /\ ok_after (update_member_role 10 2 "admin" create_world)
  /\ ok_after (update_household 10 (Some (Some "Flat"%string)) create_world).
Proof.
  apply (household_services_keep_constraints create_world).
  split; vm_compute; reflexivity.
Defined.

(** X15. Granting and revoking keep the declared constraints:
    [grant_household_access], [revoke_household_access] and the propagation
    [_grant_user_recipes_to_household] leave both databases satisfying
    them, whether they return or raise; no (recipe, household) pair ever has
    two grant rows, and no grant points to a recipe or household that is
    not on file. *)
Theorem grants_keep_constraints (w : World) (recipe_id household_id user_id : UUID) :
  world_ok w ->
  ok_after (grant_household_access recipe_id household_id user_id w)
  /\ ok_after (revoke_household_access recipe_id household_id w)
  /\ ok_after (_grant_user_recipes_to_household user_id household_id w).
Proof.
  intros Hw. repeat split.
  - apply (grant_household_access_keeps recipe_id household_id user_id w Hw).
  - apply (revoke_household_access_keeps recipe_id household_id w Hw).
  - apply (grant_user_recipes_keeps user_id household_id w Hw).
Qed.

Lemma grants_keep_constraints_witness :
  ok_after (grant_household_access 102 10 3 join_world)
  /\ ok_after (revoke_household_access 102 10 join_world)
  /\ ok_after (_grant_user_recipes_to_household 3 10 join_world).
Proof.
  apply (grants_keep_constraints join_world). split; vm_compute; reflexivity.
Defined.

(** X16. [generate_shopping_list_from_meal_plan] keeps the declared
    constraints, whether it returns or raises: the list and the items it
    inserts have new ids, and every item points to the new list and to an
    ingredient on file or to none. *)
Theorem generate_shopping_list_keeps_constraints (w : World) (user_id meal_plan_id : UUID) :
  world_ok w ->
  ok_after (generate_shopping_list_from_meal_plan user_id meal_plan_id w).
Proof.
  intros Hw. apply (generate_shopping_list_keeps user_id meal_plan_id w Hw).
Qed.

Lemma generate_shopping_list_keeps_constraints_witness :
  ok_after (generate_shopping_list_from_meal_plan 1 70 plan_world).
Proof.
  apply (generate_shopping_list_keeps_constraints plan_world).
  split; vm_compute; reflexivity.
Defined.

(** X17. [find_or_create_ingredient] keeps the declared constraints also
    when other sessions commit ingredients between its lookup and its
    insert: if the databases with those rows added satisfy the constraints,
    so do the databases the call leaves, whether it inserted, found, or
    rolled back.  The catalog never holds two entries with one name. *)
Theorem find_or_create_ingredient_keeps_constraints (w : World)
    (others : list Ingredient.t) (ingredient_name : string) :
  world_ok w -> world_ok (with_others others w) ->
  ok_after (find_or_create_ingredient others ingredient_name w).
Proof.
  intros Hw Ho.
  apply (find_or_create_ingredient_keeps others ingredient_name w (conj Hw Ho)).
Qed.

Lemma find_or_create_ingredient_keeps_constraints_witness :
  ok_after (find_or_create_ingredient [flour] " Flour " (session empty_db [7%N])).
Proof.
  apply (find_or_create_ingredient_keeps_constraints (session empty_db [7%N]) [flour]);
    split; vm_compute; reflexivity.
Defined.

(** * More of the services: the members of a household *)

Lemma unique_by_NoDup {A : Type} (key : A -> UUID) (rows : list A) :
  unique_by uuid_eqb key rows = true -> NoDup (map key rows).
Proof.
  induction rows as [|r rows IH]; simpl; intros U; [constructor|].
  apply andb_true_iff in U. destruct U as [Hr U]. apply negb_true_iff in Hr.
  constructor; [|apply IH; exact U].
  intros Hin. apply in_map_iff in Hin. destruct Hin as [x [E Hx]].
  pose proof (existsb_false_forall _ _ Hr x Hx) as F. simpl in F.
  rewrite E, uuid_eqb_refl in F. discriminate.
Qed.

(** X18. [get_household_members] returns the ids of exactly the users that
    have a membership in the household, each of them once, and changes
    nothing. *)
Theorem get_household_members_are_the_members (w : World) (household_id : UUID) :
  db_ok (pending w) = true ->
  exists ids,
    get_household_members household_id w = Return ids w
    /\ (forall user_id, In user_id ids <-> member_of (pending w) user_id household_id)
    /\ NoDup ids.
Proof.
  intros H. eexists. split; [reflexivity|]. split.
  - intros user_id. rewrite in_map_iff. unfold member_of. split.
    + intros [m [E Hm]]. apply filter_In in Hm. destruct Hm as [Hm Hh].
      apply uuid_eqb_eq in Hh. exists m. auto.
    + intros [m [Hm [Eu Eh]]]. exists m. split; [exact Eu|].
      apply filter_In. split; [exact Hm | apply uuid_eqb_eq; exact Eh].
  - apply unique_by_NoDup. apply unique_by_sub. apply memberships_user_unique. exact H.
Qed.

Lemma get_household_members_are_the_members_witness :
  exists ids,
    get_household_members 10 (session two_households_db []) = Return ids
      (session two_households_db [])
    /\ (forall user_id, In user_id ids <-> member_of two_households_db user_id 10)
    /\ NoDup ids.
Proof.
  apply (get_household_members_are_the_members (session two_households_db []) 10).
  vm_compute. reflexivity.
Defined.

(** * The household endpoints *)

Lemma join_household_unknown_code (w : World) (user_id : UUID) (invite_code : string) :
  held (pending w) invite_code = false ->
  join_household user_id invite_code w = Return None w.
Proof.
  intros Hf. unfold join_household.
  erewrite bind_run by (apply get_household_by_invite_code_free; exact Hf).
  reflexivity.
Qed.

(** X19. The join endpoint never answers 404.  It returns the membership
    that [join_household] returned, and answers 400 in every other case:
    the 404 that the handler raises for an unknown invite code is raised
    inside the [try] block and caught by its [except Exception] clause, so
    an unknown code is answered with 400 and the printed 404 as detail, and
    the state stays as it was. *)
Theorem join_endpoint_never_answers_404 (py_str : Raised -> string) (current_user : User.t)
    (invite_code : string) (w : World) :
  match households.join_household py_str current_user invite_code w with
  | Returned membership w' =>
      join_household (User.id current_user) invite_code w = Return (Some membership) w'
  | Failed (HTTPException status_code _) _ => status_code = 400
  | Failed (ServiceError _) _ => False
  end
  /\ (held (pending w) invite_code = false ->
      households.join_household py_str current_user invite_code w
      = Failed (HTTPException 400
                  (String.append "Failed to join household: "
                     (py_str (HTTPException 404 "Invalid invite code")))) w).
Proof.
  unfold households.join_household, try_except_http, and_then, await,
    HouseholdService.join_household.
  split.
  - destruct (join_household (User.id current_user) invite_code w) as [[m|] w'|e w'];
      simpl; try reflexivity.
    destruct e; reflexivity.
  - intros Hf. rewrite (join_household_unknown_code w _ _ Hf). reflexivity.
Qed.

Lemma join_endpoint_never_answers_404_witness :
  households.join_household (fun _ => "404: Invalid invite code"%string) (User.mk 3 None)
    "NOSUCHCODE" join_world
  = Failed (HTTPException 400 "Failed to join household: 404: Invalid invite code") join_world.
Proof.
  apply (join_endpoint_never_answers_404 (fun _ => "404: Invalid invite code"%string)
           (User.mk 3 None) "NOSUCHCODE" join_world).
  vm_compute. reflexivity.
Defined.

Lemma membership_of_user_row (d : DB) (m x : HouseholdMembership.t) :
  db_ok d = true -> In m (household_memberships d) -> In x (household_memberships d) ->
  HouseholdMembership.user_id x = HouseholdMembership.user_id m -> x = m.
Proof.
  intros H Hm Hx Hu.
  pose proof (unique_by_filter_In HouseholdMembership.user_id _ m
                (memberships_user_unique d H) Hm) as F.
  assert (Hin : In x (filter (fun r => uuid_eqb (HouseholdMembership.user_id r)
                                         (HouseholdMembership.user_id m))
                        (household_memberships d)))
    by (apply filter_In; split; [exact Hx | apply uuid_eqb_eq; exact Hu]).
  rewrite F in Hin. destruct Hin as [<- | []]. reflexivity.
Qed.

(** The test on [household.members] lets exactly the admins of the household
    through. *)
Lemma not_admin_iff (d : DB) (current_user : User.t) (h : Household.t) :
  db_ok d = true ->
  households.not_admin (households.user_membership_in current_user (members d h)) = false
  <-> admin_of d (User.id current_user) (Household.id h).
Proof.
  intros H. unfold households.not_admin, households.user_membership_in, members, admin_of.
  split.
  - destruct (find _ _) as [m|] eqn:F; [|discriminate].
    intros Hr. apply negb_false_iff in Hr. apply String.eqb_eq in Hr.
    apply find_some in F. destruct F as [Hm Hu]. apply filter_In in Hm.
    destruct Hm as [Hm Hh]. apply uuid_eqb_eq in Hu, Hh. exists m. auto.
  - intros [m [Hm [Hu [Hh Hr]]]].
    destruct (find _ _) as [x|] eqn:F.
    + apply find_some in F. destruct F as [Hx Hxu]. apply filter_In in Hx.
      destruct Hx as [Hx _]. apply uuid_eqb_eq in Hxu.
      assert (x = m) as -> by (apply (membership_of_user_row d); congruence).
      rewrite Hr. reflexivity.
    + exfalso.
      assert (Hin : In m (filter (fun m0 => uuid_eqb (HouseholdMembership.household_id m0)
                                              (Household.id h))
                            (household_memberships d)))
        by (apply filter_In; split; [exact Hm | apply uuid_eqb_eq; exact Hh]).
      pose proof (find_none _ _ F m Hin) as N. simpl in N.
      rewrite Hu, uuid_eqb_refl in N. discriminate.
Qed.

(** What the three managing endpoints do before they call their service. *)
Lemma admin_gate (w : World) (current_user : User.t) (household_id : UUID) :
  db_ok (pending w) = true ->
  (has_id Household.id (households (pending w)) household_id = false
   /\ get_household household_id w = Return None w)
  \/ exists h,
       has_id Household.id (households (pending w)) household_id = true
       /\ get_household household_id w = Return (Some h) w
       /\ (households.not_admin
             (households.user_membership_in current_user (members (pending w) h)) = false
           <-> admin_of (pending w) (User.id current_user) household_id).
Proof.
  intros H.
  destruct (has_id Household.id (households (pending w)) household_id) eqn:E.
  - right. destruct (proj1 (has_id_true _ _ _) E) as [h [Hh <-]]. exists h.
    split; [reflexivity|]. split; [apply get_household_found; assumption|].
    apply not_admin_iff. exact H.
  - left. split; [reflexivity | apply get_household_none; exact E].
Qed.

Lemma admin_of_on_file (d : DB) (user_id household_id : UUID) :
  db_ok d = true -> admin_of d user_id household_id ->
  has_id Household.id (households d) household_id = true.
Proof.
  intros H [m [Hm [_ [Hh _]]]]. subst household_id.
  apply (membership_fk d m H Hm).
Qed.

Ltac run_gate E :=
  unfold and_then at 1, await at 1, HouseholdService.get_household; rewrite E;
  cbv beta iota; unfold and_then at 1, await at 1, read; cbv beta iota.

(** X20. The endpoints that manage a household reach their service only
    for an admin of that household.  For an unknown household the three
    handlers answer 404, for a current user who is not an admin of the
    household they answer 403, and in both cases nothing changes.  For an
    admin, the update endpoint and the role endpoint pass on what
    [update_household] and [update_member_role] do; the remove endpoint
    refuses with 400 to remove the current user and otherwise passes on what
    [remove_member] does. *)
Theorem household_endpoints_admin_only (w : World) (current_user : User.t)
    (household_id user_id : UUID) (role : string) (household_data : HouseholdUpdate) :
  db_ok (pending w) = true ->
  (has_id Household.id (households (pending w)) household_id = false ->
   households.update_household current_user household_id household_data w
   = Failed (HTTPException 404 "Household not found") w
   /\ households.update_member_role current_user household_id user_id role w
      = Failed (HTTPException 404 "Household not found") w
   /\ households.remove_member current_user household_id user_id w
      = Failed (HTTPException 404 "Household not found") w)
  /\ (has_id Household.id (households (pending w)) household_id = true ->
      ~ admin_of (pending w) (User.id current_user) household_id ->
      households.update_household current_user household_id household_data w
      = Failed (HTTPException 403 "Only household admins can update household details") w
      /\ households.update_member_role current_user household_id user_id role w
         = Failed (HTTPException 403 "Only household admins can update member roles") w
      /\ households.remove_member current_user household_id user_id w
         = Failed (HTTPException 403 "Only household admins can remove members") w)
  /\ (admin_of (pending w) (User.id current_user) household_id ->
      households.update_household current_user household_id household_data w
      = passed_on (update_household household_id household_data w) Returned
      /\ households.update_member_role current_user household_id user_id role w
         = passed_on (update_member_role household_id user_id role w)
             (fun updated_membership w' =>
                match updated_membership with
                | Some updated_membership => Returned updated_membership w'
                | None => Failed (HTTPException 404 "Member not found in household") w'
                end)
      /\ (user_id = User.id current_user ->
          households.remove_member current_user household_id user_id w
          = Failed (HTTPException 400
                      "Cannot remove yourself from household. Use leave endpoint instead.") w)
      /\ (user_id <> User.id current_user ->
          households.remove_member current_user household_id user_id w
          = passed_on (remove_member household_id user_id w)
              (fun success w' =>
                 if (success : bool)
                 then Returned (APIResponse.mk true "Member removed from household") w'
                 else Failed (HTTPException 404 "Member not found in household") w'))).
Proof.
  intros H.
  destruct (admin_gate w current_user household_id H) as [[Hn E] | [h [Hh [E Hadm]]]].
  - split; [|split].
    + intros _. unfold households.update_household, households.update_member_role,
        households.remove_member.
      repeat split; unfold and_then at 1, await at 1, HouseholdService.get_household;
        rewrite E; reflexivity.
    + intros Ht. rewrite Hn in Ht. discriminate.
    + intros Ha. apply (admin_of_on_file _ _ _ H) in Ha. rewrite Hn in Ha. discriminate.
  - split; [|split].
    + intros Hn. rewrite Hn in Hh. discriminate.
    + intros _ Hna.
      assert (Hb : households.not_admin
                     (households.user_membership_in current_user (members (pending w) h))
                   = true).
      { destruct (households.not_admin _) eqn:B; [reflexivity|].
        exfalso. apply Hna. apply Hadm. reflexivity. }
      unfold households.update_household, households.update_member_role,
        households.remove_member.
      repeat split; run_gate E; rewrite Hb; reflexivity.
    + intros Ha. apply Hadm in Ha.
      unfold households.update_household, households.update_member_role,
        households.remove_member.
      split; [|split; [|split]].
      * run_gate E. rewrite Ha. cbv iota.
        unfold await, HouseholdService.update_household, passed_on.
        destruct (update_household household_id household_data w); reflexivity.
      * run_gate E. rewrite Ha. cbv iota.
        unfold and_then, await, HouseholdService.update_member_role, passed_on.
        destruct (update_member_role household_id user_id role w) as [[m|] w'|e w'];
          reflexivity.
      * intros ->. run_gate E. rewrite Ha. cbv iota. rewrite uuid_eqb_refl. reflexivity.
      * intros Hne. run_gate E. rewrite Ha. cbv iota.
        apply uuid_eqb_neq in Hne. rewrite Hne.
        unfold and_then, await, HouseholdService.remove_member, passed_on.
        destruct (remove_member household_id user_id w) as [[|] w'|e w']; reflexivity.
Qed.

Lemma household_endpoints_admin_only_witness :
  households.remove_member (User.mk 2 (Some 10%N)) 10 1 (session two_households_db [])
  = Failed (HTTPException 403 "Only household admins can remove members")
      (session two_households_db []).
Proof.
  destruct (household_endpoints_admin_only (session two_households_db [])
              (User.mk 2 (Some 10%N)) 10 1 "member" None) as [_ [Hf _]].
  - vm_compute. reflexivity.
  - destruct Hf as [_ [_ Hr]].
    + vm_compute. reflexivity.
    + intros [m [Hm [Hu [Hh Hr]]]]. simpl in Hm.
      destruct Hm as [<- | [<- | []]]; discriminate.
    + exact Hr.
Defined.

(** Without an admin the three managing endpoints answer 403 to everyone. *)
Lemma household_endpoints_forbidden (w : World) (current_user : User.t)
    (household_id user_id : UUID) (role : string) (household_data : HouseholdUpdate) :
  db_ok (pending w) = true ->
  has_id Household.id (households (pending w)) household_id = true ->
  ~ admin_of (pending w) (User.id current_user) household_id ->
  households.update_household current_user household_id household_data w
  = Failed (HTTPException 403 "Only household admins can update household details") w
  /\ households.update_member_role current_user household_id user_id role w
     = Failed (HTTPException 403 "Only household admins can update member roles") w
  /\ households.remove_member current_user household_id user_id w
     = Failed (HTTPException 403 "Only household admins can remove members") w.
Proof.
  intros H Ht Hna.
  destruct (admin_gate w current_user household_id H) as [[Hn E] | [h [Hh [E Hadm]]]].
  - rewrite Hn in Ht. discriminate.
  - assert (Hb : households.not_admin
                   (households.user_membership_in current_user (members (pending w) h))
                 = true).
    { destruct (households.not_admin _) eqn:B; [reflexivity|].
      exfalso. apply Hna. apply Hadm. reflexivity. }
    unfold households.update_household, households.update_member_role,
      households.remove_member.
    repeat split; run_gate E; rewrite Hb; reflexivity.
Qed.

(** X21. An admin can lock a household.  The role endpoint lets the only
    admin of a household set the own role to member; the call succeeds, and
    from then on the update endpoint, the role endpoint and the remove
    endpoint of this household answer 403 to every user and every request,
    so nobody can be made admin again or be removed through the API. *)
Theorem sole_admin_can_lock_household (w : World) (current_user : User.t)
    (m : HouseholdMembership.t) :
  db_ok (pending w) = true ->
  In m (household_memberships (pending w)) ->
  HouseholdMembership.user_id m = User.id current_user ->
  HouseholdMembership.role m = "admin"%string ->
  (forall x, In x (household_memberships (pending w)) ->
             HouseholdMembership.household_id x = HouseholdMembership.household_id m ->
             HouseholdMembership.role x = "admin"%string -> x = m) ->
  exists w',
    households.update_member_role current_user (HouseholdMembership.household_id m)
      (User.id current_user) "member" w
    = Returned (HouseholdMembership.mk (HouseholdMembership.id m)
                  (HouseholdMembership.household_id m) (User.id current_user) "member") w'
    /\ forall (anyone : User.t) (user_id : UUID) (role : string)
              (household_data : HouseholdUpdate),
         households.update_household anyone (HouseholdMembership.household_id m)
           household_data w'
         = Failed (HTTPException 403 "Only household admins can update household details") w'
         /\ households.update_member_role anyone (HouseholdMembership.household_id m)
              user_id role w'
            = Failed (HTTPException 403 "Only household admins can update member roles") w'
         /\ households.remove_member anyone (HouseholdMembership.household_id m) user_id w'
            = Failed (HTTPException 403 "Only household admins can remove members") w'.
Proof.
  intros H Hm Hu Hr Honly.
  destruct (update_member_role_run w m "member" H Hm) as [Hok _].
  assert (Hrun := Hok (orb_true_r _)). clear Hok.
  destruct (admin_gate w current_user (HouseholdMembership.household_id m) H)
    as [[Hn _] | [h [Hh [E Hadm]]]].
  { destruct (membership_fk (pending w) m H Hm) as [Hfk _]. rewrite Hn in Hfk.
    discriminate. }
  assert (Ha : admin_of (pending w) (User.id current_user)
                 (HouseholdMembership.household_id m))
    by (exists m; auto).
  apply Hadm in Ha.
  eexists. split.
  - unfold households.update_member_role. run_gate E. rewrite Ha. cbv iota.
    unfold and_then, await, HouseholdService.update_member_role.
    rewrite <- Hu, Hrun. reflexivity.
  - intros anyone user_id role household_data.
    apply household_endpoints_forbidden; simpl.
    + apply update_memberships_ok; [exact H | | |]; intros x;
        destruct (uuid_eqb (HouseholdMembership.id x) (HouseholdMembership.id m));
        reflexivity.
    + exact Hh.
    + intros [x [Hx [_ [Hxh Hxr]]]]. unfold with_role in Hx. apply in_map_iff in Hx.
      destruct Hx as [x0 [Ex Hx0]].
      destruct (uuid_eqb (HouseholdMembership.id x0) (HouseholdMembership.id m)) eqn:Eid.
      * subst x. simpl in Hxr. discriminate.
      * subst x. rewrite (Honly x0 Hx0 Hxh Hxr) in Eid.
        rewrite uuid_eqb_refl in Eid. discriminate.
Qed.

Lemma sole_admin_can_lock_household_witness :
  exists w',
    households.update_member_role (User.mk 1 (Some 10%N)) 10 1 "member"
      (session shared_db [])
    = Returned (HouseholdMembership.mk 20 10 1 "member") w'
    /\ households.update_member_role (User.mk 2 (Some 10%N)) 10 1 "admin" w'
       = Failed (HTTPException 403 "Only household admins can update member roles") w'.
Proof.
  destruct (sole_admin_can_lock_household (session shared_db []) (User.mk 1 (Some 10%N))
              (HouseholdMembership.mk 20 10 1 "admin")) as [w' [E Hall]].
  - vm_compute. reflexivity.
  - left. reflexivity.
  - reflexivity.
  - reflexivity.
  - intros x Hx _ Hr. simpl in Hx. destruct Hx as [<- | [<- | []]];
      [reflexivity | discriminate].
  - exists w'. split; [exact E|].
    apply (Hall (User.mk 2 (Some 10%N)) 1%N "admin"%string None).
Defined.

(** The household of a user, as [get_user_household] finds it. *)
Lemma user_household_decided (w : World) (user_id : UUID) :
  db_ok (pending w) = true ->
  ((forall household_id, ~ member_of (pending w) user_id household_id)
   /\ get_user_household user_id w = Return None w)
  \/ exists h,
       In h (households (pending w))
       /\ (forall household_id,
             member_of (pending w) user_id household_id <-> household_id = Household.id h)
       /\ get_user_household user_id w = Return (Some h) w.
Proof.
  intros H.
  destruct (user_household_lookup w user_id H) as [[Em Eq] | [m [h [Em [Hh [Eid Eq]]]]]].
  - left. split; [|exact Eq]. intros hid Hm. apply member_of_rows in Hm.
    destruct Hm as [m [Hm _]]. rewrite Em in Hm. contradiction.
  - right. exists h. split; [exact Hh|]. split; [|exact Eq].
    intros hid. rewrite member_of_rows, Em. split.
    + intros [m' [[<- | []] E']]. congruence.
    + intros ->. exists m. split; [left; reflexivity | auto].
Qed.

(** X22. The endpoints that read a household.  [GET /households/current]
    answers 404 to a user without a membership and otherwise returns the
    household of the user's membership.  [GET /households/{id}] answers 404
    for an unknown household, returns the household to its members, and
    answers 403 to everyone else.  Neither changes anything. *)
Theorem household_read_endpoints (w : World) (current_user : User.t) (household_id : UUID) :
  db_ok (pending w) = true ->
  ((forall h, ~ member_of (pending w) (User.id current_user) h) ->
   households.get_current_household current_user w
   = Failed (HTTPException 404 "User is not in a household") w)
  /\ (member_of (pending w) (User.id current_user) household_id ->
      exists h, In h (households (pending w)) /\ Household.id h = household_id
                /\ households.get_current_household current_user w = Returned h w
                /\ households.get_household current_user household_id w = Returned h w)
  /\ (has_id Household.id (households (pending w)) household_id = false ->
      households.get_household current_user household_id w
      = Failed (HTTPException 404 "Household not found") w)
  /\ (has_id Household.id (households (pending w)) household_id = true ->
      ~ member_of (pending w) (User.id current_user) household_id ->
      households.get_household current_user household_id w
      = Failed (HTTPException 403 "Not authorized to access this household") w).
Proof.
  intros H.
  unfold households.get_current_household, households.get_household.
  destruct (user_household_decided w (User.id current_user) H)
    as [[Hno Eq] | [h [Hh [Hmem Eq]]]].
  - split; [|split; [|split]].
    + intros _. unfold and_then, await, HouseholdService.get_user_household.
      rewrite Eq. reflexivity.
    + intros Hm. exfalso. exact (Hno _ Hm).
    + intros Hn. unfold and_then at 1, await at 1, HouseholdService.get_household.
      rewrite (get_household_none w household_id Hn). reflexivity.
    + intros Ht _. apply has_id_true in Ht. destruct Ht as [h [Hh <-]].
      unfold and_then at 1, await at 1, HouseholdService.get_household.
      rewrite (get_household_found w h H Hh). cbv beta iota.
      unfold and_then, await, HouseholdService.get_user_household. rewrite Eq.
      reflexivity.
  - split; [|split; [|split]].
    + intros Hno. exfalso. apply (Hno (Household.id h)). apply Hmem. reflexivity.
    + intros Hm. apply Hmem in Hm. subst household_id. exists h.
      split; [exact Hh|]. split; [reflexivity|]. split.
      * unfold and_then, await, HouseholdService.get_user_household.
        rewrite Eq. reflexivity.
      * unfold and_then at 1, await at 1, HouseholdService.get_household.
        rewrite (get_household_found w h H Hh). cbv beta iota.
        unfold and_then, await, HouseholdService.get_user_household. rewrite Eq.
        rewrite uuid_eqb_refl. reflexivity.
    + intros Hn. unfold and_then at 1, await at 1, HouseholdService.get_household.
      rewrite (get_household_none w household_id Hn). reflexivity.
    + intros Ht Hnm. apply has_id_true in Ht. destruct Ht as [h' [Hh' <-]].
      unfold and_then at 1, await at 1, HouseholdService.get_household.
      rewrite (get_household_found w h' H Hh'). cbv beta iota.
      unfold and_then, await, HouseholdService.get_user_household. rewrite Eq.
      destruct (uuid_eqb (Household.id h) (Household.id h')) eqn:E; [|reflexivity].
      exfalso. apply Hnm. apply Hmem. apply uuid_eqb_eq in E. congruence.
Qed.

Lemma household_read_endpoints_witness :
  households.get_household (User.mk 2 (Some 10%N)) 11 (session two_households_db [])
  = Failed (HTTPException 403 "Not authorized to access this household")
      (session two_households_db []).
Proof.
  destruct (household_read_endpoints (session two_households_db [])
              (User.mk 2 (Some 10%N)) 11) as [_ [_ [_ Hf]]].
  - vm_compute. reflexivity.
  - apply Hf.
    + vm_compute. reflexivity.
    + intros [m [Hm [Hu Hh]]]. simpl in Hm.
      destruct Hm as [<- | [<- | []]]; discriminate.
Defined.

(** * Reading and listing recipes *)

(** The access check answers, and it answers true exactly for a user who
    may read the recipe. *)
Lemma can_user_access_recipe_decided (w : World) (recipe_id user_id : UUID) :
  db_ok (pending w) = true ->
  exists b,
    can_user_access_recipe recipe_id user_id w = Return b w
    /\ (b = true <-> may_read (pending w) user_id recipe_id).
Proof.
  intros H. unfold may_read.
  destruct (owner_lookup w recipe_id user_id H) as [owner [E Hown]].
  unfold can_user_access_recipe. unfold bind at 1. unfold select at 1, read. simpl.
  unfold bind at 1. rewrite E.
  destruct (py_eq uuid_eqb owner (Some user_id)) eqn:Eo.
  - exists true. split; [reflexivity|]. split; auto. intros _. left. apply Hown. reflexivity.
  - assert (Hno : ~ owns (pending w) user_id recipe_id)
      by (intros Ho; apply Hown in Ho; discriminate).
    unfold bind at 1.
    destruct (user_household_decided w user_id H) as [[Hnm Eq] | [h [Hh [Hmem Eq]]]];
      rewrite Eq.
    + exists false. split; [reflexivity|]. split; [discriminate|].
      intros [Ho | [hid [Hm _]]]; [contradiction | exfalso; exact (Hnm hid Hm)].
    + unfold bind at 1. rewrite select_grants. unfold bind at 1.
      destruct (grant_rows (pending w) recipe_id (Household.id h) H) as [Eg | [a Eg]];
        rewrite Eg; simpl.
      * exists false. split; [reflexivity|]. split; [discriminate|].
        intros [Ho | [hid [Hm Hg]]]; [contradiction|].
        apply Hmem in Hm. subst hid. apply granted_rows in Hg. contradiction.
      * exists true. split; [reflexivity|]. split; auto. intros _. right.
        exists (Household.id h). split; [apply Hmem; reflexivity|].
        apply granted_rows. rewrite Eg. discriminate.
Qed.

Lemma recipes_id_unique (d : DB) :
  db_ok d = true -> unique_by uuid_eqb Recipe.id (recipes d) = true.
Proof. intros H. ok_parts H. assumption. Qed.

Lemma get_recipe_found (w : World) (r : Recipe.t) :
  db_ok (pending w) = true -> In r (recipes (pending w)) ->
  get_recipe (Recipe.id r) w = Return (Some r) w.
Proof.
  intros H Hr. unfold get_recipe, select, read, bind.
  rewrite (unique_by_filter_In Recipe.id _ r (recipes_id_unique _ H) Hr). reflexivity.
Qed.

Lemma get_recipe_none (w : World) (recipe_id : UUID) :
  has_id Recipe.id (recipes (pending w)) recipe_id = false ->
  get_recipe recipe_id w = Return None w.
Proof.
  intros Hn. unfold get_recipe, select, read, bind.
  unfold has_id in Hn. apply existsb_filter_nil in Hn. rewrite Hn. reflexivity.
Qed.

(** X23. [GET /recipes/{id}] answers 404 for an unknown recipe, returns the
    recipe to its owner and to the members of a household that holds a
    grant for it, and answers 403 to every other user; it changes nothing. *)
Theorem recipe_read_endpoint (w : World) (current_user : User.t) (recipe_id : UUID) :
  db_ok (pending w) = true ->
  (has_id Recipe.id (recipes (pending w)) recipe_id = false ->
   recipes_router.get_recipe current_user recipe_id w
   = Failed (HTTPException 404 "Recipe not found") w)
  /\ (forall r,
        In r (recipes (pending w)) -> Recipe.id r = recipe_id ->
        (may_read (pending w) (User.id current_user) recipe_id ->
         recipes_router.get_recipe current_user recipe_id w = Returned r w)
        /\ (~ may_read (pending w) (User.id current_user) recipe_id ->
            recipes_router.get_recipe current_user recipe_id w
            = Failed (HTTPException 403 "Not authorized to access this recipe") w)).
Proof.
  intros H. unfold recipes_router.get_recipe. split.
  - intros Hn. unfold and_then, await, RecipeService.get_recipe.
    rewrite (get_recipe_none w recipe_id Hn). reflexivity.
  - intros r Hr <-.
    destruct (can_user_access_recipe_decided w (Recipe.id r) (User.id current_user) H)
      as [b [E Hb]].
    assert (Hrun : and_then (await (RecipeService.get_recipe (Recipe.id r)))
                     (fun recipe =>
                        match recipe with
                        | None => raise_http status.HTTP_404_NOT_FOUND "Recipe not found"
                        | Some recipe =>
                            and_then
                              (await (RecipeService.can_user_access_recipe (Recipe.id r)
                                        (User.id current_user)))
                              (fun can_access =>
                                 if negb can_access
                                 then raise_http status.HTTP_403_FORBIDDEN
                                        "Not authorized to access this recipe"
                                 else respond recipe)
                        end) w
                   = if negb b
                     then Failed (HTTPException 403 "Not authorized to access this recipe") w
                     else Returned r w).
    { unfold and_then at 1, await at 1, RecipeService.get_recipe.
      rewrite (get_recipe_found w r H Hr). cbv beta iota.
      unfold and_then, await, RecipeService.can_user_access_recipe. rewrite E.
      destruct b; reflexivity. }
    rewrite Hrun. split.
    + intros Hm. apply Hb in Hm. subst b. reflexivity.
    + intros Hn. destruct b; [|reflexivity]. exfalso. apply Hn. apply Hb. reflexivity.
Qed.

Lemma recipe_read_endpoint_witness :
  recipes_router.get_recipe (User.mk 2 (Some 10%N)) 104 (session listing_db [])
  = Failed (HTTPException 403 "Not authorized to access this recipe") (session listing_db []).
Proof.
  destruct (recipe_read_endpoint (session listing_db []) (User.mk 2 (Some 10%N)) 104)
    as [_ Hr].
  - vm_compute. reflexivity.
  - destruct (Hr (Recipe.mk 104 1 (Some false))) as [_ Hf].
    + right. left. reflexivity.
    + reflexivity.
    + apply Hf. intros [[r [Hin [Hid Hu]]] | [h [_ [a [Ha [Hrid _]]]]]].
      * simpl in Hin. destruct Hin as [<- | [<- | []]]; discriminate.
      * simpl in Ha. destruct Ha as [<- | []]. discriminate.
Defined.

Lemma limit_offset_In {A : Type} (limit offset : nat) (rows : list A) (x : A) :
  In x (limit_offset limit offset rows) -> In x rows.
Proof.
  unfold limit_offset. intros Hx.
  assert (Hs : In x (skipn offset rows)).
  { revert Hx. generalize (skipn offset rows) as l. induction limit as [|n IH];
      intros l Hx; simpl in Hx; [contradiction|].
    destruct l as [|y l]; [contradiction|]. destruct Hx as [<- | Hx];
      [left; reflexivity | right; apply IH; exact Hx]. }
  clear Hx. revert rows Hs. induction offset as [|n IH]; intros rows Hs; simpl in Hs;
    [exact Hs|].
  destruct rows as [|y rows]; [contradiction|]. right. apply IH. exact Hs.
Qed.

(** A row of the join: a recipe on file, a grant for it, and a membership in
    the household of the grant. *)
Lemma joined_row (d : DB)
    (row : Recipe.t * option RecipeHouseholdAccess.t * HouseholdMembership.t) :
  In row (join_memberships d (outerjoin_access d)) ->
  In (fst (fst row)) (recipes d)
  /\ In (snd row) (household_memberships d)
  /\ exists a,
       In a (recipe_household_access d)
       /\ RecipeHouseholdAccess.recipe_id a = Recipe.id (fst (fst row))
       /\ RecipeHouseholdAccess.household_id a = HouseholdMembership.household_id (snd row).
Proof.
  unfold join_memberships, outerjoin_access. intros Hrow.
  apply in_flat_map in Hrow. destruct Hrow as [[r oa] [Hra Hrow]].
  apply in_map_iff in Hrow. destruct Hrow as [m [<- Hm]].
  apply filter_In in Hm. destruct Hm as [Hm Hjoin]. simpl in *.
  apply in_flat_map in Hra. destruct Hra as [r0 [Hr0 Hra]].
  destruct (filter _ (recipe_household_access d)) as [|a0 rest] eqn:F.
  - destruct Hra as [E | []]. inversion E; subst. simpl in Hjoin. discriminate.
  - change (In (r, oa) (map (fun a => (r0, Some a)) (a0 :: rest))) in Hra.
    apply in_map_iff in Hra. destruct Hra as [a [E Ha]]. inversion E; subst r oa.
    rewrite <- F in Ha. apply filter_In in Ha. destruct Ha as [Ha Hid].
    apply uuid_eqb_eq in Hid. simpl in Hjoin. apply uuid_eqb_eq in Hjoin.
    split; [exact Hr0|]. split; [exact Hm|]. exists a. auto.
Qed.

(** What the listing returns for a user with a household. *)
Lemma get_accessible_recipes_run (order : list Recipe.t -> list Recipe.t) (w : World)
    (user_id household_id : UUID) (limit offset : nat) :
  db_ok (pending w) = true ->
  member_of (pending w) user_id household_id ->
  get_accessible_recipes order user_id limit offset w
  = Return
      (map (fun recipe =>
              if uuid_eqb (Recipe.user_id recipe) user_id
              then AccessibleRecipe.mk recipe true "owner"
              else AccessibleRecipe.mk recipe false "household_shared")
         (limit_offset limit offset
            (order
               (map (fun row => fst (fst row))
                  (filter (fun row =>
                             uuid_eqb (Recipe.user_id (fst (fst row))) user_id
                             || uuid_eqb (HouseholdMembership.user_id (snd row)) user_id)
                     (join_memberships (pending w) (outerjoin_access (pending w))))))))
      w.
Proof.
  intros H Hm. unfold get_accessible_recipes.
  destruct (user_household_decided w user_id H) as [[Hno _] | [h [_ [_ Eq]]]].
  - exfalso. exact (Hno _ Hm).
  - erewrite bind_run by exact Eq. reflexivity.
Qed.

(** X24. Every entry that [get_accessible_recipes] lists is a recipe on
    file that the user owns or that is granted to a household of the user;
    it is marked as editable and as "owner" exactly when the user owns it.
    A user without a household gets own recipes only.  The call changes
    nothing. *)
Theorem get_accessible_recipes_sound (order : list Recipe.t -> list Recipe.t) (w : World)
    (user_id : UUID) (limit offset : nat) :
  (forall l x, In x (order l) -> In x l) ->
  db_ok (pending w) = true ->
  exists l,
    get_accessible_recipes order user_id limit offset w = Return l w
    /\ forall item,
         In item l ->
         In (AccessibleRecipe.recipe item) (recipes (pending w))
         /\ may_read (pending w) user_id (Recipe.id (AccessibleRecipe.recipe item))
         /\ ((forall h, ~ member_of (pending w) user_id h) ->
             Recipe.user_id (AccessibleRecipe.recipe item) = user_id)
         /\ (Recipe.user_id (AccessibleRecipe.recipe item) = user_id ->
             AccessibleRecipe.can_edit item = true
             /\ AccessibleRecipe.access_type item = "owner"%string)
         /\ (Recipe.user_id (AccessibleRecipe.recipe item) <> user_id ->
             AccessibleRecipe.can_edit item = false
             /\ AccessibleRecipe.access_type item = "household_shared"%string).
Proof.
  intros Hord H.
  destruct (user_household_decided w user_id H) as [[Hno Eq] | [h [_ [Hmem Eq]]]].
  - unfold get_accessible_recipes. erewrite bind_run by exact Eq. cbv beta iota.
    unfold get_user_recipes, bind, select, read, ret. eexists. split; [reflexivity|].
    intros item Hitem. apply in_map_iff in Hitem. destruct Hitem as [r [<- Hr]].
    apply limit_offset_In, Hord, filter_In in Hr. destruct Hr as [Hr Hu].
    apply uuid_eqb_eq in Hu. simpl.
    split; [exact Hr|]. split; [left; exists r; auto|].
    split; [auto|]. split; [auto | contradiction].
  - rewrite (get_accessible_recipes_run order w user_id (Household.id h) limit offset H)
      by (apply Hmem; reflexivity).
    eexists. split; [reflexivity|].
    intros item Hitem. apply in_map_iff in Hitem. destruct Hitem as [r [Eitem Hr]].
    apply limit_offset_In, Hord, in_map_iff in Hr. destruct Hr as [row [<- Hrow]].
    apply filter_In in Hrow. destruct Hrow as [Hrow Hwhere].
    destruct (joined_row (pending w) row Hrow) as [Hrec [Hms [a [Ha [Hrid Hhid]]]]].
    assert (Er : AccessibleRecipe.recipe item = fst (fst row))
      by (subst item; destruct (uuid_eqb _ user_id); reflexivity).
    rewrite Er. split; [exact Hrec|]. split.
    + destruct (uuid_eqb (Recipe.user_id (fst (fst row))) user_id) eqn:Eo.
      * left. exists (fst (fst row)). apply uuid_eqb_eq in Eo. auto.
      * right. simpl in Hwhere. apply uuid_eqb_eq in Hwhere.
        exists (HouseholdMembership.household_id (snd row)). split.
        -- exists (snd row). auto.
        -- exists a. auto.
    + split.
      * intros Hno. exfalso. apply (Hno (Household.id h)). apply Hmem. reflexivity.
      * subst item. split; intros Hu.
        -- apply uuid_eqb_eq in Hu. rewrite Hu. split; reflexivity.
        -- apply uuid_eqb_neq in Hu. rewrite Hu. split; reflexivity.
Qed.

Lemma get_accessible_recipes_sound_witness :
  exists l,
    get_accessible_recipes (fun rows => rows) 2 50 0 (session listing_db [])
    = Return l (session listing_db [])
    /\ forall item,
         In item l ->
         In (AccessibleRecipe.recipe item) (recipes listing_db)
         /\ may_read listing_db 2 (Recipe.id (AccessibleRecipe.recipe item)).
Proof.
  destruct (get_accessible_recipes_sound (fun rows => rows) (session listing_db []) 2 50 0)
    as [l [E Hl]].
  - intros l x Hx. exact Hx.
  - vm_compute. reflexivity.
  - exists l. split; [exact E|]. intros item Hitem.
    destruct (Hl item Hitem) as [Hr [Hm _]]. split; assumption.
Defined.

(** X25. Once the user belongs to a household, [get_accessible_recipes]
    lists granted recipes only: a recipe that no household holds a grant
    for is left out of the listing of its own owner, for every limit and
    offset, although the access check lets the owner read it. *)
Theorem get_accessible_recipes_misses_ungranted (order : list Recipe.t -> list Recipe.t)
    (w : World) (user_id recipe_id household_id : UUID) (limit offset : nat) :
  (forall l x, In x (order l) -> In x l) ->
  db_ok (pending w) = true ->
  owns (pending w) user_id recipe_id ->
  member_of (pending w) user_id household_id ->
  (forall h, ~ granted (pending w) recipe_id h) ->
  exists l,
    get_accessible_recipes order user_id limit offset w = Return l w
    /\ (forall item, In item l -> Recipe.id (AccessibleRecipe.recipe item) <> recipe_id)
    /\ can_user_access_recipe recipe_id user_id w = Return true w.
Proof.
  intros Hord H Ho Hm Hng.
  rewrite (get_accessible_recipes_run order w user_id household_id limit offset H Hm).
  eexists. split; [reflexivity|]. split.
  - intros item Hitem Eid. apply in_map_iff in Hitem. destruct Hitem as [r [Eitem Hr]].
    apply limit_offset_In, Hord, in_map_iff in Hr. destruct Hr as [row [<- Hrow]].
    apply filter_In in Hrow. destruct Hrow as [Hrow _].
    destruct (joined_row (pending w) row Hrow) as [_ [_ [a [Ha [Hrid Hhid]]]]].
    assert (Er : AccessibleRecipe.recipe item = fst (fst row))
      by (subst item; destruct (uuid_eqb _ user_id); reflexivity).
    rewrite Er in Eid. apply (Hng (RecipeHouseholdAccess.household_id a)).
    exists a. split; [exact Ha|]. split; [congruence | reflexivity].
  - destruct (can_user_access_recipe_decided w recipe_id user_id H) as [b [E Hb]].
    rewrite E. f_equal. apply Hb. left. exact Ho.
Qed.

Lemma get_accessible_recipes_misses_ungranted_witness :
  exists l,
    get_accessible_recipes (fun rows => rows) 1 50 0 (session listing_db [])
    = Return l (session listing_db [])
    /\ (forall item, In item l -> Recipe.id (AccessibleRecipe.recipe item) <> 104%N)
    /\ can_user_access_recipe 104 1 (session listing_db []) = Return true (session listing_db []).
Proof.
  apply (get_accessible_recipes_misses_ungranted (fun rows => rows) (session listing_db [])
           1 104 10 50 0).
  - intros l x Hx. exact Hx.
  - vm_compute. reflexivity.
  - exists (Recipe.mk 104 1 (Some false)). split; [right; left; reflexivity|].
    split; reflexivity.
  - exists (HouseholdMembership.mk 20 10 1 "admin"). split; [left; reflexivity|].
    split; reflexivity.
  - intros h [a [Ha [Hr _]]]. simpl in Ha. destruct Ha as [<- | []]. discriminate.
Defined.

Lemma filter_length_permutation {A : Type} (p : A -> bool) (l l' : list A) :
  Permutation l l' -> List.length (filter p l) = List.length (filter p l').
Proof.
  induction 1 as [|x l l' _ IH|x y l|l l' l'' _ IH1 _ IH2]; simpl.
  - reflexivity.
  - destruct (p x); simpl; rewrite IH; reflexivity.
  - destruct (p x), (p y); reflexivity.
  - rewrite IH1. exact IH2.
Qed.

Lemma filter_map_length {A B : Type} (f : A -> B) (q : B -> bool) (l : list A) :
  List.length (filter q (map f l)) = List.length (filter (fun x => q (f x)) l).
Proof.
  induction l as [|x l IH]; simpl; [reflexivity|].
  destruct (q (f x)); simpl; rewrite IH; reflexivity.
Qed.

Lemma rows_for_cons (d : DB) (user_id : UUID) (x : Recipe.t) (l : list Recipe.t) :
  rows_for d user_id (x :: l) = rows_for d user_id [x] ++ rows_for d user_id l.
Proof.
  unfold rows_for, join_memberships. simpl. rewrite app_nil_r, flat_map_app, filter_app.
  reflexivity.
Qed.

Lemma rows_for_one (d : DB) (user_id : UUID) (x : Recipe.t)
    (row : Recipe.t * option RecipeHouseholdAccess.t * HouseholdMembership.t) :
  In row (rows_for d user_id [x]) -> fst (fst row) = x.
Proof.
  unfold rows_for, join_memberships. simpl. rewrite app_nil_r. intros Hrow.
  apply filter_In in Hrow. destruct Hrow as [Hrow _].
  apply in_flat_map in Hrow. destruct Hrow as [[r oa] [Hra Hrow]].
  apply in_map_iff in Hrow. destruct Hrow as [m [<- _]]. simpl.
  unfold access_rows_of in Hra.
  destruct (filter _ (recipe_household_access d)) as [|a0 rest].
  - destruct Hra as [E | []]. inversion E. reflexivity.
  - change (In (r, oa) (map (fun a => (x, Some a)) (a0 :: rest))) in Hra.
    apply in_map_iff in Hra. destruct Hra as [a [E _]]. inversion E. reflexivity.
Qed.

(** The rows of the query that show one recipe are the rows that the query
    selects among the recipes with that id. *)
Lemma rows_for_recipe (d : DB) (user_id recipe_id : UUID) (l : list Recipe.t) :
  List.length (filter (fun row => uuid_eqb (Recipe.id (fst (fst row))) recipe_id)
                 (rows_for d user_id l))
  = List.length (rows_for d user_id
                   (filter (fun x => uuid_eqb (Recipe.id x) recipe_id) l)).
Proof.
  induction l as [|x l IH]; [reflexivity|].
  rewrite rows_for_cons, filter_app, length_app, IH. simpl.
  destruct (uuid_eqb (Recipe.id x) recipe_id) eqn:E.
  - rewrite (rows_for_cons d user_id x (filter _ l)), length_app. f_equal.
    rewrite filter_all; [reflexivity|].
    intros row Hrow. rewrite (rows_for_one d user_id x row Hrow). exact E.
  - rewrite (filter_nil_forall _ (rows_for d user_id [x])); [reflexivity|].
    intros row Hrow. rewrite (rows_for_one d user_id x row Hrow). exact E.
Qed.

(** For the owner every joined row of the recipe is selected. *)
Lemma rows_for_owner (d : DB) (r : Recipe.t) :
  List.length (rows_for d (Recipe.user_id r) [r]) = List.length (reached_by d (Recipe.id r)).
Proof.
  assert (Hall : rows_for d (Recipe.user_id r) [r]
                 = join_memberships d (access_rows_of d r)).
  { unfold rows_for at 1. simpl. rewrite app_nil_r. apply filter_all.
    intros row Hrow.
    assert (Hin : In row (rows_for d (Recipe.user_id r) [r])).
    { unfold rows_for. simpl. rewrite app_nil_r. apply filter_In. split; [exact Hrow|].
      unfold join_memberships in Hrow. apply in_flat_map in Hrow.
      destruct Hrow as [[r0 oa] [Hra Hrow]]. apply in_map_iff in Hrow.
      destruct Hrow as [m [<- _]]. simpl. unfold access_rows_of in Hra.
      destruct (filter _ (recipe_household_access d)) as [|a0 rest].
      - destruct Hra as [E | []]. inversion E. rewrite uuid_eqb_refl. reflexivity.
      - change (In (r0, oa) (map (fun a => (r, Some a)) (a0 :: rest))) in Hra.
        apply in_map_iff in Hra. destruct Hra as [a [E _]]. inversion E.
        rewrite uuid_eqb_refl. reflexivity. }
    rewrite (rows_for_one d _ r row Hin), uuid_eqb_refl. reflexivity. }
  rewrite Hall. unfold reached_by, access_rows_of.
  rewrite (filter_ext (fun a => uuid_eqb (RecipeHouseholdAccess.recipe_id a) (Recipe.id r))
             (fun a => uuid_eqb (Recipe.id r) (RecipeHouseholdAccess.recipe_id a)))
    by (intros a; apply uuid_eqb_sym).
  destruct (filter _ (recipe_household_access d)) as [|a0 rest] eqn:F.
  - unfold join_memberships. simpl. rewrite app_nil_r, length_map.
    rewrite filter_nil_forall; [reflexivity | reflexivity].
  - generalize (a0 :: rest) as ms. intros ms. unfold join_memberships.
    induction ms as [|a ms IH]; [reflexivity|].
    simpl. rewrite !length_app, IH, length_map. f_equal.
    unfold memberships_of_household. f_equal. apply filter_ext. intros m.
    apply uuid_eqb_sym.
Qed.

(** X26. [get_accessible_recipes] shows an own recipe once for every grant
    of the recipe and every member of the household of that grant: the
    query joins the grants with the memberships and keeps every joined row
    of an own recipe.  With a limit that covers the rows and no offset, a
    recipe that its owner shares with a household of two is listed twice to
    the owner. *)
Theorem get_accessible_recipes_repeats_own_recipes
    (order : list Recipe.t -> list Recipe.t) (w : World) (r : Recipe.t)
    (household_id : UUID) :
  (forall l, Permutation (order l) l) ->
  db_ok (pending w) = true ->
  In r (recipes (pending w)) ->
  member_of (pending w) (Recipe.user_id r) household_id ->
  exists n,
    forall limit, n <= limit ->
      exists l,
        get_accessible_recipes order (Recipe.user_id r) limit 0 w = Return l w
        /\ times_listed (Recipe.id r) l
           = List.length (reached_by (pending w) (Recipe.id r)).
Proof.
  intros Hord H Hr Hm.
  exists (List.length (rows_for (pending w) (Recipe.user_id r) (recipes (pending w)))).
  intros limit Hlimit.
  rewrite (get_accessible_recipes_run order w (Recipe.user_id r) household_id limit 0 H Hm).
  eexists. split; [reflexivity|].
  fold (outerjoin_access (pending w)).
  change (filter _ (join_memberships (pending w) (outerjoin_access (pending w))))
    with (rows_for (pending w) (Recipe.user_id r) (recipes (pending w))).
  unfold limit_offset. simpl skipn.
  rewrite firstn_all2
    by (rewrite (Permutation_length (Hord _)), length_map; exact Hlimit).
  unfold times_listed. rewrite filter_map_length.
  rewrite (filter_ext _ (fun x => uuid_eqb (Recipe.id x) (Recipe.id r)))
    by (intros x; destruct (uuid_eqb (Recipe.user_id x) (Recipe.user_id r)); reflexivity).
  rewrite (filter_length_permutation _ _ _ (Hord _)), filter_map_length, rows_for_recipe.
  rewrite (unique_by_filter_In Recipe.id _ r (recipes_id_unique _ H) Hr).
  apply rows_for_owner.
Qed.

Lemma get_accessible_recipes_repeats_own_recipes_witness :
  exists n,
    forall limit, n <= limit ->
      exists l,
        get_accessible_recipes (fun rows => rows) 1 limit 0 (session listing_db [])
        = Return l (session listing_db [])
        /\ times_listed 100 l = 2.
Proof.
  apply (get_accessible_recipes_repeats_own_recipes (fun rows => rows)
           (session listing_db []) (Recipe.mk 100 1 (Some true)) 10).
  - intros l. apply Permutation_refl.
  - vm_compute. reflexivity.
  - left. reflexivity.
  - exists (HouseholdMembership.mk 20 10 1 "admin"). split; [left; reflexivity|].
    split; reflexivity.
Defined.

(** * Meal plans and shopping lists of a household *)

(** [get_user_household] reads the households and the memberships only. *)
Lemma get_user_household_transfer (w w' : World) (user_id : UUID)
    (r : option Household.t) :
  households (pending w') = households (pending w) ->
  household_memberships (pending w') = household_memberships (pending w) ->
  get_user_household user_id w = Return r w ->
  get_user_household user_id w' = Return r w'.
Proof.
  unfold get_user_household, read, bind. intros -> ->.
  destruct (flat_map _ _) as [|x [|y l]]; simpl; unfold ret, raise; intros E;
    inversion E; reflexivity.
Qed.

Lemma household_of_member (w0 w : World) (user_id household_id : UUID) :
  db_ok (pending w0) = true ->
  member_of (pending w0) user_id household_id ->
  households (pending w) = households (pending w0) ->
  household_memberships (pending w) = household_memberships (pending w0) ->
  exists h, Household.id h = household_id
            /\ get_user_household user_id w = Return (Some h) w.
Proof.
  intros H Hm Hh Hms.
  destruct (user_household_decided w0 user_id H) as [[Hno _] | [h [_ [Hmem Eq]]]].
  - exfalso. exact (Hno _ Hm).
  - exists h. split; [symmetry; apply Hmem; exact Hm|].
    apply (get_user_household_transfer w0 w); assumption.
Qed.

Lemma get_user_meal_plans_run (order : list MealPlan.t -> list MealPlan.t) (w0 w : World)
    (user_id household_id : UUID) :
  db_ok (pending w0) = true ->
  member_of (pending w0) user_id household_id ->
  households (pending w) = households (pending w0) ->
  household_memberships (pending w) = household_memberships (pending w0) ->
  get_user_meal_plans order user_id w
  = Return (order (filter (fun p => uuid_eqb (MealPlan.household_id p) household_id)
                     (meal_plans (pending w)))) w.
Proof.
  intros H Hm Hh Hms.
  destruct (household_of_member w0 w user_id household_id H Hm Hh Hms) as [h [<- Eq]].
  unfold get_user_meal_plans. erewrite bind_run by exact Eq. reflexivity.
Qed.

Lemma get_user_shopping_lists_run (order : list ShoppingList.t -> list ShoppingList.t)
    (w0 w : World) (user_id household_id : UUID) :
  db_ok (pending w0) = true ->
  member_of (pending w0) user_id household_id ->
  households (pending w) = households (pending w0) ->
  household_memberships (pending w) = household_memberships (pending w0) ->
  get_user_shopping_lists order user_id w
  = Return (order (filter (fun s => uuid_eqb (ShoppingList.household_id s) household_id)
                     (shopping_lists (pending w)))) w.
Proof.
  intros H Hm Hh Hms.
  destruct (household_of_member w0 w user_id household_id H Hm Hh Hms) as [h [<- Eq]].
  unfold get_user_shopping_lists. erewrite bind_run by exact Eq. reflexivity.
Qed.

(** X27. [create_meal_plan] raises the [ValueError] and changes nothing for
    a user without a household.  For a member of a household, with a new id
    to draw, it inserts and commits one plan that carries the user and the
    user's household, and from then on every member of that household finds
    the plan in [get_user_meal_plans]. *)
Theorem create_meal_plan_outcomes (w : World) (user_id : UUID) (name : option string) :
  db_ok (pending w) = true ->
  ((forall h, ~ member_of (pending w) user_id h) ->
   create_meal_plan user_id name w
   = Raise (ValueError "User must be in a household to create meal plans") w)
  /\ (forall household_id id rest,
        member_of (pending w) user_id household_id ->
        entropy w = id :: rest ->
        has_id MealPlan.id (meal_plans (pending w)) id = false ->
        exists w',
          create_meal_plan user_id name w
          = Return (MealPlan.mk id user_id household_id name) w'
          /\ pending w'
             = set_meal_plans
                 (meal_plans (pending w) ++ [MealPlan.mk id user_id household_id name])
                 (pending w)
          /\ committed w' = pending w'
          /\ forall (order : list MealPlan.t -> list MealPlan.t) (member : UUID),
               (forall l x, In x l -> In x (order l)) ->
               member_of (pending w) member household_id ->
               exists l,
                 get_user_meal_plans order member w' = Return l w'
                 /\ In (MealPlan.mk id user_id household_id name) l).
Proof.
  intros H. split.
  - intros Hno. unfold create_meal_plan.
    destruct (user_household_decided w user_id H) as [[_ Eq] | [h [_ [Hmem _]]]].
    + erewrite bind_run by exact Eq. reflexivity.
    + exfalso. apply (Hno (Household.id h)). apply Hmem. reflexivity.
  - intros household_id id rest Hm He Hpk.
    destruct (household_of_member w w user_id household_id H Hm eq_refl eq_refl)
      as [h [<- Eq]].
    assert (Hfk : meal_plan_ok (pending w) (MealPlan.mk id user_id (Household.id h) name)
                  = true).
    { destruct Hm as [m [Hin [Hu Hh]]].
      destruct (membership_fk (pending w) m H Hin) as [F1 F2].
      unfold meal_plan_ok. simpl. rewrite <- Hu, <- Hh, F1, F2. reflexivity. }
    eexists. split; [|split; [|split]].
    + unfold create_meal_plan. erewrite bind_run by exact Eq. cbv beta iota.
      erewrite bind_run by (apply uuid4_run; exact He).
      unfold insert_meal_plan, bind, read, check, write, commit, ret. simpl.
      rewrite Hpk. simpl. rewrite Hfk. reflexivity.
    + reflexivity.
    + reflexivity.
    + intros order member Hord Hmember.
      erewrite (get_user_meal_plans_run order w _ member (Household.id h) H Hmember)
        by reflexivity.
      eexists. split; [reflexivity|]. apply Hord. apply filter_In. simpl. split.
      * apply in_or_app. right. left. reflexivity.
      * apply uuid_eqb_refl.
Qed.

Lemma create_meal_plan_outcomes_witness :
  exists w' l,
    create_meal_plan 2 (Some "Week 12"%string) (session visitor_db [72%N])
    = Return (MealPlan.mk 72 2 10 (Some "Week 12"%string)) w'
    /\ get_user_meal_plans (fun rows => rows) 1 w' = Return l w'
    /\ In (MealPlan.mk 72 2 10 (Some "Week 12"%string)) l.
Proof.
  destruct (create_meal_plan_outcomes (session visitor_db [72%N]) 2
              (Some "Week 12"%string)) as [_ Hc].
  - vm_compute. reflexivity.
  - destruct (Hc 10%N 72%N []) as [w' [E [_ [_ Hall]]]].
    + exists (HouseholdMembership.mk 21 10 2 "member").
      split; [right; left; reflexivity|]. split; reflexivity.
    + reflexivity.
    + reflexivity.
    + destruct (Hall (fun rows => rows) 1%N) as [l [El Hl]].
      * intros l x Hx. exact Hx.
      * exists (HouseholdMembership.mk 20 10 1 "admin").
        split; [left; reflexivity|]. split; reflexivity.
      * exists w', l. split; [exact E|]. split; assumption.
Defined.

(** X28. A meal plan is listed to the household but shown to its maker
    only: for a member of the household of a plan who did not make the
    plan, [GET /meal-plans/] returns a list that holds the plan, and
    [GET /meal-plans/{id}] for that plan answers 403. *)
Theorem meal_plan_listed_but_forbidden (order : list MealPlan.t -> list MealPlan.t)
    (w : World) (current_user : User.t) (p : MealPlan.t) :
  (forall l x, In x l -> In x (order l)) ->
  db_ok (pending w) = true ->
  In p (meal_plans (pending w)) ->
  member_of (pending w) (User.id current_user) (MealPlan.household_id p) ->
  MealPlan.user_id p <> User.id current_user ->
  (exists l, meal_plans_router.get_user_meal_plans order current_user w = Returned l w
             /\ In p l)
  /\ meal_plans_router.get_meal_plan current_user (MealPlan.id p) w
     = Failed (HTTPException 403 "Not authorized to access this meal plan") w.
Proof.
  intros Hord H Hp Hm Hne. split.
  - unfold meal_plans_router.get_user_meal_plans, await,
      MealPlanService.get_user_meal_plans.
    rewrite (get_user_meal_plans_run order w w _ _ H Hm eq_refl eq_refl).
    eexists. split; [reflexivity|]. apply Hord. apply filter_In.
    split; [exact Hp | apply uuid_eqb_refl].
  - unfold meal_plans_router.get_meal_plan, and_then, await, MealPlanService.get_meal_plan.
    rewrite (get_meal_plan_found w p H Hp).
    apply uuid_eqb_neq in Hne. rewrite Hne. reflexivity.
Qed.

Lemma meal_plan_listed_but_forbidden_witness :
  (exists l, meal_plans_router.get_user_meal_plans (fun rows => rows)
               (User.mk 2 (Some 10%N)) (session visitor_db [])
             = Returned l (session visitor_db [])
             /\ In (MealPlan.mk 70 1 10 None) l)
  /\ meal_plans_router.get_meal_plan (User.mk 2 (Some 10%N)) 70 (session visitor_db [])
     = Failed (HTTPException 403 "Not authorized to access this meal plan")
         (session visitor_db []).
Proof.
  apply (meal_plan_listed_but_forbidden (fun rows => rows) (session visitor_db [])
           (User.mk 2 (Some 10%N)) (MealPlan.mk 70 1 10 None)).
  - intros l x Hx. exact Hx.
  - vm_compute. reflexivity.
  - left. reflexivity.
  - exists (HouseholdMembership.mk 21 10 2 "member").
    split; [right; left; reflexivity|]. split; reflexivity.
  - discriminate.
Defined.

Lemma generate_shopping_list_unknown_plan (w : World) (user_id meal_plan_id : UUID) :
  has_id MealPlan.id (meal_plans (pending w)) meal_plan_id = false ->
  generate_shopping_list_from_meal_plan user_id meal_plan_id w
  = Raise (ValueError "Meal plan not found") w.
Proof.
  intros Hn. unfold generate_shopping_list_from_meal_plan, get_meal_plan, select, read, bind.
  unfold has_id in Hn. apply existsb_filter_nil in Hn. rewrite Hn. reflexivity.
Qed.

(** X29. The endpoint that generates a shopping list does not ask whose
    meal plan it reads, and it gets no further than the first planned meal.
    For any plan on file that has no planned meal and any user on file,
    with a new id to draw, it returns a list that carries this user and the
    household of the plan, whether or not the user belongs to that
    household: every member of the household of the plan then finds the
    list in [get_user_shopping_lists], a maker without a household finds no
    list at all there, and [GET /shopping-lists/{id}] answers 403 to
    everyone but the maker.  For a plan that has a planned meal the service
    raises [MissingGreenlet], so the endpoint answers 400, to members of the
    household as to everyone else; no item is made and nothing is
    committed. *)
Theorem shopping_list_from_any_meal_plan (py_str : Raised -> string) (w : World)
    (current_user : User.t) (mp : MealPlan.t) (id : UUID) (rest : list N) :
  db_ok (pending w) = true ->
  In mp (meal_plans (pending w)) ->
  has_id User.id (users (pending w)) (User.id current_user) = true ->
  entropy w = id :: rest ->
  has_id ShoppingList.id (shopping_lists (pending w)) id = false ->
  String.length (shopping_list_name mp) <= 255 ->
  let shopping_list :=
    ShoppingList.mk id (Some (MealPlan.id mp)) (User.id current_user)
      (MealPlan.household_id mp) (Some (shopping_list_name mp)) in
  (planned_meals_of (pending w) mp = [] ->
   exists w',
     shopping_lists_router.create_shopping_list_from_meal_plan py_str current_user
       (MealPlan.id mp) w
     = Returned shopping_list w'
     /\ (forall (order : list ShoppingList.t -> list ShoppingList.t) (member : UUID),
           (forall l x, In x l -> In x (order l)) ->
           member_of (pending w) member (MealPlan.household_id mp) ->
           exists l, get_user_shopping_lists order member w' = Return l w'
                     /\ In shopping_list l)
     /\ ((forall h, ~ member_of (pending w) (User.id current_user) h) ->
         forall order : list ShoppingList.t -> list ShoppingList.t,
           get_user_shopping_lists order (User.id current_user) w' = Return [] w')
     /\ (forall other : User.t,
           User.id other <> User.id current_user ->
           shopping_lists_router.get_shopping_list other id w'
           = Failed (HTTPException 403 "Not authorized to access this shopping list") w'))
  /\ (planned_meals_of (pending w) mp <> [] ->
      exists w',
        shopping_lists_router.create_shopping_list_from_meal_plan py_str current_user
          (MealPlan.id mp) w
        = Failed (HTTPException 400
                    (String.append "Failed to generate shopping list: "
                       (py_str (ServiceError MissingGreenlet)))) w'
        /\ shopping_list_items (pending w') = shopping_list_items (pending w)
        /\ committed w' = committed w).
Proof.
  intros H Hmp Hu He Hpk Hname shopping_list.
  apply Nat.leb_le in Hname.
  pose proof (generate_shopping_list_run w (User.id current_user) mp id rest
                H Hmp Hu He Hpk Hname) as Hrun.
  cbv zeta in Hrun.
  unfold shopping_lists_router.create_shopping_list_from_meal_plan, try_except_http,
    await, ShoppingListService.generate_shopping_list_from_meal_plan.
  rewrite Hrun. split.
  - intros E. rewrite E. eexists. split; [reflexivity|]. split; [|split].
    + intros order member Hord Hmember.
      erewrite (get_user_shopping_lists_run order w _ member _ H Hmember) by reflexivity.
      eexists. split; [reflexivity|]. apply Hord. apply filter_In. simpl. split.
      * apply in_or_app. right. left. reflexivity.
      * apply uuid_eqb_refl.
    + intros Hno order.
      destruct (user_household_decided w (User.id current_user) H)
        as [[_ Eq] | [h [_ [Hmem _]]]].
      * unfold get_user_shopping_lists.
        erewrite bind_run
          by (apply (get_user_household_transfer w); [reflexivity | reflexivity | exact Eq]).
        reflexivity.
      * exfalso. apply (Hno (Household.id h)). apply Hmem. reflexivity.
    + intros other Hne.
      unfold shopping_lists_router.get_shopping_list, and_then, await,
        ShoppingListService.get_shopping_list, get_shopping_list, select, read, bind.
      simpl. rewrite filter_app. unfold has_id in Hpk. apply existsb_filter_nil in Hpk.
      rewrite Hpk. simpl. rewrite uuid_eqb_refl. simpl.
      apply not_eq_sym in Hne. apply uuid_eqb_neq in Hne. rewrite Hne. reflexivity.
  - intros E. destruct (planned_meals_of (pending w) mp) as [|pm pms]; [contradiction|].
    eexists. split; [reflexivity|]. split; reflexivity.
Qed.

Lemma shopping_list_from_any_meal_plan_witness :
  (exists w',
     shopping_lists_router.create_shopping_list_from_meal_plan (fun _ => ""%string)
       (User.mk 3 None) 71 (session visitor_db [90%N])
     = Returned (ShoppingList.mk 90 (Some 71%N) 3 10
                   (Some (shopping_list_name (MealPlan.mk 71 1 10 None)))) w'
     /\ (forall order : list ShoppingList.t -> list ShoppingList.t,
           get_user_shopping_lists order 3 w' = Return [] w'))
  /\ (exists w',
        shopping_lists_router.create_shopping_list_from_meal_plan (fun _ => ""%string)
          (User.mk 1 (Some 10%N)) 70 (session visitor_db [90%N])
        = Failed (HTTPException 400 "Failed to generate shopping list: ") w').
Proof.
  split.
  - destruct (shopping_list_from_any_meal_plan (fun _ => ""%string)
                (session visitor_db [90%N]) (User.mk 3 None) (MealPlan.mk 71 1 10 None)
                90%N []) as [Hempty _].
    + vm_compute. reflexivity.
    + right. left. reflexivity.
    + vm_compute. reflexivity.
    + reflexivity.
    + vm_compute. reflexivity.
    + apply Nat.leb_le. vm_compute. reflexivity.
    + destruct Hempty as [w' [E [_ [Hnone _]]]]; [vm_compute; reflexivity|].
      exists w'. split; [exact E|]. apply Hnone.
      intros h [m [Hm [Hu _]]]. simpl in Hm.
      destruct Hm as [<- | [<- | []]]; discriminate.
  - destruct (shopping_list_from_any_meal_plan (fun _ => ""%string)
                (session visitor_db [90%N]) (User.mk 1 (Some 10%N)) (MealPlan.mk 70 1 10 None)
                90%N []) as [_ Hmeal].
    + vm_compute. reflexivity.
    + left. reflexivity.
    + vm_compute. reflexivity.
    + reflexivity.
    + vm_compute. reflexivity.
    + apply Nat.leb_le. vm_compute. reflexivity.
    + destruct Hmeal as [w' [E _]]; [vm_compute; discriminate|].
      exists w'. exact E.
Defined.

(** X30. The answers of the endpoint that generates a shopping list: it
    returns what [generate_shopping_list_from_meal_plan] returned, answers
    404 when the service raised a [ValueError] and 400 for every other
    exception; it has no answer 403.  For an unknown meal plan the answer
    is 404 with the printed [ValueError] as detail, and nothing changes. *)
Theorem shopping_list_endpoint_answers (py_str : Raised -> string) (current_user : User.t)
    (meal_plan_id : UUID) (w : World) :
  match shopping_lists_router.create_shopping_list_from_meal_plan py_str current_user
          meal_plan_id w with
  | Returned shopping_list w' =>
      generate_shopping_list_from_meal_plan (User.id current_user) meal_plan_id w
      = Return shopping_list w'
  | Failed (HTTPException status_code _) w' =>
      exists e,
        generate_shopping_list_from_meal_plan (User.id current_user) meal_plan_id w
        = Raise e w'
        /\ status_code = match e with ValueError _ => 404 | _ => 400 end
  | Failed (ServiceError _) _ => False
  end
  /\ (has_id MealPlan.id (meal_plans (pending w)) meal_plan_id = false ->
      shopping_lists_router.create_shopping_list_from_meal_plan py_str current_user
        meal_plan_id w
      = Failed (HTTPException 404 (py_str (ServiceError (ValueError "Meal plan not found"))))
          w).
Proof.
  unfold shopping_lists_router.create_shopping_list_from_meal_plan, try_except_http, await,
    ShoppingListService.generate_shopping_list_from_meal_plan.
  split.
  - destruct (generate_shopping_list_from_meal_plan (User.id current_user) meal_plan_id w)
      as [s w'|e w']; [reflexivity|].
    destruct e; simpl; eexists; split; reflexivity.
  - intros Hn. rewrite (generate_shopping_list_unknown_plan w _ _ Hn). reflexivity.
Qed.

Lemma shopping_list_endpoint_answers_witness :
  shopping_lists_router.create_shopping_list_from_meal_plan
    (fun _ => "Meal plan not found"%string) (User.mk 3 None) 99 (session visitor_db [90%N])
  = Failed (HTTPException 404 "Meal plan not found") (session visitor_db [90%N]).
Proof.
  apply (shopping_list_endpoint_answers (fun _ => "Meal plan not found"%string)
           (User.mk 3 None) 99 (session visitor_db [90%N])).
  vm_compute. reflexivity.
Defined.
